(** * moabb paradigms: a shallow embedding of [base.py] and [p300.py]

    The development follows the two source files
      - [moabb/paradigms/base.py]  ([BaseParadigm.process_raw], [BaseParadigm.get_data])
      - [moabb/paradigms/p300.py]  ([BaseP300.__init__], [BaseP300.is_valid],
                                    [BaseP300.process_raw], [P300.used_events])

    Python values are modelled as follows.
      - floats (times in seconds, amplitudes, frequencies) are exact
        rationals [Q]; rounding is not modelled;
      - a raised exception is the [Raise] case of [res];
      - [print], cache I/O and the calls [get_data] makes on its
        collaborators are recorded in a trace of [effect]s;
      - an in-place update of the recording ([raw.set_annotations]) is
        explicit state passing: [BaseP300.process_raw] returns the
        recording as it is after the call; [BaseP300.obj_process_raw] is
        the same method with the recordings as objects in a store, where
        [raw.copy()] makes a new object and [.filter], [.set_annotations]
        update the object they are called on;
      - the primitives of mne the two files call are the operations of the
        class [Mne]; what the proofs need to know about them are its laws.
        [ToyMne] is an executable instance used to run the code on
        concrete recordings. *)

From Stdlib Require Import List String ZArith QArith Qround Bool Arith Lia Lqa.
Import ListNotations.


(* ------------------------------------------------------------------ *)
(** ** Python results: values and raised exceptions *)

Module Py.

Inductive exn : Type :=
| ValueError (msg : string)
| RuntimeError (msg : string)
| AssertionError (msg : string)
| IndexError (msg : string)
| KeyError (key : string)
| TypeError (msg : string)
| NameError (msg : string)
| OSError (msg : string).

Inductive res (A : Type) : Type :=
| Ok (a : A)
| Raise (e : exn).
Arguments Ok {A} a.
Arguments Raise {A} e.

Definition bind {A B : Type} (m : res A) (k : A -> res B) : res B :=
  match m with
  | Ok a => k a
  | Raise e => Raise e
  end.

Definition is_ok {A : Type} (m : res A) : bool :=
  match m with Ok _ => true | Raise _ => false end.

Definition is_RuntimeError (e : exn) : bool :=
  match e with RuntimeError _ => true | _ => false end.

Definition is_ValueError (e : exn) : bool :=
  match e with ValueError _ => true | _ => false end.

(** [try: body except E: handler] for the exceptions selected by [sel]. *)
Definition try_except {A : Type} (body : res A) (sel : exn -> bool)
           (handler : res A) : res A :=
  match body with
  | Ok a => Ok a
  | Raise e => if sel e then handler else Raise e
  end.

End Py.
Export Py.

Declare Scope py_scope.
Delimit Scope py_scope with py.
Notation "x <- m ;; k" := (Py.bind m (fun x => k))
  (at level 61, m at next level, right associativity) : py_scope.
Notation "' pat <- m ;; k" := (Py.bind m (fun x => match x with pat => k end))
  (at level 61, pat pattern, m at next level, right associativity) : py_scope.
Open Scope py_scope.
Open Scope string_scope.
Open Scope list_scope.

(* ------------------------------------------------------------------ *)
(** ** Rational comparisons, as Python's [<], [<=], [>=] on floats *)

Definition Qltb (x y : Q) : bool := negb (Qle_bool y x).
Definition Qleb (x y : Q) : bool := Qle_bool x y.

(* ------------------------------------------------------------------ *)
(** ** numpy arrays: a shape and an indexing function *)

Module Np.

Record ndarray : Type := { shape : list nat; item : list nat -> Q }.

Definition ndim (a : ndarray) : nat := List.length (shape a).

(** Length along the leading (window) axis; [0] for a 0-d array. *)
Definition axis0 (a : ndarray) : nat := hd 0%nat (shape a).

(** [f * a] for a float [f]. *)
Definition scale (f : Q) (a : ndarray) : ndarray :=
  {| shape := shape a; item := fun idx => (f * item a idx)%Q |}.

Definition shape_eqb (s1 s2 : list nat) : bool :=
  if list_eq_dec Nat.eq_dec s1 s2 then true else false.

(** [np.array(l)] for a list of arrays: a new leading axis when all the
    shapes agree, [ValueError] otherwise. *)
Definition array (l : list ndarray) : res ndarray :=
  match l with
  | [] => Ok {| shape := [0%nat]; item := fun _ => 0%Q |}
  | a :: rest =>
      if forallb (fun b => shape_eqb (shape b) (shape a)) rest
      then Ok {| shape := List.length l :: shape a;
                 item := fun idx =>
                           match idx with
                           | [] => 0%Q
                           | b :: idx' => item (nth b l a) idx'
                           end |}
      else Raise (ValueError "setting an array element with a sequence")
  end.

(** [a.transpose((1, 2, 3, 0))]. *)
Definition transpose_1230 (a : ndarray) : res ndarray :=
  match shape a with
  | [b; w; c; s] =>
      Ok {| shape := [w; c; s; b];
            item := fun idx =>
                      match idx with
                      | [i; j; k; l] => item a [l; i; j; k]
                      | _ => 0%Q
                      end |}
  | _ => Raise (ValueError "axes don't match array")
  end.

(** [np.append(X, x, axis=0)]. *)
Definition append0 (X x : ndarray) : res ndarray :=
  match shape X, shape x with
  | n :: r1, m :: r2 =>
      if shape_eqb r1 r2
      then Ok {| shape := (n + m)%nat :: r1;
                 item := fun idx =>
                           match idx with
                           | [] => 0%Q
                           | i :: t =>
                               if (i <? n)%nat then item X idx
                               else item x ((i - n)%nat :: t)
                           end |}
      else Raise (ValueError "all the input array dimensions except for the concatenation axis must match exactly")
  | _, _ => Raise (ValueError "zero-dimensional arrays cannot be concatenated")
  end.

(** [len(x[0])]: indexing the first entry of the leading axis, then its
    length. *)
Definition len_item0 (x : ndarray) : res nat :=
  match shape x with
  | [] => Raise (IndexError "too many indices for array")
  | O :: _ => Raise (IndexError "index 0 is out of bounds for axis 0 with size 0")
  | S _ :: [] => Raise (TypeError "object of type 'numpy.float64' has no len()")
  | S _ :: c :: _ => Ok c
  end.

End Np.
Export Np.

(* ------------------------------------------------------------------ *)
(** ** pandas data frames, row by row *)

Module Pd.

Inductive cell : Type :=
| CInt (z : Z)
| CStr (s : string).

Definition row : Type := list (string * cell).
Definition DataFrame : Type := list row.

(** [pd.DataFrame(index=range(n))]: [n] rows, no column. *)
Definition DataFrame_of_range (n : nat) : DataFrame := repeat [] n.

Fixpoint row_set (col : string) (v : cell) (r : row) : row :=
  match r with
  | [] => [(col, v)]
  | (c, w) :: r' =>
      if String.eqb c col then (c, v) :: r' else (c, w) :: row_set col v r'
  end.

Fixpoint row_get (col : string) (r : row) : option cell :=
  match r with
  | [] => None
  | (c, w) :: r' => if String.eqb c col then Some w else row_get col r'
  end.

(** [df[col] = v] for a scalar [v]. *)
Definition set_column (col : string) (v : cell) (df : DataFrame) : DataFrame :=
  map (row_set col v) df.

(** [pd.concat(frames, ignore_index=True)]. *)
Definition concat (frames : list DataFrame) : res DataFrame :=
  match frames with
  | [] => Raise (ValueError "No objects to concatenate")
  | _ => Ok (List.concat frames)
  end.

End Pd.

(* ------------------------------------------------------------------ *)
(** ** Recordings, events and the dataset collaborator *)

Inductive chtype : Type := Eeg | Stim | Eog | Misc.

Record Annotation : Type :=
  { onset : Q; duration : Q; description : string }.

(** [mne.io.Raw]: what the two files read of it. [data] is
    channels x samples. *)
Record Raw : Type :=
  { ch_names : list string;
    ch_types : list chtype;
    sfreq : Q;
    meas_date : option Z;
    annotations : list Annotation;
    data : list (list Q);
    filenames : list string }.

(** The recording [raw] holding the annotations [a]: what
    [raw.set_annotations] leaves of [raw] when [a] is what it stores. *)
Definition set_annotations (raw : Raw) (a : list Annotation) : Raw :=
  {| ch_names := ch_names raw;
     ch_types := ch_types raw;
     sfreq := sfreq raw;
     meas_date := meas_date raw;
     annotations := a;
     data := data raw;
     filenames := filenames raw |}.

(** One row [sample, previous, code] of an mne events array. *)
Record event : Type := { ev_sample : Z; ev_prev : Z; ev_code : Z }.

(** A value of an event dictionary: one code, or a group of codes. *)
Inductive code : Type :=
| CodeInt (c : Z)
| CodeList (cs : list Z).

(** A Python [dict] from label to code, in insertion order. *)
Definition event_dict : Type := list (string * code).

Fixpoint dict_get {V : Type} (k : string) (d : list (string * V)) : option V :=
  match d with
  | [] => None
  | (k', v) :: d' => if String.eqb k' k then Some v else dict_get k d'
  end.

Fixpoint dict_set {V : Type} (k : string) (v : V) (d : list (string * V))
  : list (string * V) :=
  match d with
  | [] => [(k, v)]
  | (k', w) :: d' =>
      if String.eqb k' k then (k', v) :: d' else (k', w) :: dict_set k v d'
  end.

Definition dict_keys {V : Type} (d : list (string * V)) : list string := map fst d.
Definition dict_values {V : Type} (d : list (string * V)) : list V := map snd d.

(** [d[k]], raising [KeyError]. *)
Definition dict_item {V : Type} (k : string) (d : list (string * V)) : res V :=
  match dict_get k d with
  | Some v => Ok v
  | None => Raise (KeyError k)
  end.

Definition mem_string (s : string) (l : list string) : bool :=
  existsb (String.eqb s) l.

(** [set(a) <= set(b)]. *)
Definition set_le (a b : list string) : bool :=
  forallb (fun s => mem_string s b) a.

(** [self.reject_from_eog]: [False], [True], a channel name, or a dict of
    keyword arguments for [find_eog_events]. *)
Inductive eog_setting : Type :=
| EogFalse
| EogTrue
| EogChannel (name : string)
| EogKwargs (kw : list (string * option string)).

(** Python truthiness of [self.reject_from_eog]. *)
Definition eog_truthy (s : eog_setting) : bool :=
  match s with
  | EogFalse => false
  | EogTrue => true
  | EogChannel name => negb (String.eqb name "")
  | EogKwargs kw => match kw with [] => false | _ => true end
  end.

(** The keyword arguments of a call [mne.Epochs(raw_f, events, ...)].
    A keyword the call does not pass is [None]. *)
Record epoching_kwargs : Type :=
  { ek_event_id : event_dict;
    ek_tmin : Q;
    ek_tmax : Q;
    ek_reject_tmin : option Q;
    ek_reject_tmax : option Q;
    ek_proj : bool;
    ek_baseline : option (Q * Q);
    ek_preload : bool;
    ek_verbose : bool;
    ek_picks : list nat;
    ek_event_repeated : option string;
    ek_on_missing : string;
    ek_reject_by_annotation : option eog_setting }.

(** The nested mapping [subject -> session -> run -> Raw] a dataset
    returns, in insertion order. *)
Definition runs_t : Type := list (string * Raw).
Definition sessions_t : Type := list (string * runs_t).
Definition data_t : Type := list (Z * sessions_t).

Record Dataset : Type :=
  { ds_class_name : string;
    ds_code : string;
    ds_paradigm : string;
    ds_event_id : event_dict;
    ds_interval : Q * Q;
    ds_unit_factor : Q;
    ds_get_data : option (list Z) -> res data_t }.

(* ------------------------------------------------------------------ *)
(** ** The mne primitives the two files call

    The operations are those of the library; every one that can raise
    returns a [res]. An operation on a recording is a function of the
    recording. The functions of mne that are given a recording read it;
    the methods [filter] and [set_annotations] update the recording they
    are called on, and their operations here give what they leave in it
    ([drop_bad], [crop] and [resample] return the epochs they leave
    behind). An [mne.Annotations] object is the list of its entries; what
    the library makes of a sum of two and of [set_annotations] (it may
    order or clip them) is left to the operations. *)

Class Mne : Type :=
  { Epochs : Type;

    (** [mne.utils._get_stim_channel(None, raw.info, raise_error=False)] *)
    get_stim_channel : Raw -> list string;
    (** [mne.find_events(raw, shortest_event=0, verbose=False)] *)
    find_events : Raw -> res (list event);
    (** [mne.events_from_annotations(raw, event_id=..., verbose=False)];
        [None] when the call passes no [event_id] *)
    events_from_annotations : Raw -> option event_dict -> res (list event);
    (** [mne.preprocessing.find_eog_events(raw, **kw)], first column *)
    find_eog_events : Raw -> list (string * option string) -> res (list Z);
    (** [a + b] for two [mne.Annotations] *)
    annotations_add : list Annotation -> list Annotation -> res (list Annotation);
    (** [raw.set_annotations(a)]: the annotations [raw] holds afterwards *)
    annotations_set : Raw -> list Annotation -> res (list Annotation);
    (** [mne.pick_types(raw.info, eeg=True, stim=False)] *)
    pick_types : Raw -> list nat;
    (** [mne.pick_channels(names, include=channels, ordered=True)] *)
    pick_channels : list string -> list string -> res (list nat);
    (** [mne.merge_events(events, ids, new_id)] *)
    merge_events : list event -> list Z -> Z -> res (list event);
    (** [mne.pick_events(events, include=codes)] *)
    pick_events : list event -> list code -> res (list event);
    (** [r.filter(fmin, fmax, method="iir", picks=picks)]: the recording
        that the call leaves in [r]; for [raw.copy().filter(...)], in the
        copy *)
    raw_filter : Raw -> Q -> Q -> list nat -> res Raw;
    (** [mne.Epochs(raw_f, events, **kwargs)] *)
    make_epochs : Raw -> list event -> epoching_kwargs -> res Epochs;
    (** [epochs.drop_bad(dict(eeg=threshold))] *)
    epochs_drop_bad : Epochs -> Q -> res Epochs;
    (** [epochs.crop(tmin=tmin, tmax=tmax)] *)
    epochs_crop : Epochs -> Q -> Q -> res Epochs;
    (** [epochs.resample(rate)] *)
    epochs_resample : Epochs -> Q -> res Epochs;
    (** [epochs.events] *)
    epochs_events : Epochs -> list event;
    (** [epochs.get_data()] *)
    epochs_get_data : Epochs -> ndarray;
    (** [mne.concatenate_epochs(l)] *)
    concatenate_epochs : list Epochs -> res Epochs;
    (** [np.array(l)] for a list of [Epochs] objects *)
    array_of_epochs : list Epochs -> res ndarray;

    (** [epochs.get_data()] is windows x channels x samples, one window
        per row of [epochs.events]. *)
    get_data_shape :
      forall e, exists c s,
        shape (epochs_get_data e) = [List.length (epochs_events e); c; s];
    (** [concatenate_epochs] keeps every window of every argument. *)
    concatenate_epochs_len :
      forall l e, concatenate_epochs l = Ok e ->
        List.length (epochs_events e)
        = list_sum (map (fun x => List.length (epochs_events x)) l);
    (** [pick_events] on plain codes keeps the events with one of the
        codes and raises [RuntimeError] when none is left. *)
    pick_events_spec :
      forall evs codes,
        match filter (fun e => existsb (Z.eqb (ev_code e)) codes) evs with
        | [] => exists msg, pick_events evs (map CodeInt codes)
                            = Raise (RuntimeError msg)
        | kept => pick_events evs (map CodeInt codes) = Ok kept
        end }.

(** [len(epochs)]. *)
Definition epochs_len {M : Mne} (e : Epochs) : nat :=
  List.length (epochs_events e).

(* ------------------------------------------------------------------ *)
(** ** The recipe: the attributes [BaseP300.__init__] sets on [self] *)

Record Paradigm : Type :=
  { filters : list (Q * Q);
    events : option (list string);
    channels : option (list string);
    baseline : option (Q * Q);
    resample : option Q;
    reject_uv : option Q;
    reject_from_eog : eog_setting;
    tmin : Q;
    tmax : option Q;
    reject_tmin : option Q;
    reject_tmax : option Q }.

(** Monadic iteration of a loop body over a list. *)
Fixpoint foldM {A S : Type} (f : S -> A -> res S) (l : list A) (s : S) : res S :=
  match l with
  | [] => Ok s
  | a :: l' => s' <- f s a ;; foldM f l' s'
  end.

Fixpoint mapM {A B : Type} (f : A -> res B) (l : list A) : res (list B) :=
  match l with
  | [] => Ok []
  | a :: l' => b <- f a ;; bs <- mapM f l' ;; Ok (b :: bs)
  end.

(** [inv_events = {k: v for v, k in event_id.items()}] followed by
    [inv_events[e]]: the label of the last entry with code [e]. *)
Fixpoint inv_get (e : Z) (d : event_dict) : option string :=
  match d with
  | [] => None
  | (label, c) :: d' =>
      match inv_get e d' with
      | Some l => Some l
      | None =>
          match c with
          | CodeInt z => if Z.eqb z e then Some label else None
          | CodeList _ => None
          end
      end
  end.

(** Building [inv_events] hashes every value: a list value raises. *)
Definition inv_events (d : event_dict) : res (Z -> res string) :=
  if forallb (fun c => match c with CodeInt _ => true | CodeList _ => false end)
             (dict_values d)
  then Ok (fun e => match inv_get e d with
                    | Some l => Ok l
                    | None => Raise (KeyError "event code")
                    end)
  else Raise (TypeError "unhashable type: 'list'").

(** The window bounds and the baseline, shifted by the task-interval
    origin, and the bounds [bmin], [bmax] computed next to them. *)
Definition shifted_tmin (self : Paradigm) (dataset : Dataset) : Q :=
  (tmin self + fst (ds_interval dataset))%Q.

Definition shifted_tmax (self : Paradigm) (dataset : Dataset) : Q :=
  match tmax self with
  | None => snd (ds_interval dataset)
  | Some t => (t + fst (ds_interval dataset))%Q
  end.

Definition shifted_baseline (self : Paradigm) (dataset : Dataset) : option (Q * Q) :=
  match baseline self with
  | Some (b0, b1) =>
      Some ((b0 + fst (ds_interval dataset))%Q, (b1 + fst (ds_interval dataset))%Q)
  | None => None
  end.

Definition widened (self : Paradigm) (dataset : Dataset) : Q * Q :=
  let tmin := shifted_tmin self dataset in
  let tmax := shifted_tmax self dataset in
  match shifted_baseline self dataset with
  | Some (b0, b1) =>
      (if Qltb b0 tmin then b0 else tmin, if Qltb tmax b1 then b1 else tmax)
  | None => (tmin, tmax)
  end.

(** [bmin < tmin or bmax > tmax]. *)
Definition needs_crop (self : Paradigm) (dataset : Dataset) : bool :=
  let '(bmin, bmax) := widened self dataset in
  Qltb bmin (shifted_tmin self dataset) || Qltb (shifted_tmax self dataset) bmax.

(* ------------------------------------------------------------------ *)
(** ** Values that cross [process_raw] and [get_data] *)

(** What one band appends to [X] in [process_raw]: the epochs when
    [return_epochs], their rescaled data otherwise. *)
Definition band_item {M : Mne} (return_epochs : bool) : Type :=
  if return_epochs then Epochs else ndarray.

Definition make_item {M : Mne} (return_epochs : bool) (unit_factor : Q)
           (epochs : Epochs) : band_item return_epochs :=
  match return_epochs with
  | true => epochs
  | false => Np.scale unit_factor (epochs_get_data epochs)
  end.

(** The [X] that [BaseP300.process_raw] returns: the per-band list of
    epochs when [return_epochs], one array otherwise. *)
Definition X_t {M : Mne} (return_epochs : bool) : Type :=
  if return_epochs then list Epochs else ndarray.

(** The [X] that [get_data] returns: the empty list it starts from, an
    array, or one [Epochs] object. The types below depend on the library
    only through its type [E] of [Epochs] objects. *)
Inductive features_of (E : Type) : Type :=
| FEmpty
| FArray (a : ndarray)
| FEpochs (e : E).
Arguments FEmpty {E}.
Arguments FArray {E} a.
Arguments FEpochs {E} e.

Definition features {M : Mne} : Type := features_of Epochs.

(** Length of [X] along the window axis. *)
Definition n_windows {M : Mne} (X : features) : nat :=
  match X with
  | FEmpty => 0%nat
  | FArray a => axis0 a
  | FEpochs e => epochs_len e
  end.

(** The cache file: a pickled dict with the keys it holds. *)
Record pickled_of (E : Type) : Type :=
  { pk_labels : option (list string);
    pk_metadata : option Pd.DataFrame;
    pk_X : option (features_of E) }.
Arguments pk_labels {E} p.
Arguments pk_metadata {E} p.
Arguments pk_X {E} p.

Definition pickled {M : Mne} : Type := pickled_of Epochs.

(** The cache key [f"{dataset.__class__.__name__}_{subjects}"]. *)
Definition cache_key : Type := (string * option (list Z))%type.

(** The file system under [/tmp/moabb/cache]. *)
Record FileSystem_of (E : Type) : Type :=
  { fs_makedirs : res unit;
    fs_load : cache_key -> res (pickled_of E);
    fs_dump : cache_key -> pickled_of E -> res unit }.
Arguments fs_makedirs {E} f.
Arguments fs_load {E} f key.
Arguments fs_dump {E} f key payload.

Definition FileSystem {M : Mne} : Type := FileSystem_of Epochs.

(** What [get_data] does to the outside, in order. *)
Inductive effect_of (E : Type) : Type :=
| Print (msg : string)
| PrintExn (e : exn)
| Makedirs (path : string)
| CacheRead (key : cache_key)
| CacheWrite (key : cache_key) (payload : pickled_of E)
| CallIsValid (code : string)
| CallDatasetGetData (subjects : option (list Z))
| CallPrepareProcess
| CallProcessRaw (subject : Z) (session run : string).
Arguments Print {E} msg.
Arguments PrintExn {E} e.
Arguments Makedirs {E} path.
Arguments CacheRead {E} key.
Arguments CacheWrite {E} key payload.
Arguments CallIsValid {E} code.
Arguments CallDatasetGetData {E} subjects.
Arguments CallPrepareProcess {E}.
Arguments CallProcessRaw {E} subject session run.

Definition effect {M : Mne} : Type := effect_of Epochs.

(** A computation with a trace of effects that returns or raises. *)
Definition io {M : Mne} (A : Type) : Type := (list effect * res A)%type.

Definition io_ret {M : Mne} {A : Type} (a : A) : io A := ([], Ok a).

Definition io_bind {M : Mne} {A B : Type} (m : io A) (k : A -> io B) : io B :=
  match m with
  | (t, Ok a) => let '(t', r) := k a in (t ++ t', r)
  | (t, Raise e) => (t, Raise e)
  end.

Definition emit {M : Mne} (e : effect) : io unit := ([e], Ok tt).

Definition lift {M : Mne} {A : Type} (r : res A) : io A := ([], r).

Notation "x <~ m ;; k" := (io_bind m (fun x => k))
  (at level 61, m at next level, right associativity) : py_scope.
Notation "' pat <~ m ;; k" := (io_bind m (fun x => match x with pat => k end))
  (at level 61, pat pattern, m at next level, right associativity) : py_scope.

Fixpoint io_foldM {M : Mne} {A S : Type} (f : S -> A -> io S) (l : list A) (s : S)
  : io S :=
  match l with
  | [] => io_ret s
  | a :: l' => s' <~ f s a ;; io_foldM f l' s'
  end.

(* ------------------------------------------------------------------ *)
(** ** Recordings as objects

    [raw.copy()], [raw.filter(...)] and [raw.set_annotations(...)] are
    methods of a recording: [copy] makes a new recording, the other two
    update the recording they are called on and return it. To tell a
    recording from its copies, the recordings that exist are kept in a
    store and named by their position in it. A computation takes the store
    and gives it back as it leaves it, also when it raises. *)

Definition ref : Type := nat.
Definition store : Type := list Raw.

Definition obj (A : Type) : Type := store -> store * res A.

Definition obj_ret {A : Type} (a : A) : obj A := fun h => (h, Ok a).

Definition obj_bind {A B : Type} (m : obj A) (k : A -> obj B) : obj B :=
  fun h => match m h with
           | (h', Ok a) => k a h'
           | (h', Raise e) => (h', Raise e)
           end.

Definition obj_lift {A : Type} (r : res A) : obj A := fun h => (h, r).

Notation "x <== m ;; k" := (obj_bind m (fun x => k))
  (at level 61, m at next level, right associativity) : py_scope.

Fixpoint obj_foldM {A S : Type} (f : S -> A -> obj S) (l : list A) (s : S) : obj S :=
  match l with
  | [] => obj_ret s
  | a :: l' => s' <== f s a ;; obj_foldM f l' s'
  end.

(** The recording a name refers to. A name is bound to a recording of
    the store wherever the code below uses one. *)
Definition deref (r : ref) : obj Raw :=
  fun h => (h, match nth_error h r with
               | Some v => Ok v
               | None => Raise (NameError "name is not defined")
               end).

Fixpoint update (h : store) (r : ref) (v : Raw) : store :=
  match h, r with
  | [], _ => []
  | _ :: h', O => v :: h'
  | x :: h', S r' => x :: update h' r' v
  end.

(** The recording [r] becomes [v]. *)
Definition write (r : ref) (v : Raw) : obj unit := fun h => (update h r v, Ok tt).

(** [r.copy()]: a new recording, equal to [r]. *)
Definition raw_copy (r : ref) : obj ref :=
  v <== deref r ;;
  fun h => (h ++ [v], Ok (List.length h)).

(** [r.filter(fmin, fmax, method="iir", picks=picks, verbose=False)]:
    filters [r] itself and returns it. *)
Definition raw_filter_inplace {M : Mne} (r : ref) (fmin fmax : Q) (picks : list nat)
  : obj ref :=
  v <== deref r ;;
  filtered <== obj_lift (raw_filter v fmin fmax picks) ;;
  _ <== write r filtered ;;
  obj_ret r.

(** [r.set_annotations(a)]: sets the annotations of [r] itself and
    returns it. *)
Definition raw_set_annotations {M : Mne} (r : ref) (a : list Annotation) : obj ref :=
  v <== deref r ;;
  stored <== obj_lift (annotations_set v a) ;;
  _ <== write r (set_annotations v stored) ;;
  obj_ret r.

(* ------------------------------------------------------------------ *)
(** ** [base.py]: class [BaseParadigm] *)

Module BaseParadigm.

Section ProcessRaw.

Context {M : Mne}.
(** The abstract method [used_events] of the concrete paradigm. *)
Variable used_events : Paradigm -> Dataset -> res event_dict.

(** The [X] of [BaseParadigm.process_raw]: an array, or with
    [return_epochs] the single [Epochs] object or whatever
    [np.array] makes of several of them. *)
Definition Xbase_t (return_epochs : bool) : Type :=
  if return_epochs then (Epochs + ndarray)%type else ndarray.

Definition result (return_epochs : bool) : Type :=
  (Xbase_t return_epochs * list string * Pd.DataFrame * list Raw)%type.

Definition loop_state (return_epochs : bool) : Type :=
  (list (band_item return_epochs) * list Raw * option Epochs)%type.

(** Lines 165-178: the keyword arguments of the call to [mne.Epochs].
    The window passed is [bmin .. bmax]. *)
Definition epoching_kwargs_of (self : Paradigm) (dataset : Dataset)
           (event_id : event_dict) (picks : list nat) : epoching_kwargs :=
  {| ek_event_id := event_id;
     ek_tmin := fst (widened self dataset);
     ek_tmax := snd (widened self dataset);
     ek_reject_tmin := None;
     ek_reject_tmax := None;
     ek_proj := false;
     ek_baseline := shifted_baseline self dataset;
     ek_preload := true;
     ek_verbose := false;
     ek_picks := picks;
     ek_event_repeated := Some "drop";
     ek_on_missing := "ignore";
     ek_reject_by_annotation := None |}.

(** Lines 146-189, one iteration of [for bandpass in self.filters]. *)
Definition band_step (self : Paradigm) (raw : Raw) (dataset : Dataset)
           (return_epochs return_runs : bool)
           (events : list event) (event_id : event_dict) (picks : list nat)
           (st : loop_state return_epochs) (bandpass : Q * Q)
  : res (loop_state return_epochs) :=
  let '(X, runs, _) := st in
  let '(fmin, fmax) := bandpass in
  raw_f <- raw_filter raw fmin fmax picks ;;
  let tmin := shifted_tmin self dataset in
  let tmax := shifted_tmax self dataset in
  epochs <- make_epochs raw_f events
                        (epoching_kwargs_of self dataset event_id picks) ;;
  epochs <- (if needs_crop self dataset
             then epochs_crop epochs tmin tmax
             else Ok epochs) ;;
  epochs <- match resample self with
            | Some rate => epochs_resample epochs rate
            | None => Ok epochs
            end ;;
  Ok (X ++ [make_item return_epochs (ds_unit_factor dataset) epochs],
      if return_runs then runs ++ [raw_f] else runs,
      Some epochs).

(** Lines 194-198. *)
Definition assemble (return_epochs : bool) (n_filters : nat)
  : list (band_item return_epochs) -> res (Xbase_t return_epochs) :=
  match return_epochs with
  | true => fun X =>
      if (n_filters =? 1)%nat
      then match X with
           | x :: _ => Ok (inl x)
           | [] => Raise (IndexError "list index out of range")
           end
      else a <- array_of_epochs X ;;
           a <- Np.transpose_1230 a ;;
           Ok (inr a)
  | false => fun X =>
      if (n_filters =? 1)%nat
      then match X with
           | x :: _ => Ok x
           | [] => Raise (IndexError "list index out of range")
           end
      else a <- Np.array X ;; Np.transpose_1230 a
  end.

(** Lines 122-201, after the events were found. *)
Definition process_events (self : Paradigm) (raw : Raw) (dataset : Dataset)
           (return_epochs return_runs : bool)
           (event_id : event_dict) (events : list event)
  : res (option (result return_epochs)) :=
  picks <- match channels self with
           | None => Ok (pick_types raw)
           | Some channels => pick_channels (ch_names raw) channels
           end ;;
  match pick_events events (dict_values event_id) with
  | Raise (RuntimeError _) => Ok None
  | Raise e => Raise e
  | Ok events =>
      st <- foldM (band_step self raw dataset return_epochs return_runs
                             events event_id picks)
                  (filters self) ([], [], None) ;;
      let '(X, runs, last) := st in
      match last with
      | None => Raise (NameError "local variable 'epochs' referenced before assignment")
      | Some epochs =>
          inv <- inv_events event_id ;;
          labels <- mapM (fun e => inv (ev_code e)) (epochs_events epochs) ;;
          X <- assemble return_epochs (List.length (filters self)) X ;;
          let metadata := Pd.DataFrame_of_range (List.length labels) in
          Ok (Some (X, labels, metadata, runs))
      end
  end.

(** [BaseParadigm.process_raw]: the warnings logged, and what the call
    returns or raises. [Ok None] is the bare [return]. *)
Definition process_raw (self : Paradigm) (raw : Raw) (dataset : Dataset)
           (return_epochs return_runs : bool)
  : list string * res (option (result return_epochs)) :=
  match used_events self dataset with
  | Raise e => ([], Raise e)
  | Ok event_id =>
      if (0 <? List.length (get_stim_channel raw))%nat
      then
        ([], events <- find_events raw ;;
             process_events self raw dataset return_epochs return_runs
                            event_id events)
      else
        match events_from_annotations raw (Some event_id) with
        | Raise (ValueError _) =>
            ([("No matching annotations in " ++ String.concat ", " (filenames raw))%string],
             Ok None)
        | Raise e => ([], Raise e)
        | Ok events =>
            ([], process_events self raw dataset return_epochs return_runs
                                event_id events)
        end
  end.

End ProcessRaw.

Section GetData.

Context {M : Mne}.
(** The fourth component of what [self.process_raw] returns. *)
Variable PR : Type.
(** The methods [get_data] calls on [self]. [prepare_process] is the
    inherited one, which does nothing. *)
Variable is_valid : Paradigm -> Dataset -> bool.
Variable process_raw :
  Paradigm -> Raw -> Dataset -> forall return_epochs : bool, bool ->
  Raw * res (option (X_t return_epochs * list string * Pd.DataFrame * PR)).
Variable fs : FileSystem.

(** [X] while it grows: a list of per-run [x] when [return_epochs];
    otherwise the empty list ([None]) or an array. *)
Definition acc_X (return_epochs : bool) : Type :=
  if return_epochs then list (list Epochs) else option ndarray.

Definition acc_state (return_epochs : bool) : Type :=
  (acc_X return_epochs * list string * list Pd.DataFrame * list PR)%type.

Definition init_state (return_epochs : bool) : acc_state return_epochs :=
  (match return_epochs return acc_X return_epochs with
   | true => []
   | false => None
   end, [], [], []).

(** [len(x[0])]. *)
Definition len_x0 (return_epochs : bool) : X_t return_epochs -> res nat :=
  match return_epochs with
  | true => fun x =>
      match x with
      | [] => Raise (IndexError "list index out of range")
      | e :: _ => Ok (epochs_len e)
      end
  | false => fun x => Np.len_item0 x
  end.

(** [len(X)]. *)
Definition len_X (return_epochs : bool) : acc_X return_epochs -> nat :=
  match return_epochs with
  | true => fun X => List.length X
  | false => fun X => match X with None => 0%nat | Some a => axis0 a end
  end.

(** Lines 293-296: [X.append(x)] or [X = np.append(X, x, axis=0)]. *)
Definition grow (return_epochs : bool)
  : acc_X return_epochs -> X_t return_epochs -> res (acc_X return_epochs) :=
  match return_epochs with
  | true => fun X x => Ok (X ++ [x])
  | false => fun X x =>
      match X with
      | Some a => a' <- Np.append0 a x ;; Ok (Some a')
      | None => Raise (ValueError "zero-dimensional arrays cannot be concatenated")
      end
  end.

(** Line 299: [X = [x] if return_epochs else x]. *)
Definition start (return_epochs : bool)
  : X_t return_epochs -> acc_X return_epochs :=
  match return_epochs with
  | true => fun x => [x]
  | false => fun x => Some x
  end.

Definition empty_run_message (run : string) : string :=
  ("All epochs were removed in run " ++ run ++ ". Are you sure this is right?")%string.

(** Lines 275-304, the body of [for run, raw in runs.items()]. *)
Definition run_step (self : Paradigm) (dataset : Dataset)
           (return_epochs return_runs : bool) (subject : Z) (session : string)
           (st : acc_state return_epochs) (item : string * Raw)
  : io (acc_state return_epochs) :=
  let '(run, raw) := item in
  let '(X, labels, metadata, processed_runs) := st in
  _ <~ emit (CallProcessRaw subject session run) ;;
  proc <~ lift (snd (process_raw self raw dataset return_epochs return_runs)) ;;
  match proc with
  | None => io_ret st
  | Some (x, lbs, met, praw) =>
      let met := Pd.set_column "subject" (Pd.CInt subject) met in
      let met := Pd.set_column "session" (Pd.CStr session) met in
      let met := Pd.set_column "run" (Pd.CStr run) met in
      n <~ lift (len_x0 return_epochs x) ;;
      if (0 <? n)%nat then
        let metadata := metadata ++ [met] in
        '(X, labels) <~
          (if (0 <? len_X return_epochs X)%nat
           then X' <~ lift (grow return_epochs X x) ;;
                io_ret (X', labels ++ lbs)
           else io_ret (start return_epochs x, lbs)) ;;
        let processed_runs :=
          if return_runs then processed_runs ++ [praw] else processed_runs in
        io_ret (X, labels, metadata, processed_runs)
      else
        _ <~ emit (Print (empty_run_message run)) ;;
        io_ret st
  end.

(** Lines 272-304: the three nested loops. *)
Definition session_step (self : Paradigm) (dataset : Dataset)
           (return_epochs return_runs : bool) (subject : Z)
           (st : acc_state return_epochs) (item : string * runs_t)
  : io (acc_state return_epochs) :=
  let '(session, runs) := item in
  io_foldM (run_step self dataset return_epochs return_runs subject session)
           runs st.

Definition subject_step (self : Paradigm) (dataset : Dataset)
           (return_epochs return_runs : bool)
           (st : acc_state return_epochs) (item : Z * sessions_t)
  : io (acc_state return_epochs) :=
  let '(subject, sessions) := item in
  io_foldM (session_step self dataset return_epochs return_runs subject)
           sessions st.

(** Lines 307-311: the final [X]. *)
Definition finish_X (return_epochs : bool) : acc_X return_epochs -> res features :=
  match return_epochs with
  | true => fun X =>
      match X with
      | [] => Raise (IndexError "list index out of range")
      | _ :: _ =>
          (* [type(X[0]) is list] holds: every [x] is a per-band list *)
          firsts <- mapM (fun x => match x with
                                   | e :: _ => Ok e
                                   | [] => Raise (IndexError "list index out of range")
                                   end) X ;;
          e <- concatenate_epochs firsts ;;
          Ok (FEpochs e)
      end
  | false => fun X =>
      Ok (match X with None => FEmpty | Some a => FArray a end)
  end.

Definition key_of (dataset : Dataset) (subjects : option (list Z)) : cache_key :=
  (ds_class_name dataset, subjects).

Definition returned : Type :=
  (features * list string * Pd.DataFrame * option (list PR))%type.

(** Lines 244-259: [Some] is the early [return] of a cache hit. *)
Definition read_cache (dataset : Dataset) (subjects : option (list Z))
  : io (option returned) :=
  _ <~ lift (fs_makedirs fs) ;;
  _ <~ emit (Makedirs "/tmp/moabb/cache") ;;
  _ <~ emit (CacheRead (key_of dataset subjects)) ;;
  match (d <- fs_load fs (key_of dataset subjects) ;;
         labels <- match pk_labels d with
                   | Some v => Ok v | None => Raise (KeyError "labels") end ;;
         metadata <- match pk_metadata d with
                     | Some v => Ok v | None => Raise (KeyError "metadata") end ;;
         X <- match pk_X d with
              | Some v => Ok v | None => Raise (KeyError "X") end ;;
         Ok (X, labels, metadata)) with
  | Ok (X, labels, metadata) =>
      _ <~ emit (Print "Using cached data: Beware that it might not be the data you want!") ;;
      io_ret (Some (X, labels, metadata, None))
  | Raise e =>
      _ <~ emit (Print "Could not read cached data. Preprocessing from scratch.") ;;
      _ <~ emit (PrintExn e) ;;
      io_ret None
  end.

(** Lines 313-330. *)
Definition write_cache (dataset : Dataset) (subjects : option (list Z))
           (X : features) (labels : list string) (metadata : Pd.DataFrame)
  : io unit :=
  _ <~ lift (fs_makedirs fs) ;;
  _ <~ emit (Makedirs "/tmp/moabb/cache") ;;
  let payload := {| pk_labels := Some labels; pk_metadata := Some metadata;
                    pk_X := Some X |} in
  match fs_dump fs (key_of dataset subjects) payload with
  | Ok _ => emit (CacheWrite (key_of dataset subjects) payload)
  | Raise e =>
      _ <~ emit (Print "Could not store cached data") ;;
      emit (PrintExn e)
  end.

(** Lines 261-332: [get_data] when it is not served from the cache. *)
Definition compute (self : Paradigm) (dataset : Dataset)
           (subjects : option (list Z))
           (return_epochs return_runs cache : bool) : io returned :=
  _ <~ emit (CallIsValid (ds_code dataset)) ;;
  if negb (is_valid self dataset)
  then lift (Raise (AssertionError
                      ("Dataset " ++ ds_code dataset ++ " is not valid for paradigm")%string))
  else
    _ <~ emit (CallDatasetGetData subjects) ;;
    data <~ lift (ds_get_data dataset subjects) ;;
    _ <~ emit CallPrepareProcess ;;
    st <~ io_foldM (subject_step self dataset return_epochs return_runs)
                   data (init_state return_epochs) ;;
    let '(X, labels, metadata, processed_runs) := st in
    metadata <~ lift (Pd.concat metadata) ;;
    X <~ lift (finish_X return_epochs X) ;;
    _ <~ (if cache then write_cache dataset subjects X labels metadata
          else io_ret tt) ;;
    io_ret (X, labels, metadata, Some processed_runs).

(** Line 244: [if cache:]. *)
Definition lookup (dataset : Dataset) (subjects : option (list Z)) (cache : bool)
  : io (option returned) :=
  if cache then read_cache dataset subjects else io_ret None.

(** [BaseParadigm.get_data]. *)
Definition get_data (self : Paradigm) (dataset : Dataset)
           (subjects : option (list Z))
           (return_epochs return_runs cache : bool) : io returned :=
  hit <~ lookup dataset subjects cache ;;
  match hit with
  | Some r => io_ret r
  | None => compute self dataset subjects return_epochs return_runs cache
  end.

End GetData.

End BaseParadigm.

(* ------------------------------------------------------------------ *)
(** ** [p300.py]: class [BaseP300] *)

Module BaseP300.

(** [BaseP300.__init__]. The f-string messages are kept without the
    interpolated number. *)
Definition __init__
           (filters : list (Q * Q)) (events : option (list string))
           (tmin : Q) (tmax reject_tmin reject_tmax : option Q)
           (baseline : option (Q * Q)) (channels : option (list string))
           (resample reject_uv : option Q) (reject_from_eog : eog_setting)
  : res Paradigm :=
  _ <- match tmax with
       | Some tmax =>
           if Qleb tmax tmin
           then Raise (ValueError "tmax must be greater than tmin")
           else Ok tt
       | None => Ok tt
       end ;;
  _ <- match reject_tmin with
       | Some reject_tmin =>
           if Qleb reject_tmin tmin
           then Raise (ValueError "reject_tmin must be greater or equal to tmin")
           else Ok tt
       | None => Ok tt
       end ;;
  _ <- match reject_tmax with
       | Some reject_tmax =>
           if Qleb reject_tmax tmin
           then Raise (ValueError "reject_tmax must be greater than tmin")
           else Ok tt
       | None => Ok tt
       end ;;
  _ <- match reject_tmin, reject_tmax with
       | Some reject_tmin, Some reject_tmax =>
           if Qleb reject_tmax reject_tmin
           then Raise (ValueError "reject_tmax must be greater than reject_tmin")
           else Ok tt
       | _, _ => Ok tt
       end ;;
  Ok {| filters := filters; events := events; channels := channels;
        baseline := baseline; resample := resample; reject_uv := reject_uv;
        reject_from_eog := reject_from_eog; tmin := tmin; tmax := tmax;
        reject_tmin := reject_tmin; reject_tmax := reject_tmax |}.

(** [BaseP300.is_valid]. *)
Definition is_valid (self : Paradigm) (dataset : Dataset) : bool :=
  let ret := true in
  let ret := if negb (String.eqb (ds_paradigm dataset) "p300") then false else ret in
  let ret :=
    match events self with
    | Some ((_ :: _) as evs) =>
        if negb (set_le evs (dict_keys (ds_event_id dataset))) then false else ret
    | _ => ret
    end in
  ret.

(** [P300.used_events]: [{ev: dataset.event_id[ev] for ev in self.events}]. *)
Definition P300_used_events (self : Paradigm) (dataset : Dataset) : res event_dict :=
  match events self with
  | None => Raise (TypeError "'NoneType' object is not iterable")
  | Some evs =>
      foldM (fun d ev => c <- dict_item ev (ds_event_id dataset) ;;
                         Ok (dict_set ev c d))
            evs []
  end.

Section ProcessRaw.

Context {M : Mne}.
(** The abstract method [used_events] of the concrete paradigm. *)
Variable used_events : Paradigm -> Dataset -> res event_dict.

Definition time_pre_blink : Q := 0.25.
Definition blink_length : Q := 0.7.

(** Lines 122-130: the keyword arguments for [find_eog_events]. *)
Definition eog_kwargs_of (self : Paradigm) (raw : Raw)
  : res (list (string * option string)) :=
  match reject_from_eog self with
  | EogKwargs kw => Ok kw
  | EogChannel name =>
      if negb (mem_string name (ch_names raw))
      then Raise (ValueError (name ++ " not in channels ")%string)
      else Ok [("ch_name", Some name)]
  | EogTrue => Ok [("ch_name", None)]
  | EogFalse => Raise (NameError "eog_kwargs")
  end.

(** Lines 136-140: the entries of [blink_annot], one per blink. *)
Definition blink_annot (raw : Raw) (eog_events : list Z) : list Annotation :=
  let onsets :=
    map (fun s => (inject_Z s / sfreq raw - time_pre_blink)%Q) eog_events in
  map (fun o => {| onset := o; duration := blink_length;
                   description := "bad blink" |}) onsets.

(** Lines 121-141: the blink annotations are set on [raw] itself.
    The result is the recording after the step. *)
Definition annotate_blinks (self : Paradigm) (raw : Raw) : res Raw :=
  if eog_truthy (reject_from_eog self) then
    eog_kwargs <- eog_kwargs_of self raw ;;
    eog_events <- find_eog_events raw eog_kwargs ;;
    summed <- annotations_add (annotations raw) (blink_annot raw eog_events) ;;
    stored <- annotations_set raw summed ;;
    Ok (set_annotations raw stored)
  else Ok raw.

(** Lines 163-169, the body of the [try]. *)
Definition select_events (events : list event) (event_id : event_dict)
  : res (list event * event_dict) :=
  target <- dict_item "Target" event_id ;;
  merged <-
    match target with
    | CodeList target_codes =>
        nontarget <- dict_item "NonTarget" event_id ;;
        match nontarget with
        | CodeList nontarget_codes =>
            let event_id_new :=
              [("Target", CodeInt 1); ("NonTarget", CodeInt 0)] in
            events <- merge_events events target_codes 1 ;;
            events <- merge_events events nontarget_codes 0 ;;
            Ok (events, event_id_new)
        | CodeInt _ => Ok (events, event_id)
        end
    | CodeInt _ => Ok (events, event_id)
    end ;;
  let '(events, event_id) := merged in
  events <- pick_events events (dict_values event_id) ;;
  Ok (events, event_id).

Definition praw_t : Type :=
  (list (option Raw) * list event * epoching_kwargs)%type.

Definition result (return_epochs : bool) : Type :=
  (X_t return_epochs * list string * Pd.DataFrame * praw_t)%type.

Definition loop_state (return_epochs : bool) : Type :=
  (list (band_item return_epochs) * list (option Raw)
   * option (Epochs * epoching_kwargs))%type.

(** Lines 203-216. *)
Definition epoching_kwargs_of (self : Paradigm) (dataset : Dataset)
           (event_id : event_dict) (picks : list nat) : epoching_kwargs :=
  {| ek_event_id := event_id;
     ek_tmin := shifted_tmin self dataset;
     ek_tmax := shifted_tmax self dataset;
     ek_reject_tmin := reject_tmin self;
     ek_reject_tmax := reject_tmax self;
     ek_proj := false;
     ek_baseline := shifted_baseline self dataset;
     ek_preload := true;
     ek_verbose := false;
     ek_picks := picks;
     ek_event_repeated := None;
     ek_on_missing := "ignore";
     ek_reject_by_annotation := Some (reject_from_eog self) |}.

(** Lines 185-233, one iteration of [for bandpass in self.filters]. *)
Definition band_step (self : Paradigm) (raw : Raw) (dataset : Dataset)
           (return_epochs return_runs : bool)
           (events : list event) (event_id : event_dict) (picks : list nat)
           (st : loop_state return_epochs) (bandpass : Q * Q)
  : res (loop_state return_epochs) :=
  let '(X, runs, _) := st in
  let '(fmin, fmax) := bandpass in
  raw_f <- raw_filter raw fmin fmax picks ;;
  let tmin := shifted_tmin self dataset in
  let tmax := shifted_tmax self dataset in
  let epoching_kwargs := epoching_kwargs_of self dataset event_id picks in
  epochs <- make_epochs raw_f events epoching_kwargs ;;
  epochs <- match reject_uv self with
            | Some uv => epochs_drop_bad epochs (uv / 1000000)%Q
            | None => Ok epochs
            end ;;
  epochs <- (if needs_crop self dataset
             then epochs_crop epochs tmin tmax
             else Ok epochs) ;;
  epochs <- match resample self with
            | Some rate => epochs_resample epochs rate
            | None => Ok epochs
            end ;;
  Ok (X ++ [make_item return_epochs (ds_unit_factor dataset) epochs],
      runs ++ [if return_runs then Some raw_f else None],
      Some (epochs, epoching_kwargs)).

(** Lines 238-243. *)
Definition assemble (return_epochs : bool) (n_filters : nat)
  : list (band_item return_epochs) -> res (X_t return_epochs) :=
  match return_epochs with
  | true => fun X => Ok X
  | false => fun X =>
      if (n_filters =? 1)%nat
      then match X with
           | x :: _ => Ok x
           | [] => Raise (IndexError "list index out of range")
           end
      else a <- Np.array X ;; Np.transpose_1230 a
  end.

(** Lines 143-246: everything after the blink annotations; [raw] is
    only read from here on. [Ok None] is the bare [return]. *)
Definition process_annotated (self : Paradigm) (raw : Raw) (dataset : Dataset)
           (return_epochs return_runs : bool)
  : res (option (result return_epochs)) :=
  events <- (if (0 <? List.length (get_stim_channel raw))%nat
             then find_events raw
             else events_from_annotations raw None) ;;
  picks <- match channels self with
           | None => Ok (pick_types raw)
           | Some channels => pick_channels (ch_names raw) channels
           end ;;
  event_id <- used_events self dataset ;;
  match select_events events event_id with
  | Raise (RuntimeError _) => Ok None
  | Raise e => Raise e
  | Ok (events, event_id) =>
      _ <- match reject_tmax self with
           | Some reject_tmax =>
               if Qleb (snd (ds_interval dataset)) reject_tmax
               then Raise (ValueError "reject_tmax needs to be shorter than tmax")
               else Ok tt
           | None => Ok tt
           end ;;
      st <- foldM (band_step self raw dataset return_epochs return_runs
                             events event_id picks)
                  (filters self) ([], [], None) ;;
      let '(X, runs, last) := st in
      match last with
      | None => Raise (NameError "local variable 'epochs' referenced before assignment")
      | Some (epochs, epoching_kwargs) =>
          inv <- inv_events event_id ;;
          labels <- mapM (fun e => inv (ev_code e)) (epochs_events epochs) ;;
          X <- assemble return_epochs (List.length (filters self)) X ;;
          let metadata := Pd.DataFrame_of_range (List.length labels) in
          Ok (Some (X, labels, metadata, (runs, events, epoching_kwargs)))
      end
  end.

(** [BaseP300.process_raw]: the recording after the call, and what the
    call returns or raises. *)
Definition process_raw (self : Paradigm) (raw : Raw) (dataset : Dataset)
           (return_epochs return_runs : bool)
  : Raw * res (option (result return_epochs)) :=
  match annotate_blinks self raw with
  | Raise e => (raw, Raise e)
  | Ok raw' =>
      (raw', process_annotated self raw' dataset return_epochs return_runs)
  end.

(** [get_data] as [BaseP300] inherits it: [self.is_valid] and
    [self.process_raw] are the methods above. *)
Definition get_data (fs : FileSystem) (self : Paradigm) (dataset : Dataset)
           (subjects : option (list Z))
           (return_epochs return_runs cache : bool)
  : io (BaseParadigm.returned praw_t) :=
  BaseParadigm.get_data praw_t is_valid process_raw fs
                        self dataset subjects return_epochs return_runs cache.

(** *** [process_raw] with the recordings as objects

    The same lines with [raw] a name of a recording in the store. The
    functions of mne are given the recording the name refers to at the
    time of the call; the methods act on the store. The runs returned
    are names. *)

Definition obj_praw_t : Type :=
  (list (option ref) * list event * epoching_kwargs)%type.

Definition obj_result (return_epochs : bool) : Type :=
  (X_t return_epochs * list string * Pd.DataFrame * obj_praw_t)%type.

Definition obj_loop_state (return_epochs : bool) : Type :=
  (list (band_item return_epochs) * list (option ref)
   * option (Epochs * epoching_kwargs))%type.

(** Lines 121-141. *)
Definition obj_annotate_blinks (self : Paradigm) (raw : ref) : obj unit :=
  if eog_truthy (reject_from_eog self) then
    recording <== deref raw ;;
    eog_kwargs <== obj_lift (eog_kwargs_of self recording) ;;
    eog_events <== obj_lift (find_eog_events recording eog_kwargs) ;;
    summed <== obj_lift (annotations_add (annotations recording)
                                         (blink_annot recording eog_events)) ;;
    _ <== raw_set_annotations raw summed ;;
    obj_ret tt
  else obj_ret tt.

(** Lines 185-233, one iteration of [for bandpass in self.filters]:
    [raw.copy().filter(...)] filters the copy. *)
Definition obj_band_step (self : Paradigm) (raw : ref) (dataset : Dataset)
           (return_epochs return_runs : bool)
           (events : list event) (event_id : event_dict) (picks : list nat)
           (st : obj_loop_state return_epochs) (bandpass : Q * Q)
  : obj (obj_loop_state return_epochs) :=
  let '(X, runs, _) := st in
  let '(fmin, fmax) := bandpass in
  raw_c <== raw_copy raw ;;
  raw_f <== raw_filter_inplace raw_c fmin fmax picks ;;
  let tmin := shifted_tmin self dataset in
  let tmax := shifted_tmax self dataset in
  let epoching_kwargs := epoching_kwargs_of self dataset event_id picks in
  filtered <== deref raw_f ;;
  epochs <== obj_lift (make_epochs filtered events epoching_kwargs) ;;
  epochs <== obj_lift (match reject_uv self with
                       | Some uv => epochs_drop_bad epochs (uv / 1000000)%Q
                       | None => Ok epochs
                       end) ;;
  epochs <== obj_lift (if needs_crop self dataset
                       then epochs_crop epochs tmin tmax
                       else Ok epochs) ;;
  epochs <== obj_lift (match resample self with
                       | Some rate => epochs_resample epochs rate
                       | None => Ok epochs
                       end) ;;
  obj_ret (X ++ [make_item return_epochs (ds_unit_factor dataset) epochs],
           runs ++ [if return_runs then Some raw_f else None],
           Some (epochs, epoching_kwargs)).

(** Lines 118-246. *)
Definition obj_process_raw (self : Paradigm) (raw : ref) (dataset : Dataset)
           (return_epochs return_runs : bool)
  : obj (option (obj_result return_epochs)) :=
  _ <== obj_annotate_blinks self raw ;;
  recording <== deref raw ;;
  events <== obj_lift (if (0 <? List.length (get_stim_channel recording))%nat
                       then find_events recording
                       else events_from_annotations recording None) ;;
  picks <== obj_lift (match channels self with
                      | None => Ok (pick_types recording)
                      | Some channels => pick_channels (ch_names recording) channels
                      end) ;;
  event_id <== obj_lift (used_events self dataset) ;;
  match select_events events event_id with
  | Raise (RuntimeError _) => obj_ret None
  | Raise e => obj_lift (Raise e)
  | Ok (events, event_id) =>
      _ <== obj_lift (match reject_tmax self with
                      | Some reject_tmax =>
                          if Qleb (snd (ds_interval dataset)) reject_tmax
                          then Raise (ValueError
                                        "reject_tmax needs to be shorter than tmax")
                          else Ok tt
                      | None => Ok tt
                      end) ;;
      st <== obj_foldM (obj_band_step self raw dataset return_epochs return_runs
                                      events event_id picks)
                       (filters self) ([], [], None) ;;
      let '(X, runs, last) := st in
      match last with
      | None => obj_lift (Raise (NameError
                                   "local variable 'epochs' referenced before assignment"))
      | Some (epochs, epoching_kwargs) =>
          inv <== obj_lift (inv_events event_id) ;;
          labels <== obj_lift (mapM (fun e => inv (ev_code e)) (epochs_events epochs)) ;;
          X <== obj_lift (assemble return_epochs (List.length (filters self)) X) ;;
          let metadata := Pd.DataFrame_of_range (List.length labels) in
          obj_ret (Some (X, labels, metadata, (runs, events, epoching_kwargs)))
      end
  end.

End ProcessRaw.

(** The keyword arguments [**kwargs] of [SinglePass] and [P300]; [None] is
    a keyword that is not passed. [events] can be passed as [None]. *)
Record keywords : Type :=
  { kw_fmin : option Q;
    kw_fmax : option Q;
    kw_filters : option (list (Q * Q));
    kw_events : option (option (list string));
    kw_tmin : option Q;
    kw_tmax : option Q;
    kw_reject_tmin : option Q;
    kw_reject_tmax : option Q;
    kw_baseline : option (Q * Q);
    kw_channels : option (list string);
    kw_resample : option Q;
    kw_reject_uv : option Q;
    kw_reject_from_eog : option eog_setting }.

Definition default {A : Type} (d : A) (o : option A) : A :=
  match o with Some a => a | None => d end.

(** [SinglePass.__init__(self, fmin=1, fmax=24, **kwargs)]. *)
Definition SinglePass_init (kw : keywords) : res Paradigm :=
  match kw_filters kw with
  | Some _ => Raise (ValueError "P300 does not take argument filters")
  | None =>
      __init__ [(default 1%Q (kw_fmin kw), default 24%Q (kw_fmax kw))]
               (default None (kw_events kw))
               (default 0%Q (kw_tmin kw)) (kw_tmax kw)
               (kw_reject_tmin kw) (kw_reject_tmax kw)
               (kw_baseline kw) (kw_channels kw) (kw_resample kw)
               (kw_reject_uv kw) (default EogFalse (kw_reject_from_eog kw))
  end.

(** [P300.__init__(self, **kwargs)]. *)
Definition P300_init (kw : keywords) : res Paradigm :=
  match kw_events kw with
  | Some _ => Raise (ValueError "P300 dont accept events")
  | None =>
      SinglePass_init
        {| kw_fmin := kw_fmin kw; kw_fmax := kw_fmax kw;
           kw_filters := kw_filters kw;
           kw_events := Some (Some ["Target"; "NonTarget"]);
           kw_tmin := kw_tmin kw; kw_tmax := kw_tmax kw;
           kw_reject_tmin := kw_reject_tmin kw;
           kw_reject_tmax := kw_reject_tmax kw;
           kw_baseline := kw_baseline kw; kw_channels := kw_channels kw;
           kw_resample := kw_resample kw; kw_reject_uv := kw_reject_uv kw;
           kw_reject_from_eog := kw_reject_from_eog kw |}
  end.

(** Lines 250-253 of [BaseP300.datasets]: the interval asked of
    [utils.dataset_search]. *)
Definition datasets_interval (self : Paradigm) : option Q :=
  match tmax self with
  | None => None
  | Some tmax => Some (tmax - tmin self)%Q
  end.

(** [BaseP300.datasets]; [dataset_search] is
    [moabb.datasets.utils.dataset_search(paradigm, events, interval,
    has_all_events)]. *)
Definition datasets
           (dataset_search : string -> option (list string) -> option Q -> bool
                             -> list Dataset)
           (self : Paradigm) : list Dataset :=
  dataset_search "p300" (events self) (datasets_interval self) true.

End BaseP300.

(* ------------------------------------------------------------------ *)
(** ** An executable instance of [Mne]

    A small signal library that satisfies the laws of [Mne]: events are
    the steps of the stim channel or the annotations that are not marked
    bad, a window is a slice of samples around an event, baseline
    correction subtracts the mean of the baseline samples, amplitude
    rejection compares the peak-to-peak value of a window with the
    threshold, and the band-pass filter is a two-point moving average when
    the upper edge is at most a quarter of the sampling rate. *)

Module ToyMne.

Record epochs : Type :=
  { rows : list (event * list (list Q));  (* event, channels x samples *)
    n_chan : nat;
    lo : Z;                                (* first sample offset *)
    hi : Z;                                (* last sample offset *)
    rate : Q }.

Definition round (x : Q) : Z := Qfloor (x + (1 # 2))%Q.

Fixpoint index_of (s : string) (l : list string) : option nat :=
  match l with
  | [] => None
  | x :: l' => if String.eqb x s then Some 0%nat
               else option_map S (index_of s l')
  end.

Fixpoint indices_where {A : Type} (p : A -> bool) (l : list A) (i : nat) : list nat :=
  match l with
  | [] => []
  | x :: l' => (if p x then [i] else []) ++ indices_where p l' (S i)
  end.

Definition is_stim (t : chtype) : bool := match t with Stim => true | _ => false end.
Definition is_eeg (t : chtype) : bool := match t with Eeg => true | _ => false end.
Definition is_eog (t : chtype) : bool := match t with Eog => true | _ => false end.

Definition toy_get_stim_channel (raw : Raw) : list string :=
  map (fun i => nth i (ch_names raw) "") (indices_where is_stim (ch_types raw) 0).

(** Steps of a channel: a sample that differs from the one before it and
    is not zero. *)
Fixpoint steps (l : list Q) (prev : Z) (i : Z) : list event :=
  match l with
  | [] => []
  | x :: l' =>
      let v := Qfloor x in
      (if negb (Z.eqb v prev) && negb (Z.eqb v 0)
       then [{| ev_sample := i; ev_prev := prev; ev_code := v |}] else [])
        ++ steps l' v (i + 1)
  end.

Definition toy_find_events (raw : Raw) : res (list event) :=
  match indices_where is_stim (ch_types raw) 0 with
  | [] => Raise (ValueError "No stim channels found")
  | i :: _ => Ok (steps (nth i (data raw) []) 0 0)
  end.

Definition is_bad (a : Annotation) : bool :=
  String.prefix "bad" (description a) || String.prefix "BAD" (description a).

(** Codes of the descriptions when no [event_id] is given: the position
    of the first occurrence, from 1. *)
Fixpoint auto_ids (ds : list string) (seen : list string) : list (string * code) :=
  match ds with
  | [] => []
  | d :: ds' =>
      if mem_string d seen then auto_ids ds' seen
      else (d, CodeInt (Z.of_nat (S (List.length seen))))
             :: auto_ids ds' (seen ++ [d])
  end.

Definition toy_events_from_annotations (raw : Raw) (event_id : option event_dict)
  : res (list event) :=
  match annotations raw with
  | [] => Ok []
  | anns =>
      let good := filter (fun a => negb (is_bad a)) anns in
      let ids := match event_id with
                 | Some d => d
                 | None => auto_ids (map description good) []
                 end in
      let found :=
        flat_map (fun a => match dict_get (description a) ids with
                           | Some (CodeInt c) =>
                               [{| ev_sample := round (onset a * sfreq raw)%Q;
                                   ev_prev := 0; ev_code := c |}]
                           | _ => []
                           end) good in
      match found with
      | [] => Raise (ValueError "Could not find any of the events you specified.")
      | _ => Ok found
      end
  end.

(** Blinks: the samples where the EOG channel rises above 100 uV. *)
Fixpoint rises (l : list Q) (above : bool) (i : Z) : list Z :=
  match l with
  | [] => []
  | x :: l' =>
      let now := Qltb (100 / 1000000)%Q x in
      (if now && negb above then [i] else []) ++ rises l' now (i + 1)
  end.

Definition toy_find_eog_events (raw : Raw) (kw : list (string * option string))
  : res (list Z) :=
  let ch := match dict_get "ch_name" kw with
            | Some (Some name) => index_of name (ch_names raw)
            | _ => hd_error (indices_where is_eog (ch_types raw) 0)
            end in
  match ch with
  | None => Raise (RuntimeError "No EOG channel found")
  | Some i => Ok (rises (nth i (data raw) []) false 0)
  end.

Definition toy_annotations_add (a b : list Annotation) : res (list Annotation) :=
  Ok (a ++ b).

Definition toy_annotations_set (raw : Raw) (a : list Annotation)
  : res (list Annotation) :=
  Ok a.

Definition toy_pick_types (raw : Raw) : list nat :=
  indices_where is_eeg (ch_types raw) 0.

Definition toy_pick_channels (names include : list string) : res (list nat) :=
  mapM (fun s => match index_of s names with
                 | Some i => Ok i
                 | None => Raise (ValueError "Missing channels from ch_names")
                 end) include.

Definition toy_merge_events (evs : list event) (ids : list Z) (new_id : Z)
  : res (list event) :=
  Ok (map (fun e => if existsb (Z.eqb (ev_code e)) ids
                    then {| ev_sample := ev_sample e; ev_prev := ev_prev e;
                            ev_code := new_id |}
                    else e) evs).

Definition ints_of (codes : list code) : list Z :=
  flat_map (fun c => match c with CodeInt z => [z] | CodeList _ => [] end) codes.

Definition toy_pick_events (evs : list event) (codes : list code) : res (list event) :=
  match filter (fun e => existsb (Z.eqb (ev_code e)) (ints_of codes)) evs with
  | [] => Raise (RuntimeError "No events found")
  | kept => Ok kept
  end.

Fixpoint smooth (l : list Q) (prev : Q) : list Q :=
  match l with
  | [] => []
  | x :: l' => ((x + prev) / 2)%Q :: smooth l' x
  end.

Fixpoint map_at {A : Type} (f : A -> A) (picks : list nat) (l : list A) (i : nat)
  : list A :=
  match l with
  | [] => []
  | x :: l' => (if existsb (Nat.eqb i) picks then f x else x)
                 :: map_at f picks l' (S i)
  end.

Definition toy_raw_filter (raw : Raw) (fmin fmax : Q) (picks : list nat) : res Raw :=
  let f := if Qleb (fmax * 4)%Q (sfreq raw)
           then fun ch => smooth ch (hd 0%Q ch) else fun ch => ch in
  Ok {| ch_names := ch_names raw; ch_types := ch_types raw; sfreq := sfreq raw;
        meas_date := meas_date raw; annotations := annotations raw;
        data := map_at f picks (data raw) 0; filenames := filenames raw |}.

(** Samples [a .. b] of a channel, when they all exist. *)
Definition slice (a b : Z) (l : list Q) : option (list Q) :=
  if (0 <=? a)%Z && (a <=? b)%Z && (b <? Z.of_nat (List.length l))%Z
  then Some (firstn (Z.to_nat (b - a + 1)) (skipn (Z.to_nat a) l))
  else None.

Definition mean (l : list Q) : Q :=
  (fold_right Qplus 0%Q l / inject_Z (Z.of_nat (List.length l)))%Q.

Fixpoint all_some {A : Type} (l : list (option A)) : option (list A) :=
  match l with
  | [] => Some []
  | None :: _ => None
  | Some a :: l' => option_map (cons a) (all_some l')
  end.

Definition overlaps_bad (raw : Raw) (a b : Z) : bool :=
  existsb (fun an =>
             is_bad an
             && Qleb (onset an * sfreq raw)%Q (inject_Z b)
             && Qleb (inject_Z a) ((onset an + duration an) * sfreq raw)%Q)
          (annotations raw).

Definition toy_make_epochs (raw : Raw) (evs : list event) (kw : epoching_kwargs)
  : res epochs :=
  let n_lo := round (ek_tmin kw * sfreq raw)%Q in
  let n_hi := round (ek_tmax kw * sfreq raw)%Q in
  let by_annotation := match ek_reject_by_annotation kw with
                       | Some s => eog_truthy s
                       | None => true
                       end in
  correct <-
    match ek_baseline kw with
    | None => Ok (fun w : list Q => w)
    | Some (b0, b1) =>
        let b_lo := round (b0 * sfreq raw)%Q in
        let b_hi := round (b1 * sfreq raw)%Q in
        if (b_lo <? n_lo)%Z || (n_hi <? b_hi)%Z
        then Raise (ValueError "Baseline interval is outside of epochs data")
        else Ok (fun w : list Q =>
                   let m := mean (firstn (Z.to_nat (b_hi - b_lo + 1))
                                         (skipn (Z.to_nat (b_lo - n_lo)) w)) in
                   map (fun x => (x - m)%Q) w)
    end ;;
  let window e :=
    let a := (ev_sample e + n_lo)%Z in
    let b := (ev_sample e + n_hi)%Z in
    if by_annotation && overlaps_bad raw a b then None
    else option_map (fun w => (e, map correct w))
                    (all_some (map (fun i => slice a b (nth i (data raw) []))
                                   (ek_picks kw))) in
  Ok {| rows := flat_map (fun e => match window e with
                                   | Some r => [r] | None => [] end) evs;
        n_chan := List.length (ek_picks kw);
        lo := n_lo; hi := n_hi; rate := sfreq raw |}.

Definition peak_to_peak (w : list Q) : Q :=
  let mx := fold_right (fun x m => if Qltb m x then x else m) (hd 0%Q w) w in
  let mn := fold_right (fun x m => if Qltb x m then x else m) (hd 0%Q w) w in
  (mx - mn)%Q.

Definition toy_epochs_drop_bad (e : epochs) (threshold : Q) : res epochs :=
  Ok {| rows := filter (fun r => forallb (fun w => Qleb (peak_to_peak w) threshold)
                                        (snd r)) (rows e);
        n_chan := n_chan e; lo := lo e; hi := hi e; rate := rate e |}.

Definition toy_epochs_crop (e : epochs) (tmin tmax : Q) : res epochs :=
  let a := Z.max (lo e) (round (tmin * rate e)%Q) in
  let b := Z.min (hi e) (round (tmax * rate e)%Q) in
  if (b <? a)%Z then Raise (ValueError "tmin must be less than tmax")
  else Ok {| rows := map (fun r =>
                            (fst r,
                             map (fun w => firstn (Z.to_nat (b - a + 1))
                                                  (skipn (Z.to_nat (a - lo e)) w))
                                 (snd r))) (rows e);
             n_chan := n_chan e; lo := a; hi := b; rate := rate e |}.

Fixpoint every (k : nat) (l : list Q) (i : nat) : list Q :=
  match l with
  | [] => []
  | x :: l' => (if (i mod k =? 0)%nat then [x] else []) ++ every k l' (S i)
  end.

(** Resampling keeps every k-th sample, k the ratio of the rates. *)
Definition toy_epochs_resample (e : epochs) (r : Q) : res epochs :=
  let k := Z.to_nat (Z.max 1 (Qfloor (rate e / r)%Q)) in
  Ok {| rows := map (fun x => (fst x, map (fun w => every k w 0) (snd x))) (rows e);
        n_chan := n_chan e;
        lo := (lo e / Z.of_nat k)%Z; hi := (hi e / Z.of_nat k)%Z;
        rate := (rate e / inject_Z (Z.of_nat k))%Q |}.

Definition toy_epochs_events (e : epochs) : list event := map fst (rows e).

Definition n_times (e : epochs) : nat :=
  match rows e with
  | (_, w :: _) :: _ => List.length w
  | _ => Z.to_nat (hi e - lo e + 1)
  end.

Definition toy_epochs_get_data (e : epochs) : ndarray :=
  {| shape := [List.length (toy_epochs_events e); n_chan e; n_times e];
     item := fun idx =>
               match idx with
               | [i; j; k] =>
                   nth k (nth j (snd (nth i (rows e)
                                          ({| ev_sample := 0; ev_prev := 0;
                                              ev_code := 0 |}, []))) []) 0%Q
               | _ => 0%Q
               end |}.

Definition toy_concatenate_epochs (l : list epochs) : res epochs :=
  match l with
  | [] => Raise (ValueError "epochs_list must not be empty")
  | e :: _ =>
      Ok {| rows := flat_map rows l;
            n_chan := n_chan e; lo := lo e; hi := hi e; rate := rate e |}
  end.

Definition toy_array_of_epochs (l : list epochs) : res ndarray :=
  Np.array (map toy_epochs_get_data l).

Lemma toy_get_data_shape (e : epochs) :
  exists c s, shape (toy_epochs_get_data e) = [List.length (toy_epochs_events e); c; s].
Proof. exists (n_chan e), (n_times e). reflexivity. Qed.

Lemma flat_map_rows_length (l : list epochs) :
  List.length (flat_map rows l)
  = list_sum (map (fun x => List.length (toy_epochs_events x)) l).
Proof.
  induction l as [|e l IH]; simpl; [reflexivity|].
  rewrite length_app, IH. unfold toy_epochs_events. rewrite length_map. reflexivity.
Qed.

Lemma toy_concatenate_epochs_len (l : list epochs) (e : epochs) :
  toy_concatenate_epochs l = Ok e ->
  List.length (toy_epochs_events e)
  = list_sum (map (fun x => List.length (toy_epochs_events x)) l).
Proof.
  destruct l as [|e0 l]; simpl; intros H; [discriminate|].
  injection H as <-. unfold toy_epochs_events at 1. simpl rows.
  rewrite length_map. apply (flat_map_rows_length (e0 :: l)).
Qed.

Lemma ints_of_CodeInt (codes : list Z) : ints_of (map CodeInt codes) = codes.
Proof.
  induction codes as [|c codes IH]; simpl; [reflexivity|].
  f_equal. exact IH.
Qed.

Lemma toy_pick_events_spec (evs : list event) (codes : list Z) :
  match filter (fun e => existsb (Z.eqb (ev_code e)) codes) evs with
  | [] => exists msg, toy_pick_events evs (map CodeInt codes) = Raise (RuntimeError msg)
  | kept => toy_pick_events evs (map CodeInt codes) = Ok kept
  end.
Proof.
  unfold toy_pick_events. rewrite ints_of_CodeInt.
  destruct (filter _ evs); [eexists; reflexivity | reflexivity].
Qed.

#[export] Instance toy : Mne :=
  {| Epochs := epochs;
     get_stim_channel := toy_get_stim_channel;
     find_events := toy_find_events;
     events_from_annotations := toy_events_from_annotations;
     find_eog_events := toy_find_eog_events;
     annotations_add := toy_annotations_add;
     annotations_set := toy_annotations_set;
     pick_types := toy_pick_types;
     pick_channels := toy_pick_channels;
     merge_events := toy_merge_events;
     pick_events := toy_pick_events;
     raw_filter := toy_raw_filter;
     make_epochs := toy_make_epochs;
     epochs_drop_bad := toy_epochs_drop_bad;
     epochs_crop := toy_epochs_crop;
     epochs_resample := toy_epochs_resample;
     epochs_events := toy_epochs_events;
     epochs_get_data := toy_epochs_get_data;
     concatenate_epochs := toy_concatenate_epochs;
     array_of_epochs := toy_array_of_epochs;
     get_data_shape := toy_get_data_shape;
     concatenate_epochs_len := toy_concatenate_epochs_len;
     pick_events_spec := toy_pick_events_spec |}.

End ToyMne.

(* ------------------------------------------------------------------ *)
(** ** Concrete recordings, datasets and recipes

    Recordings are sampled at 10 Hz; amplitudes are given in microvolts
    and stored in volts; the datasets scale back by [1e6]. *)

Module Examples.

Import ToyMne.

Definition uV (z : Z) : Q := (inject_Z z / 1000000)%Q.

Definition ramp : list Z :=
  [1; 2; 3; 4; 5; 6; 7; 8; 9; 10; 11; 12; 13; 14; 15; 16; 17; 18; 19; 20]%Z.
Definition spike : list Z :=
  [0; 0; 0; 0; 0; 90; 0; 0; 0; 0; 0; 0; 0; 0; 0; 0; 0; 0; 0; 0]%Z.
Definition blink : list Z :=
  [0; 0; 0; 0; 0; 0; 0; 0; 0; 0; 0; 0; 0; 0; 0; 0; 150; 150; 0; 0]%Z.
(** A Target at sample 3 and a NonTarget at sample 10. *)
Definition stim_early : list Z :=
  [0; 0; 0; 1; 0; 0; 0; 0; 0; 0; 2; 0; 0; 0; 0; 0; 0; 0; 0; 0]%Z.
(** Both events in the last three samples: no window fits. *)
Definition stim_late : list Z :=
  [0; 0; 0; 0; 0; 0; 0; 0; 0; 0; 0; 0; 0; 0; 0; 0; 0; 1; 0; 2]%Z.

Definition recording (name : string) (eeg stim : list Z) : Raw :=
  {| ch_names := ["Cz"; "STI"]; ch_types := [Eeg; Stim]; sfreq := 10;
     meas_date := None; annotations := [];
     data := [map uV eeg; map inject_Z stim]; filenames := [name] |}.

Definition raw_plain : Raw := recording "plain.fif" ramp stim_early.
Definition raw_late : Raw := recording "late.fif" ramp stim_late.
Definition raw_spike : Raw := recording "spike.fif" spike stim_early.

(** No stim channel, and one annotation that is marked bad. *)
Definition raw_undecodable : Raw :=
  {| ch_names := ["Cz"]; ch_types := [Eeg]; sfreq := 10; meas_date := None;
     annotations := [{| onset := 0.5; duration := 0.7; description := "bad blink" |}];
     data := [map uV ramp]; filenames := ["undecodable.fif"] |}.

(** A stim channel whose only code is not in the vocabulary. *)
Definition raw_other_code : Raw :=
  recording "other.fif" ramp [0; 0; 0; 7; 0; 0; 0; 0; 0; 0; 0; 0; 0; 0; 0; 0; 0; 0; 0; 0]%Z.

(** An EOG channel with one blink. *)
Definition raw_eog : Raw :=
  {| ch_names := ["Cz"; "EOGvu"; "STI"]; ch_types := [Eeg; Eog; Stim]; sfreq := 10;
     meas_date := None; annotations := [];
     data := [map uV ramp; map uV blink; map inject_Z stim_early];
     filenames := ["eog.fif"] |}.

Definition dataset (paradigm : string) (data : data_t) : Dataset :=
  {| ds_class_name := "FakeDataset"; ds_code := "FakeDataset-p300";
     ds_paradigm := paradigm;
     ds_event_id := [("Target", CodeInt 1); ("NonTarget", CodeInt 2)];
     ds_interval := (0, 1)%Q; ds_unit_factor := 1000000;
     ds_get_data := fun _ => Ok data |}.

(** [P300(tmax=0.5, ...)] with the given bands. *)
Definition recipe (bands : list (Q * Q)) (baseline : option (Q * Q))
           (reject_uv : option Q) (reject_from_eog : eog_setting) : Paradigm :=
  {| filters := bands; events := Some ["Target"; "NonTarget"]; channels := None;
     baseline := baseline; resample := None; reject_uv := reject_uv;
     reject_from_eog := reject_from_eog; tmin := 0; tmax := Some 0.5%Q;
     reject_tmin := None; reject_tmax := None |}.

Definition single_band : Paradigm := recipe [(1, 24)%Q] None None EogFalse.
Definition two_bands : Paradigm := recipe [(1, 24)%Q; (1, 2)%Q] None None EogFalse.
Definition two_bands_reject : Paradigm :=
  recipe [(1, 24)%Q; (1, 2)%Q] None (Some 60%Q) EogFalse.
Definition with_baseline : Paradigm :=
  recipe [(1, 24)%Q] (Some (-0.2, 0)%Q) None EogFalse.
Definition with_eog : Paradigm := recipe [(1, 24)%Q] None None EogTrue.
Definition with_reject_window : Paradigm :=
  {| filters := [(1, 24)%Q]; events := Some ["Target"; "NonTarget"]; channels := None;
     baseline := None; resample := None; reject_uv := None;
     reject_from_eog := EogFalse; tmin := 0; tmax := Some 0.5%Q;
     reject_tmin := Some 0.1%Q; reject_tmax := Some 0.4%Q |}.

Definition one_subject (runs : runs_t) : data_t := [(1%Z, [("session_0", runs)])].

Definition two_subjects : data_t :=
  [(2%Z, [("session_0", [("run_0", raw_plain)])]);
   (1%Z, [("session_0", [("run_0", raw_plain); ("run_1", raw_plain)])])].

(** No cache file, writes succeed. *)
Definition fs_empty : FileSystem :=
  {| fs_makedirs := Ok tt;
     fs_load := fun _ => Raise (OSError "No such file or directory");
     fs_dump := fun _ _ => Ok tt |}.

(** A cache file with three labels for an array of two windows. *)
Definition stale : pickled :=
  {| pk_labels := Some ["Target"; "NonTarget"; "Target"];
     pk_metadata := Some (Pd.DataFrame_of_range 3);
     pk_X := Some (FArray {| shape := [2; 1; 6]%nat; item := fun _ => 0%Q |}) |}.

Definition fs_stale : FileSystem :=
  {| fs_makedirs := Ok tt; fs_load := fun _ => Ok stale; fs_dump := fun _ _ => Ok tt |}.

Definition P300_process_raw := BaseP300.process_raw BaseP300.P300_used_events.
Definition P300_get_data := BaseP300.get_data BaseP300.P300_used_events.
Definition Base_process_raw := BaseParadigm.process_raw BaseP300.P300_used_events.
Definition P300_obj_process_raw := BaseP300.obj_process_raw BaseP300.P300_used_events.

(** The keywords of [P300(tmax=0.5)]. *)
Definition keywords_tmax : BaseP300.keywords :=
  {| BaseP300.kw_fmin := None; BaseP300.kw_fmax := None;
     BaseP300.kw_filters := None; BaseP300.kw_events := None;
     BaseP300.kw_tmin := None; BaseP300.kw_tmax := Some 0.5%Q;
     BaseP300.kw_reject_tmin := None; BaseP300.kw_reject_tmax := None;
     BaseP300.kw_baseline := None; BaseP300.kw_channels := None;
     BaseP300.kw_resample := None; BaseP300.kw_reject_uv := None;
     BaseP300.kw_reject_from_eog := None |}.

(** Blink rejection from a channel that no recording here has. *)
Definition with_missing_eog : Paradigm :=
  recipe [(1, 24)%Q] None None (EogChannel "EOGx").

Definition no_band : Paradigm := recipe [] None None EogFalse.

(** A dataset whose vocabulary groups the codes of each label. *)
Definition grouped_dataset : Dataset :=
  {| ds_class_name := "FakeDataset"; ds_code := "FakeDataset-p300";
     ds_paradigm := "p300";
     ds_event_id := [("Target", CodeList [1%Z]); ("NonTarget", CodeList [2%Z])];
     ds_interval := (0, 1)%Q; ds_unit_factor := 1000000;
     ds_get_data := fun _ => Ok [] |}.

End Examples.

(* ------------------------------------------------------------------ *)
(** ** Predicates used in the statements *)

(** The four conditions [BaseP300.__init__] checks. *)
Definition bounds_valid (tmin : Q) (tmax reject_tmin reject_tmax : option Q) : Prop :=
  (forall t, tmax = Some t -> tmin < t)%Q
  /\ (forall a, reject_tmin = Some a -> tmin < a)%Q
  /\ (forall b, reject_tmax = Some b -> tmin < b)%Q
  /\ (forall a b, reject_tmin = Some a -> reject_tmax = Some b -> a < b)%Q.

(** Effects that touch a recording or the recipe's methods. *)
Definition is_call {M : Mne} (e : effect) : bool :=
  match e with
  | CallIsValid _ | CallDatasetGetData _ | CallPrepareProcess
  | CallProcessRaw _ _ _ => true
  | _ => false
  end.

(** Effects that fetch or process a recording. *)
Definition touches_recording {M : Mne} (e : effect) : bool :=
  match e with
  | CallDatasetGetData _ | CallProcessRaw _ _ _ => true
  | _ => false
  end.

(** The shape claimed for the array of a recipe with [n] filter bands
    and [w] windows. *)
Definition rank_ok (n w : nat) (X : ndarray) : Prop :=
  (n = 1%nat -> exists c s, shape X = [w; c; s])
  /\ ((1 < n)%nat -> exists c s, shape X = [w; c; s; n]).

(** The number of windows of what [process_raw] returns, as [get_data]
    measures it at [len(x[0])]: the leading axis of the array, or the
    length of the first [Epochs] object of the list. *)
Definition x_windows {M : Mne} (return_epochs : bool) : X_t return_epochs -> nat :=
  match return_epochs with
  | true => fun x => match x with e :: _ => epochs_len e | [] => 0%nat end
  | false => fun x => axis0 x
  end.

(** [get_data] returns what it read from the cache. *)
Definition served_from_cache {M : Mne} (PR : Type) (fs : FileSystem)
           (dataset : Dataset) (subjects : option (list Z)) (cache : bool) : Prop :=
  exists t r, BaseParadigm.lookup PR fs dataset subjects cache = (t, Ok (Some r)).

(** The value of the column [subject] in a row of the metadata. *)
Definition subject_of (r : Pd.row) : option Pd.cell := Pd.row_get "subject" r.

(** [s1] comes before [s2] in the traversal [subjects]. *)
Definition traversed_before (subjects : list Z) (s1 s2 : Z) : Prop :=
  exists a b, nth_error subjects a = Some s1 /\ nth_error subjects b = Some s2
              /\ (a < b)%nat.

(** The number of windows gathered in [X] while [get_data] loops. *)
Definition acc_windows {M : Mne} (return_epochs : bool)
  : BaseParadigm.acc_X return_epochs -> nat :=
  match return_epochs with
  | true => fun X => list_sum (map (x_windows true) X)
  | false => fun X => match X with None => 0%nat | Some a => axis0 a end
  end.

(** The accumulators of [get_data] agree: as many labels as windows and as
    metadata rows, and no metadata before the first windows. *)
Definition consistent {M : Mne} (PR : Type) (return_epochs : bool)
           (st : BaseParadigm.acc_state PR return_epochs) : Prop :=
  let '(X, labels, metadata, _) := st in
  acc_windows return_epochs X = List.length labels
  /\ List.length (List.concat metadata) = List.length labels
  /\ (BaseParadigm.len_X return_epochs X = 0%nat -> metadata = []).

(** The metadata frames gathered so far. *)
Definition acc_metadata {M : Mne} (PR : Type) (return_epochs : bool)
           (st : BaseParadigm.acc_state PR return_epochs) : list Pd.DataFrame :=
  let '(_, _, metadata, _) := st in metadata.

(** [rows] is one block of rows per subject, in the order of [subjects],
    each block stamped with its subject. *)
Definition ordered_by (subjects : list Z) (rows : Pd.DataFrame) : Prop :=
  exists blocks,
    rows = List.concat blocks
    /\ Forall2 (fun s blk => Forall (fun r => subject_of r = Some (Pd.CInt s)) blk)
               subjects blocks.

(** The value a loop variable holds after the loop. *)
Definition after_loop {A B : Type} (f : A -> B) (l : list A) (before : option B)
  : option B :=
  fold_left (fun _ a => Some (f a)) l before.

(** [st'] holds the metadata of [st] followed by rows of [subject]. *)
Definition extends {M : Mne} (PR : Type) (return_epochs : bool) (subject : Z)
           (st st' : BaseParadigm.acc_state PR return_epochs) : Prop :=
  exists rows,
    List.concat (acc_metadata PR return_epochs st')
    = List.concat (acc_metadata PR return_epochs st) ++ rows
    /\ Forall (fun r => subject_of r = Some (Pd.CInt subject)) rows.

(** The runs of the data in the order [get_data] visits them, each with
    its subject, session and run. *)
Definition traversal (dat : data_t) : list (Z * string * string * Raw) :=
  flat_map (fun subj : Z * sessions_t =>
              flat_map (fun sess : string * runs_t =>
                          map (fun item : string * Raw =>
                                 (fst subj, fst sess, fst item, snd item))
                              (snd sess))
                       (snd subj))
           dat.

(** The columns [subject], [session] and [run] of a metadata row. *)
Definition row_key (r : Pd.row)
  : option Pd.cell * option Pd.cell * option Pd.cell :=
  (Pd.row_get "subject" r, Pd.row_get "session" r, Pd.row_get "run" r).

(** The key [get_data] stamps on the rows of a run. *)
Definition key_of_run (v : Z * string * string * Raw)
  : option Pd.cell * option Pd.cell * option Pd.cell :=
  let '(subject, session, run, _) := v in
  (Some (Pd.CInt subject), Some (Pd.CStr session), Some (Pd.CStr run)).

(** [rows] is one block of rows per visited run, in the order of the
    visit, each block stamped with its run; a block can be empty. *)
Definition blocks_by (visited : list (Z * string * string * Raw))
           (rows : Pd.DataFrame) : Prop :=
  exists blocks,
    rows = List.concat blocks
    /\ Forall2 (fun v blk => Forall (fun r => row_key r = key_of_run v) blk)
               visited blocks.

(** The calls of [process_raw] in a trace. *)
Definition process_calls {M : Mne} (t : list effect) : list (Z * string * string) :=
  flat_map (fun e => match e with
                     | CallProcessRaw subject session run => [(subject, session, run)]
                     | _ => []
                     end) t.

(** The effects of the loop over the runs. *)
Definition is_loop_effect {M : Mne} (e : effect) : bool :=
  match e with
  | CallProcessRaw _ _ _ | Print _ => true
  | _ => false
  end.

(** A visited run without its recording. *)
Definition run_id (v : Z * string * string * Raw) : Z * string * string :=
  let '(subject, session, run, _) := v in (subject, session, run).

(** The keyword arguments [find_eog_events] is called with on [raw], for
    a setting that names no channel that [raw] lacks. *)
Definition eog_keywords (s : eog_setting) (raw : Raw)
           (kw : list (string * option string)) : Prop :=
  match s with
  | EogFalse => False
  | EogTrue => kw = [("ch_name", None)]
  | EogChannel name =>
      mem_string name (ch_names raw) = true /\ kw = [("ch_name", Some name)]
  | EogKwargs k => kw = k
  end.

(** One "bad blink" annotation per blink, from 0.25 s before its sample
    and 0.7 s long. *)
Definition blink_annotations (raw : Raw) (blinks : list Z) : list Annotation :=
  map (fun s => {| onset := inject_Z s / sfreq raw - 0.25;
                   duration := 0.7;
                   description := "bad blink" |}) blinks.

(** The EOG step on [raw] raises [e]: the channel named is missing, or
    [find_eog_events], the sum of the annotations or [set_annotations]
    raises. *)
Definition blink_step_raises {M : Mne} (s : eog_setting) (raw : Raw) (e : exn) : Prop :=
  (exists name,
      s = EogChannel name
      /\ mem_string name (ch_names raw) = false
      /\ e = ValueError (name ++ " not in channels ")%string)
  \/ exists kw,
      eog_keywords s raw kw
      /\ (find_eog_events raw kw = Raise e
          \/ exists blinks,
              find_eog_events raw kw = Ok blinks
              /\ (annotations_add (annotations raw) (blink_annotations raw blinks)
                  = Raise e
                  \/ exists summed,
                      annotations_add (annotations raw) (blink_annotations raw blinks)
                      = Ok summed
                      /\ annotations_set raw summed = Raise e)).

(** The names of the [n] recordings created after those of [h]. *)
Definition fresh_refs (h : store) (n : nat) : list ref := seq (List.length h) n.

(* ================================================================== *)
(** * Properties *)

(** ** Helper lemmas on results and comparisons *)

Lemma bind_Ok_inv {A B : Type} (m : res A) (k : A -> res B) (b : B) :
  Py.bind m k = Ok b -> exists a, m = Ok a /\ k a = Ok b.
Proof.
  destruct m as [a|e]; simpl; intros H; [exists a; auto | discriminate].
Qed.

Lemma Qltb_true (x y : Q) : Qltb x y = true <-> (x < y)%Q.
Proof.
  unfold Qltb. rewrite negb_true_iff, <- not_true_iff_false, Qle_bool_iff.
  split; intros H; [apply Qnot_le_lt | apply Qlt_not_le]; exact H.
Qed.

Lemma Qltb_false (x y : Q) : Qltb x y = false <-> (y <= x)%Q.
Proof.
  unfold Qltb. rewrite negb_false_iff, Qle_bool_iff. reflexivity.
Qed.

Lemma Qleb_true (x y : Q) : Qleb x y = true <-> (x <= y)%Q.
Proof. unfold Qleb. apply Qle_bool_iff. Qed.

Lemma Qleb_false (x y : Q) : Qleb x y = false <-> (y < x)%Q.
Proof.
  unfold Qleb. rewrite <- not_true_iff_false, Qle_bool_iff.
  split; intros H; [apply Qnot_le_lt | apply Qlt_not_le]; exact H.
Qed.

Lemma mapM_length {A B : Type} (f : A -> res B) (l : list A) (bs : list B) :
  mapM f l = Ok bs -> List.length bs = List.length l.
Proof.
  revert bs; induction l as [|a l IH]; simpl; intros bs H.
  - injection H as <-. reflexivity.
  - destruct (f a) as [b|]; simpl in H; [|discriminate].
    destruct (mapM f l) as [bs'|]; simpl in H; [|discriminate].
    injection H as <-. simpl. f_equal. apply IH. reflexivity.
Qed.

(** Inversion of a successful [bind] in a hypothesis. *)
Ltac bind_inv H x Hx :=
  apply bind_Ok_inv in H; destruct H as (x & Hx & H).

(** Reflect the rational comparisons found in the context and the goal. *)
Ltac qcompare :=
  repeat match goal with
         | H : Qltb _ _ = true |- _ => apply Qltb_true in H
         | H : Qltb _ _ = false |- _ => apply Qltb_false in H
         | H : Qleb _ _ = true |- _ => apply Qleb_true in H
         | H : Qleb _ _ = false |- _ => apply Qleb_false in H
         end.

(* ------------------------------------------------------------------ *)
(** ** The extraction window (claim C1) *)

(** [bmin] is the smaller of the window start and the baseline start,
    [bmax] the larger of the two ends. *)
Lemma widened_is_min_max (self : Paradigm) (dataset : Dataset) (b0 b1 : Q) :
  shifted_baseline self dataset = Some (b0, b1) ->
  let tmin := shifted_tmin self dataset in
  let tmax := shifted_tmax self dataset in
  let '(bmin, bmax) := widened self dataset in
  (bmin <= tmin /\ bmin <= b0 /\ (bmin = tmin \/ bmin = b0))%Q
  /\ (tmax <= bmax /\ b1 <= bmax /\ (bmax = tmax \/ bmax = b1))%Q.
Proof.
  intros Hb. unfold widened. rewrite Hb. cbv zeta.
  destruct (Qltb b0 (shifted_tmin self dataset)) eqn:E0;
    destruct (Qltb (shifted_tmax self dataset) b1) eqn:E1;
    qcompare; repeat split; auto; try apply Qle_refl; try apply Qlt_le_weak; auto.
Qed.

(** [base.py] passes the widened window to [mne.Epochs], together with
    the baseline, and crops back exactly when the window was widened. *)
Lemma BaseParadigm_window_widened {M : Mne} (self : Paradigm) (dataset : Dataset)
      (event_id : event_dict) (picks : list nat) :
  let kw := BaseParadigm.epoching_kwargs_of self dataset event_id picks in
  (ek_tmin kw, ek_tmax kw) = widened self dataset
  /\ ek_baseline kw = shifted_baseline self dataset
  /\ (needs_crop self dataset = true <->
      (fst (widened self dataset) < shifted_tmin self dataset
       \/ shifted_tmax self dataset < snd (widened self dataset))%Q).
Proof.
  cbv zeta. split; [|split].
  - simpl. destruct (widened self dataset); reflexivity.
  - reflexivity.
  - unfold needs_crop. destruct (widened self dataset) as [bmin bmax]. simpl.
    rewrite orb_true_iff, !Qltb_true. reflexivity.
Qed.

(** [p300.py] passes [tmin] and [tmax] themselves, whatever the baseline. *)
Lemma BaseP300_window_not_widened {M : Mne} (self : Paradigm) (dataset : Dataset)
      (event_id : event_dict) (picks : list nat) :
  let kw := BaseP300.epoching_kwargs_of self dataset event_id picks in
  ek_tmin kw = shifted_tmin self dataset
  /\ ek_tmax kw = shifted_tmax self dataset
  /\ ek_baseline kw = shifted_baseline self dataset.
Proof. cbv zeta. repeat split. Qed.

(** C1 (the code departs from the claim in [p300.py]). For the recipe
    [tmin = 0], [tmax = 0.5], [baseline = (-0.2, 0)] on a dataset with task
    interval [(0, 1)], the widened window of the claim is [-0.2 .. 0.5];
    [BaseParadigm.process_raw] extracts on it, [BaseP300.process_raw]
    extracts on [0 .. 0.5] with the same baseline, so the baseline samples
    before the event are not part of the extraction. On the example
    recording the first returns two corrected windows and the second
    raises. *)
Theorem C1_p300_window_not_widened :
  let self := Examples.with_baseline in
  let dataset := Examples.dataset "p300" [] in
  let event_id := ds_event_id dataset in
  (fst (widened self dataset) == -0.2 /\ snd (widened self dataset) == 0.5)%Q
  /\ (ek_tmin (BaseParadigm.epoching_kwargs_of self dataset event_id [0%nat]) == -0.2
      /\ ek_tmax (BaseParadigm.epoching_kwargs_of self dataset event_id [0%nat]) == 0.5)%Q
  /\ (ek_tmin (BaseP300.epoching_kwargs_of self dataset event_id [0%nat]) == 0
      /\ ek_tmax (BaseP300.epoching_kwargs_of self dataset event_id [0%nat]) == 0.5)%Q
  /\ (exists X labels metadata runs,
         snd (Examples.Base_process_raw self Examples.raw_plain dataset false false)
         = Ok (Some (X, labels, metadata, runs))
         /\ shape X = [2; 1; 6]%nat
         /\ map (fun k => Qred (item X [0; 0; k]%nat)) (seq 0 6) = [1; 2; 3; 4; 5; 6]%Q)
  /\ snd (Examples.P300_process_raw self Examples.raw_plain dataset false false)
     = Raise (ValueError "Baseline interval is outside of epochs data").
Proof.
  cbv zeta.
  split; [split; vm_compute; reflexivity|].
  split; [split; vm_compute; reflexivity|].
  split; [split; vm_compute; reflexivity|].
  split; [|vm_compute; reflexivity].
  eexists _, _, _, _. split; [vm_compute; reflexivity|].
  split; vm_compute; reflexivity.
Qed.

(* ------------------------------------------------------------------ *)
(** ** Construction and the rejection window (claim C6) *)

Lemma init_accepts
      (filters : list (Q * Q)) (events : option (list string))
      (tmin : Q) (tmax reject_tmin reject_tmax : option Q)
      (baseline : option (Q * Q)) (channels : option (list string))
      (resample reject_uv : option Q) (reject_from_eog : eog_setting) :
  bounds_valid tmin tmax reject_tmin reject_tmax ->
  BaseP300.__init__ filters events tmin tmax reject_tmin reject_tmax
                    baseline channels resample reject_uv reject_from_eog
  = Ok {| filters := filters; events := events; channels := channels;
          baseline := baseline; resample := resample; reject_uv := reject_uv;
          reject_from_eog := reject_from_eog; tmin := tmin; tmax := tmax;
          reject_tmin := reject_tmin; reject_tmax := reject_tmax |}.
Proof.
  intros (H1 & H2 & H3 & H4). unfold BaseP300.__init__.
  assert (E1 : forall t, tmax = Some t -> Qleb t tmin = false)
    by (intros t E; apply Qleb_false, H1, E).
  assert (E2 : forall a, reject_tmin = Some a -> Qleb a tmin = false)
    by (intros a E; apply Qleb_false, H2, E).
  assert (E3 : forall b, reject_tmax = Some b -> Qleb b tmin = false)
    by (intros b E; apply Qleb_false, H3, E).
  assert (E4 : forall a b, reject_tmin = Some a -> reject_tmax = Some b ->
                           Qleb b a = false)
    by (intros a b Ea Eb; apply Qleb_false; eapply H4; eauto).
  destruct tmax as [t|]; [rewrite (E1 t eq_refl)|]; simpl;
    (destruct reject_tmin as [a|]; [rewrite (E2 a eq_refl)|]); simpl;
    (destruct reject_tmax as [b|]; [rewrite (E3 b eq_refl)|]); simpl;
    try rewrite (E4 _ _ eq_refl eq_refl); reflexivity.
Qed.

Lemma init_rejects
      (filters : list (Q * Q)) (events : option (list string))
      (tmin : Q) (tmax reject_tmin reject_tmax : option Q)
      (baseline : option (Q * Q)) (channels : option (list string))
      (resample reject_uv : option Q) (reject_from_eog : eog_setting) :
  ~ bounds_valid tmin tmax reject_tmin reject_tmax ->
  exists msg,
    BaseP300.__init__ filters events tmin tmax reject_tmin reject_tmax
                      baseline channels resample reject_uv reject_from_eog
    = Raise (ValueError msg).
Proof.
  intros Hn. unfold BaseP300.__init__.
  destruct tmax as [t|].
  - destruct (Qleb t tmin) eqn:E1; [eexists; reflexivity|]. simpl.
    destruct reject_tmin as [a|].
    + destruct (Qleb a tmin) eqn:E2; [eexists; reflexivity|]. simpl.
      destruct reject_tmax as [b|].
      * destruct (Qleb b tmin) eqn:E3; [eexists; reflexivity|]. simpl.
        destruct (Qleb b a) eqn:E4; [eexists; reflexivity|].
        exfalso; apply Hn; qcompare; repeat split; intros; congruence.
      * exfalso; apply Hn; qcompare; repeat split; intros; congruence.
    + simpl. destruct reject_tmax as [b|].
      * destruct (Qleb b tmin) eqn:E3; [eexists; reflexivity|].
        exfalso; apply Hn; qcompare; repeat split; intros; congruence.
      * exfalso; apply Hn; qcompare; repeat split; intros; congruence.
  - simpl. destruct reject_tmin as [a|].
    + destruct (Qleb a tmin) eqn:E2; [eexists; reflexivity|]. simpl.
      destruct reject_tmax as [b|].
      * destruct (Qleb b tmin) eqn:E3; [eexists; reflexivity|]. simpl.
        destruct (Qleb b a) eqn:E4; [eexists; reflexivity|].
        exfalso; apply Hn; qcompare; repeat split; intros; congruence.
      * exfalso; apply Hn; qcompare; repeat split; intros; congruence.
    + simpl. destruct reject_tmax as [b|].
      * destruct (Qleb b tmin) eqn:E3; [eexists; reflexivity|].
        exfalso; apply Hn; qcompare; repeat split; intros; congruence.
      * exfalso; apply Hn; qcompare; repeat split; intros; congruence.
Qed.

Lemma init_returns_recipe
      (filters : list (Q * Q)) (events : option (list string))
      (tmin : Q) (tmax reject_tmin reject_tmax : option Q)
      (baseline : option (Q * Q)) (channels : option (list string))
      (resample reject_uv : option Q) (reject_from_eog : eog_setting)
      (self : Paradigm) :
  BaseP300.__init__ filters events tmin tmax reject_tmin reject_tmax
                    baseline channels resample reject_uv reject_from_eog
  = Ok self ->
  self = {| filters := filters; events := events; channels := channels;
            baseline := baseline; resample := resample; reject_uv := reject_uv;
            reject_from_eog := reject_from_eog; tmin := tmin; tmax := tmax;
            reject_tmin := reject_tmin; reject_tmax := reject_tmax |}.
Proof.
  unfold BaseP300.__init__. intros H.
  bind_inv H u1 H1. bind_inv H u2 H2. bind_inv H u3 H3. bind_inv H u4 H4.
  injection H as <-. reflexivity.
Qed.

(** A recording is turned into windows only when [reject_tmax] lies below
    the upper bound of the task interval. *)
Lemma process_raw_reject_tmax {M : Mne}
      (used_events : Paradigm -> Dataset -> res event_dict)
      (self : Paradigm) (raw raw' : Raw) (dataset : Dataset)
      (return_epochs return_runs : bool) (r : BaseP300.result return_epochs) (b : Q) :
  BaseP300.process_raw used_events self raw dataset return_epochs return_runs
  = (raw', Ok (Some r)) ->
  reject_tmax self = Some b ->
  (b < snd (ds_interval dataset))%Q.
Proof.
  unfold BaseP300.process_raw. intros H Hb.
  destruct (BaseP300.annotate_blinks self raw) as [raw1|e]; [|discriminate].
  injection H as _ H. unfold BaseP300.process_annotated in H.
  bind_inv H evs Hevs. bind_inv H picks Hpicks. bind_inv H event_id Hid.
  destruct (BaseP300.select_events evs event_id) as [[evs' id']|e].
  - rewrite Hb in H.
    destruct (Qleb (snd (ds_interval dataset)) b) eqn:E; [discriminate|].
    apply Qleb_false in E. exact E.
  - destruct e; discriminate.
Qed.

(** C6. [BaseP300.__init__] takes only the recipe's parameters. It returns
    the recipe when [tmin < tmax] (if [tmax] is given), [reject_tmin > tmin]
    and [reject_tmax > tmin] (if given) and [reject_tmin < reject_tmax] (if
    both are given), and raises [ValueError] otherwise. A call of
    [process_raw] that returns windows has its [reject_tmax] below, hence
    not above, the upper bound of the dataset's task interval. *)
Theorem C6_construction_validation {M : Mne}
      (used_events : Paradigm -> Dataset -> res event_dict)
      (filters : list (Q * Q)) (events : option (list string))
      (tmin : Q) (tmax reject_tmin reject_tmax : option Q)
      (baseline : option (Q * Q)) (channels : option (list string))
      (resample reject_uv : option Q) (reject_from_eog : eog_setting) :
  let made := BaseP300.__init__ filters events tmin tmax reject_tmin reject_tmax
                                baseline channels resample reject_uv reject_from_eog in
  (bounds_valid tmin tmax reject_tmin reject_tmax -> exists self, made = Ok self)
  /\ (~ bounds_valid tmin tmax reject_tmin reject_tmax ->
      exists msg, made = Raise (ValueError msg))
  /\ (forall self raw raw' dataset return_epochs return_runs r b,
         made = Ok self ->
         BaseP300.process_raw used_events self raw dataset return_epochs return_runs
         = (raw', Ok (Some r)) ->
         reject_tmax = Some b ->
         (b <= snd (ds_interval dataset))%Q).
Proof.
  cbv zeta. split; [|split].
  - intros Hv. eexists. apply init_accepts, Hv.
  - apply init_rejects.
  - intros self raw raw' dataset re rr r b Hmade Hp Hb.
    apply Qlt_le_weak.
    eapply process_raw_reject_tmax; [exact Hp|].
    apply init_returns_recipe in Hmade. subst self. exact Hb.
Qed.

(* ------------------------------------------------------------------ *)
(** ** Validity and the cache (claims C7 and C10) *)

Lemma set_le_false (a b : list string) (s : string) :
  In s a -> ~ In s b -> set_le a b = false.
Proof.
  intros Ha Hb. unfold set_le. apply not_true_is_false. intros H.
  rewrite forallb_forall in H. specialize (H s Ha).
  unfold mem_string in H. apply existsb_exists in H.
  destruct H as (x & Hx & E). apply String.eqb_eq in E. subst x. auto.
Qed.

Lemma is_valid_false (self : Paradigm) (dataset : Dataset) :
  (ds_paradigm dataset <> "p300"
   \/ exists evs ev, events self = Some evs /\ In ev evs
                     /\ ~ In ev (dict_keys (ds_event_id dataset))) ->
  BaseP300.is_valid self dataset = false.
Proof.
  unfold BaseP300.is_valid. intros [Hp | (evs & ev & He & Hin & Hnot)].
  - apply String.eqb_neq in Hp. rewrite Hp. simpl.
    destruct (events self) as [[|e evs]|]; try reflexivity.
    destruct (negb _); reflexivity.
  - rewrite He. destruct evs as [|e evs]; [contradiction|].
    cbv beta iota zeta.
    rewrite (set_le_false _ _ _ Hin Hnot). reflexivity.
Qed.

(** Reading the cache calls nothing on the recipe or the dataset. *)
Lemma read_cache_trace {M : Mne} (PR : Type) (fs : FileSystem) (dataset : Dataset)
      (subjects : option (list Z)) :
  forallb (fun e => negb (is_call e))
          (fst (BaseParadigm.read_cache PR fs dataset subjects)) = true.
Proof.
  unfold BaseParadigm.read_cache.
  destruct (fs_makedirs fs) as [u|e]; [|reflexivity]. simpl.
  destruct (fs_load fs _) as [d|e]; [|reflexivity]. simpl.
  destruct (pk_labels d); [|reflexivity]. simpl.
  destruct (pk_metadata d); [|reflexivity]. simpl.
  destruct (pk_X d); reflexivity.
Qed.

(** C7. [is_valid] is false for a dataset whose paradigm tag is not
    ["p300"] or whose event vocabulary lacks a label of the recipe's event
    list. On such a pair, a call of [get_data] that is not served from the
    cache raises, and its trace holds no fetch of the data and no processing
    of a recording; when the cache is off or was read without a hit, what it
    raises is an [AssertionError] that names the dataset, right after the
    validity check. *)
Theorem C7_invalid_dataset_rejected {M : Mne}
      (used_events : Paradigm -> Dataset -> res event_dict)
      (fs : FileSystem) (self : Paradigm) (dataset : Dataset) :
  (ds_paradigm dataset <> "p300"
   \/ exists evs ev, events self = Some evs /\ In ev evs
                     /\ ~ In ev (dict_keys (ds_event_id dataset))) ->
  BaseP300.is_valid self dataset = false
  /\ (forall subjects return_epochs return_runs cache t,
      BaseParadigm.lookup BaseP300.praw_t fs dataset subjects cache = (t, Ok None) ->
      BaseP300.get_data used_events fs self dataset subjects
                        return_epochs return_runs cache
      = (t ++ [CallIsValid (ds_code dataset)],
         Raise (AssertionError
                  ("Dataset " ++ ds_code dataset ++ " is not valid for paradigm")%string)))
  /\ (forall subjects return_epochs return_runs cache,
         ~ served_from_cache BaseP300.praw_t fs dataset subjects cache ->
         let r := BaseP300.get_data used_events fs self dataset subjects
                                    return_epochs return_runs cache in
         (exists e, snd r = Raise e)
         /\ forallb (fun e => negb (touches_recording e)) (fst r) = true).
Proof.
  intros H. pose proof (is_valid_false self dataset H) as Hv. split; [exact Hv|].
  assert (Hraise : forall subjects re rr cache t,
             BaseParadigm.lookup BaseP300.praw_t fs dataset subjects cache
             = (t, Ok None) ->
             BaseP300.get_data used_events fs self dataset subjects re rr cache
             = (t ++ [CallIsValid (ds_code dataset)],
                Raise (AssertionError
                         ("Dataset " ++ ds_code dataset
                                     ++ " is not valid for paradigm")%string))).
  { intros subjects re rr cache t Hhit.
    unfold BaseP300.get_data, BaseParadigm.get_data. rewrite Hhit.
    unfold io_bind at 1. unfold BaseParadigm.compute. rewrite Hv. simpl.
    reflexivity. }
  split; [exact Hraise|].
  intros subjects re rr cache Hmiss. cbv zeta.
  assert (Ht : forallb (fun e => negb (touches_recording e))
                       (fst (BaseParadigm.lookup BaseP300.praw_t fs dataset
                                                 subjects cache)) = true).
  { unfold BaseParadigm.lookup. destruct cache; [|reflexivity].
    pose proof (read_cache_trace BaseP300.praw_t fs dataset subjects) as Hc.
    rewrite forallb_forall in Hc. apply forallb_forall. intros e He.
    specialize (Hc e He). destruct e; simpl in *; congruence. }
  destruct (BaseParadigm.lookup BaseP300.praw_t fs dataset subjects cache)
    as [t [[r|]|e]] eqn:E.
  - exfalso. apply Hmiss. exists t, r. exact E.
  - rewrite (Hraise _ re rr _ _ E). simpl. split; [eexists; reflexivity|].
    rewrite forallb_app. simpl in Ht. rewrite Ht. reflexivity.
  - unfold BaseP300.get_data, BaseParadigm.get_data. rewrite E. simpl.
    split; [eexists; reflexivity | exact Ht].
Qed.

(** C10. With [cache=True], when the cache directory can be made and the
    cache file loads and holds the three keys, [get_data] returns the stored
    [X], labels and metadata with [None] as fourth component, whatever
    [return_epochs] and [return_runs] are; its whole trace is the directory
    creation, the read and one message, so that neither [is_valid], nor
    [prepare_process], nor [process_raw] was called. *)
Theorem C10_cache_hit {M : Mne}
      (used_events : Paradigm -> Dataset -> res event_dict)
      (fs : FileSystem) (self : Paradigm) (dataset : Dataset)
      (subjects : option (list Z)) (return_epochs return_runs : bool)
      (X : features) (labels : list string) (metadata : Pd.DataFrame) :
  fs_makedirs fs = Ok tt ->
  fs_load fs (BaseParadigm.key_of dataset subjects)
  = Ok {| pk_labels := Some labels; pk_metadata := Some metadata; pk_X := Some X |} ->
  let r := BaseP300.get_data used_events fs self dataset subjects
                             return_epochs return_runs true in
  r = ([Makedirs "/tmp/moabb/cache";
        CacheRead (BaseParadigm.key_of dataset subjects);
        Print "Using cached data: Beware that it might not be the data you want!"],
       Ok (X, labels, metadata, None))
  /\ forallb (fun e => negb (is_call e)) (fst r) = true.
Proof.
  intros Hmk Hload. cbv zeta.
  unfold BaseP300.get_data, BaseParadigm.get_data, BaseParadigm.lookup,
    BaseParadigm.read_cache.
  rewrite Hmk, Hload. simpl. split; reflexivity.
Qed.

(* ------------------------------------------------------------------ *)
(** ** The loop over the filter bank *)

Lemma after_loop_nonempty {A B : Type} (f : A -> B) (l : list A) (before : option B) :
  l <> [] -> exists a, In a l /\ after_loop f l before = Some (f a).
Proof.
  revert before. induction l as [|a l IH]; intros before Hne; [congruence|].
  destruct l as [|a' l].
  - exists a. split; [left; reflexivity | reflexivity].
  - destruct (IH (Some (f a))) as (x & Hin & E); [discriminate|].
    exists x. split; [right; exact Hin | exact E].
Qed.

(** The loop of [BaseP300.process_raw]: one filtered copy and one
    [Epochs] object per band, in the order of the bands. *)
Lemma BaseP300_bands {M : Mne} (self : Paradigm) (raw : Raw) (dataset : Dataset)
      (return_epochs return_runs : bool) (events : list event)
      (event_id : event_dict) (picks : list nat) (bands : list (Q * Q)) :
  forall X0 runs0 last0 X runs last,
    foldM (BaseP300.band_step self raw dataset return_epochs return_runs
                              events event_id picks) bands (X0, runs0, last0)
    = Ok (X, runs, last) ->
    exists (es : list Epochs) (copies : list Raw),
      Forall2 (fun b r => raw_filter raw (fst b) (snd b) picks = Ok r) bands copies
      /\ List.length es = List.length bands
      /\ X = X0 ++ map (make_item return_epochs (ds_unit_factor dataset)) es
      /\ runs = runs0 ++ map (fun r => if return_runs then Some r else None) copies
      /\ last = after_loop
                  (fun e => (e, BaseP300.epoching_kwargs_of self dataset event_id picks))
                  es last0.
Proof.
  induction bands as [|[fmin fmax] bands IH]; intros X0 runs0 last0 X runs last H.
  - simpl in H. injection H as <- <- <-. exists [], [].
    rewrite !app_nil_r. repeat split; auto.
  - simpl in H. bind_inv H st Hst. destruct st as [[X1 runs1] last1].
    unfold BaseP300.band_step in Hst.
    bind_inv Hst raw_f Hf. bind_inv Hst e1 He1. bind_inv Hst e2 He2.
    bind_inv Hst e3 He3. bind_inv Hst e4 He4. injection Hst as <- <- <-.
    destruct (IH _ _ _ _ _ _ H) as (es & copies & HF & Hlen & HX & Hruns & Hlast).
    exists (e4 :: es), (raw_f :: copies). repeat split.
    + constructor; [exact Hf | exact HF].
    + simpl. f_equal. exact Hlen.
    + rewrite HX, <- app_assoc. reflexivity.
    + rewrite Hruns, <- app_assoc. reflexivity.
    + exact Hlast.
Qed.

(** The same for the loop of [BaseParadigm.process_raw]. *)
Lemma BaseParadigm_bands {M : Mne} (self : Paradigm) (raw : Raw) (dataset : Dataset)
      (return_epochs return_runs : bool) (events : list event)
      (event_id : event_dict) (picks : list nat) (bands : list (Q * Q)) :
  forall X0 runs0 last0 X runs last,
    foldM (BaseParadigm.band_step self raw dataset return_epochs return_runs
                                  events event_id picks) bands (X0, runs0, last0)
    = Ok (X, runs, last) ->
    exists (es : list Epochs),
      List.length es = List.length bands
      /\ X = X0 ++ map (make_item return_epochs (ds_unit_factor dataset)) es
      /\ last = after_loop (fun e => e) es last0.
Proof.
  induction bands as [|[fmin fmax] bands IH]; intros X0 runs0 last0 X runs last H.
  - simpl in H. injection H as <- <- <-. exists [].
    rewrite !app_nil_r. repeat split; auto.
  - simpl in H. bind_inv H st Hst. destruct st as [[X1 runs1] last1].
    unfold BaseParadigm.band_step in Hst.
    bind_inv Hst raw_f Hf. bind_inv Hst e1 He1. bind_inv Hst e2 He2.
    bind_inv Hst e3 He3. injection Hst as <- <- <-.
    destruct (IH _ _ _ _ _ _ H) as (es & Hlen & HX & Hlast).
    exists (e3 :: es). repeat split.
    + simpl. f_equal. exact Hlen.
    + rewrite HX, <- app_assoc. reflexivity.
    + exact Hlast.
Qed.

(** What the two [process_raw] return, when they return windows: the
    per-band epochs [es] behind [X], and labels read off the last of them. *)
Lemma BaseP300_process_annotated_inv {M : Mne}
      (used_events : Paradigm -> Dataset -> res event_dict)
      (self : Paradigm) (raw : Raw) (dataset : Dataset)
      (return_epochs return_runs : bool)
      (X : X_t return_epochs) (labels : list string) (metadata : Pd.DataFrame)
      (runs : list (option Raw)) (events : list event) (kw : epoching_kwargs) :
  BaseP300.process_annotated used_events self raw dataset return_epochs return_runs
  = Ok (Some (X, labels, metadata, (runs, events, kw))) ->
  exists (es : list Epochs) (copies : list Raw) (last : Epochs),
    Forall2 (fun b r => raw_filter raw (fst b) (snd b) (ek_picks kw) = Ok r)
            (filters self) copies
    /\ runs = map (fun r => if return_runs then Some r else None) copies
    /\ List.length es = List.length (filters self)
    /\ In last es
    /\ (List.length es = 1%nat -> es = [last])
    /\ List.length labels = epochs_len last
    /\ metadata = Pd.DataFrame_of_range (List.length labels)
    /\ BaseP300.assemble return_epochs (List.length (filters self))
                         (map (make_item return_epochs (ds_unit_factor dataset)) es)
       = Ok X.
Proof.
  unfold BaseP300.process_annotated. intros H.
  bind_inv H evs Hevs. bind_inv H picks Hpicks. bind_inv H event_id Hid.
  destruct (BaseP300.select_events evs event_id) as [[evs' id']|e];
    [|destruct e; discriminate].
  bind_inv H u Hu. bind_inv H st Hst. destruct st as [[X1 runs1] last1].
  destruct (BaseP300_bands _ _ _ _ _ _ _ _ _ _ _ _ _ _ _ Hst)
    as (es & copies & HF & Hlen & HX & Hruns & Hlast).
  simpl in HX, Hruns. subst X1 runs1.
  destruct last1 as [[epochs kw1]|]; [|discriminate].
  bind_inv H inv Hinv. bind_inv H lbs Hlbs. bind_inv H X' HX'.
  injection H as <- <- <- <- <- <-.
  assert (Hne : es <> []).
  { intros ->. simpl in Hlast. discriminate. }
  destruct (after_loop_nonempty
              (fun e => (e, BaseP300.epoching_kwargs_of self dataset id' picks))
              es None Hne) as (last & Hin & E).
  rewrite E in Hlast. injection Hlast as E1 E2. subst epochs kw1.
  exists es, copies, last. repeat split; auto.
  - intros H1. destruct es as [|e0 [|e1 es]]; simpl in H1; try discriminate.
    destruct Hin as [->|[]]. reflexivity.
  - apply mapM_length in Hlbs. exact Hlbs.
Qed.

Lemma BaseParadigm_process_raw_inv {M : Mne}
      (used_events : Paradigm -> Dataset -> res event_dict)
      (self : Paradigm) (raw : Raw) (dataset : Dataset)
      (return_epochs return_runs : bool) (log : list string)
      (X : BaseParadigm.Xbase_t return_epochs) (labels : list string)
      (metadata : Pd.DataFrame) (runs : list Raw) :
  BaseParadigm.process_raw used_events self raw dataset return_epochs return_runs
  = (log, Ok (Some (X, labels, metadata, runs))) ->
  exists (es : list Epochs) (last : Epochs),
    List.length es = List.length (filters self)
    /\ In last es
    /\ (List.length es = 1%nat -> es = [last])
    /\ List.length labels = epochs_len last
    /\ metadata = Pd.DataFrame_of_range (List.length labels)
    /\ BaseParadigm.assemble return_epochs (List.length (filters self))
                             (map (make_item return_epochs (ds_unit_factor dataset)) es)
       = Ok X.
Proof.
  unfold BaseParadigm.process_raw. intros H.
  destruct (used_events self dataset) as [event_id|e]; [|discriminate].
  assert (Hev : exists evs,
             BaseParadigm.process_events self raw dataset return_epochs return_runs
                                         event_id evs
             = Ok (Some (X, labels, metadata, runs))).
  { destruct (0 <? _)%nat.
    - injection H as _ H. bind_inv H evs Hevs. exists evs. exact H.
    - destruct (events_from_annotations raw (Some event_id)) as [evs|e].
      + injection H as _ H. exists evs. exact H.
      + destruct e; discriminate. }
  clear H. destruct Hev as (evs & H). unfold BaseParadigm.process_events in H.
  bind_inv H picks Hpicks.
  destruct (pick_events evs (dict_values event_id)) as [evs'|e];
    [|destruct e; discriminate].
  bind_inv H st Hst. destruct st as [[X1 runs1] last1].
  destruct (BaseParadigm_bands _ _ _ _ _ _ _ _ _ _ _ _ _ _ _ Hst)
    as (es & Hlen & HX & Hlast).
  simpl in HX. subst X1.
  destruct last1 as [epochs|]; [|discriminate].
  bind_inv H inv Hinv. bind_inv H lbs Hlbs. bind_inv H X' HX'.
  injection H as <- <- <- <-.
  assert (Hne : es <> []).
  { intros ->. simpl in Hlast. discriminate. }
  destruct (after_loop_nonempty (fun e : Epochs => e) es None Hne) as (last & Hin & E).
  rewrite E in Hlast. injection Hlast as E1. subst epochs.
  exists es, last. repeat split; auto.
  - intros H1. destruct es as [|e0 [|e1 es]]; simpl in H1; try discriminate.
    destruct Hin as [->|[]]. reflexivity.
  - apply mapM_length in Hlbs. exact Hlbs.
Qed.

(* ------------------------------------------------------------------ *)
(** ** The rank of the feature array (claim C4) *)

Lemma array_shape (x : ndarray) (rest : list ndarray) (a : ndarray) :
  Np.array (x :: rest) = Ok a ->
  shape a = S (List.length rest) :: shape x
  /\ forall y, In y (x :: rest) -> shape y = shape x.
Proof.
  unfold Np.array. destruct (forallb _ rest) eqn:E; [|discriminate].
  intros H. injection H as <-. split; [reflexivity|].
  intros y [->|Hy]; [reflexivity|].
  rewrite forallb_forall in E. specialize (E y Hy).
  unfold shape_eqb in E. destruct (list_eq_dec Nat.eq_dec (shape y) (shape x));
    [assumption | discriminate].
Qed.

Lemma transpose_1230_shape (a t : ndarray) :
  Np.transpose_1230 a = Ok t ->
  exists b w c s, shape a = [b; w; c; s] /\ shape t = [w; c; s; b].
Proof.
  unfold Np.transpose_1230.
  destruct (shape a) as [|b [|w [|c [|s [|]]]]]; try discriminate.
  intros H. injection H as <-. exists b, w, c, s. split; reflexivity.
Qed.

(** Lines 238-243 of [p300.py] and 194-198 of [base.py] on the per-band
    arrays of the epochs [es]. *)
Lemma assemble_array_rank {M : Mne} (unit_factor : Q) (es : list Epochs)
      (last : Epochs) (n : nat) (X : ndarray) :
  List.length es = n ->
  In last es ->
  (List.length es = 1%nat -> es = [last]) ->
  BaseP300.assemble false n (map (make_item false unit_factor) es) = Ok X ->
  rank_ok n (epochs_len last) X.
Proof.
  intros Hlen Hin Hone H. unfold BaseP300.assemble in H. split.
  - intros ->. rewrite (Hone Hlen) in H. simpl in H. injection H as <-.
    destruct (get_data_shape last) as (c & s & E). exists c, s. exact E.
  - intros Hn. destruct (Nat.eqb_spec n 1) as [->|_]; [lia|].
    bind_inv H a Ha. apply transpose_1230_shape in H.
    destruct H as (b & w & c & s & Ea & EX).
    destruct es as [|e0 es]; [simpl in Hlen; lia|].
    simpl map in Ha. apply array_shape in Ha. destruct Ha as (Es & Hall).
    destruct (get_data_shape e0) as (c0 & s0 & E0).
    destruct (get_data_shape last) as (c1 & s1 & E1).
    assert (Hl : shape (make_item false unit_factor last)
                 = shape (make_item false unit_factor e0)).
    { apply Hall. change (In (make_item false unit_factor last)
                             (map (make_item false unit_factor) (e0 :: es))).
      apply in_map. exact Hin. }
    simpl in Hl. rewrite E0, E1 in Hl. injection Hl as Hw Hc Hs.
    rewrite Ea in Es. simpl in Es. rewrite E0, length_map in Es.
    injection Es as -> -> -> ->. simpl in Hlen.
    exists c0, s0. rewrite EX. unfold epochs_len. rewrite Hw, Hlen. reflexivity.
Qed.

(** C4. With [return_epochs=False], the array returned by
    [BaseP300.process_raw] and by [BaseParadigm.process_raw] for a recipe
    with exactly one filter band has three axes, windows x channels x
    samples; for a recipe with N > 1 bands it has four, windows x channels
    x samples x bands, and the last one has length N. The window axis has
    the length of the label vector. *)
Theorem C4_feature_rank {M : Mne}
      (used_events : Paradigm -> Dataset -> res event_dict)
      (self : Paradigm) (raw : Raw) (dataset : Dataset) (return_runs : bool) :
  (forall raw' X labels metadata praw,
      BaseP300.process_raw used_events self raw dataset false return_runs
      = (raw', Ok (Some (X, labels, metadata, praw))) ->
      rank_ok (List.length (filters self)) (List.length labels) X)
  /\ (forall log X labels metadata runs,
         BaseParadigm.process_raw used_events self raw dataset false return_runs
         = (log, Ok (Some (X, labels, metadata, runs))) ->
         rank_ok (List.length (filters self)) (List.length labels) X).
Proof.
  split.
  - intros raw' X labels metadata [[runs evs] kw] H.
    unfold BaseP300.process_raw in H.
    destruct (BaseP300.annotate_blinks self raw) as [raw1|e]; [|discriminate].
    injection H as _ H.
    apply BaseP300_process_annotated_inv in H.
    destruct H as (es & copies & last & _ & _ & Hlen & Hin & Hone & Hl & _ & HX).
    rewrite Hl. eapply assemble_array_rank; eauto.
  - intros log X labels metadata runs H.
    apply BaseParadigm_process_raw_inv in H.
    destruct H as (es & last & Hlen & Hin & Hone & Hl & _ & HX).
    rewrite Hl. eapply assemble_array_rank; eauto.
Qed.

(* ------------------------------------------------------------------ *)
(** ** What [process_raw] does to the recording (claim C8) *)

Lemma set_annotations_same (raw : Raw) : set_annotations raw (annotations raw) = raw.
Proof. destruct raw; reflexivity. Qed.

Lemma blink_annot_spec (raw : Raw) (blinks : list Z) :
  BaseP300.blink_annot raw blinks = blink_annotations raw blinks.
Proof. unfold BaseP300.blink_annot, blink_annotations. rewrite map_map. reflexivity. Qed.

Lemma eog_kwargs_of_keywords (self : Paradigm) (raw : Raw)
      (kw : list (string * option string)) :
  eog_keywords (reject_from_eog self) raw kw ->
  BaseP300.eog_kwargs_of self raw = Ok kw.
Proof.
  unfold eog_keywords, BaseP300.eog_kwargs_of.
  destruct (reject_from_eog self) as [| |name|k]; intros H.
  - contradiction.
  - subst kw. reflexivity.
  - destruct H as (Hm & ->). rewrite Hm. reflexivity.
  - subst kw. reflexivity.
Qed.

(** The step on the value of the recording: what it leaves when the
    setting is off, when every call of the step returns, and when one
    raises. *)
Lemma annotate_blinks_spec {M : Mne} (self : Paradigm) (raw : Raw) :
  (eog_truthy (reject_from_eog self) = false ->
   BaseP300.annotate_blinks self raw = Ok raw)
  /\ (eog_truthy (reject_from_eog self) = true ->
      forall kw blinks summed stored,
        eog_keywords (reject_from_eog self) raw kw ->
        find_eog_events raw kw = Ok blinks ->
        annotations_add (annotations raw) (blink_annotations raw blinks) = Ok summed ->
        annotations_set raw summed = Ok stored ->
        BaseP300.annotate_blinks self raw = Ok (set_annotations raw stored))
  /\ (eog_truthy (reject_from_eog self) = true ->
      forall e, blink_step_raises (reject_from_eog self) raw e ->
                BaseP300.annotate_blinks self raw = Raise e)
  /\ (forall raw1, BaseP300.annotate_blinks self raw = Ok raw1 ->
                   raw1 = set_annotations raw (annotations raw1)).
Proof.
  unfold BaseP300.annotate_blinks. split; [|split; [|split]].
  - intros ->. reflexivity.
  - intros -> kw blinks summed stored Hkw Hf Ha Hs.
    rewrite (eog_kwargs_of_keywords _ _ _ Hkw). simpl. rewrite Hf. simpl.
    rewrite blink_annot_spec, Ha. simpl. rewrite Hs. reflexivity.
  - intros -> e [(name & Hs & Hm & ->)|(kw & Hkw & H)].
    + unfold BaseP300.eog_kwargs_of. rewrite Hs, Hm. reflexivity.
    + rewrite (eog_kwargs_of_keywords _ _ _ Hkw). simpl.
      destruct H as [Hf|(blinks & Hf & H)]; rewrite Hf; [reflexivity|]. simpl.
      rewrite blink_annot_spec.
      destruct H as [Ha|(summed & Ha & Hs)]; rewrite Ha; [reflexivity|]. simpl.
      rewrite Hs. reflexivity.
  - intros raw1 H. destruct (eog_truthy (reject_from_eog self)).
    + bind_inv H kw Hkw. bind_inv H blinks Hb. bind_inv H summed Ha.
      bind_inv H stored Hs. injection H as <-. reflexivity.
    + injection H as <-. symmetry. apply set_annotations_same.
Qed.

(** *** The store *)

Lemma update_same (h : store) (r : ref) (v : Raw) :
  nth_error h r = Some v -> update h r v = h.
Proof.
  revert r. induction h as [|x h IH]; intros [|r] H; simpl in *; try discriminate.
  - injection H as ->. reflexivity.
  - f_equal. apply IH. exact H.
Qed.

Lemma update_app (h m : store) (r : ref) (v w : Raw) :
  nth_error h r = Some w -> update (h ++ m) r v = update h r v ++ m.
Proof.
  revert r. induction h as [|x h IH]; intros [|r] H; simpl in *; try discriminate.
  - reflexivity.
  - f_equal. apply IH. exact H.
Qed.

Lemma update_update (h : store) (r : ref) (v w : Raw) :
  update (update h r v) r w = update h r w.
Proof.
  revert r. induction h as [|x h IH]; intros [|r]; simpl; try reflexivity.
  f_equal. apply IH.
Qed.

Lemma update_fresh (h : store) (v w : Raw) :
  update (h ++ [w]) (List.length h) v = h ++ [v].
Proof. induction h as [|x h IH]; simpl; [reflexivity | f_equal; exact IH]. Qed.

Lemma nth_error_update (h : store) (r : ref) (v w : Raw) :
  nth_error h r = Some w -> nth_error (update h r v) r = Some v.
Proof.
  revert r. induction h as [|x h IH]; intros [|r] H; simpl in *; try discriminate.
  - reflexivity.
  - apply IH. exact H.
Qed.

Lemma nth_error_old (h m : store) (r : ref) (v : Raw) :
  nth_error h r = Some v -> nth_error (h ++ m) r = Some v.
Proof.
  intros H. rewrite nth_error_app1; [exact H|].
  apply nth_error_Some. congruence.
Qed.

Lemma nth_error_fresh (h : store) (v : Raw) :
  nth_error (h ++ [v]) (List.length h) = Some v.
Proof. induction h as [|x h IH]; simpl; [reflexivity | exact IH]. Qed.

(** *** The object-level method against the value-level one *)

Lemma obj_annotate_blinks_sim {M : Mne} (self : Paradigm) (h : store) (r : ref)
      (raw : Raw) :
  nth_error h r = Some raw ->
  BaseP300.obj_annotate_blinks self r h
  = match BaseP300.annotate_blinks self raw with
    | Ok raw1 => (update h r raw1, Ok tt)
    | Raise e => (h, Raise e)
    end.
Proof.
  intros H. unfold BaseP300.obj_annotate_blinks, BaseP300.annotate_blinks.
  destruct (eog_truthy (reject_from_eog self)).
  - unfold raw_set_annotations, obj_bind, deref, obj_lift, write, obj_ret.
    rewrite H.
    destruct (BaseP300.eog_kwargs_of self raw) as [kw|e]; simpl; [|reflexivity].
    destruct (find_eog_events raw kw) as [blinks|e]; simpl; [|reflexivity].
    destruct (annotations_add _ _) as [summed|e]; simpl; [|reflexivity].
    destruct (annotations_set raw summed) as [stored|e]; simpl; reflexivity.
  - unfold obj_ret. rewrite (update_same _ _ _ H). reflexivity.
Qed.

(** One band: the copy is appended to the store and filtered there; the
    recordings that were in the store stay as they are. *)
Lemma obj_band_step_sim {M : Mne} (self : Paradigm) (r : ref) (raw : Raw)
      (dataset : Dataset) (return_epochs return_runs : bool)
      (events : list event) (event_id : event_dict) (picks : list nat)
      (X : list (band_item return_epochs)) (runs_o : list (option ref))
      (runs_v : list (option Raw)) (last : option (Epochs * epoching_kwargs))
      (band : Q * Q) (h : store) :
  nth_error h r = Some raw ->
  exists c,
    fst (BaseP300.obj_band_step self r dataset return_epochs return_runs
                                events event_id picks (X, runs_o, last) band h)
    = h ++ [c]
    /\ match BaseP300.band_step self raw dataset return_epochs return_runs
                                events event_id picks (X, runs_v, last) band with
       | Ok (X', runs_v', last') =>
           raw_filter raw (fst band) (snd band) picks = Ok c
           /\ runs_v' = runs_v ++ [if return_runs then Some c else None]
           /\ snd (BaseP300.obj_band_step self r dataset return_epochs return_runs
                                          events event_id picks (X, runs_o, last) band h)
              = Ok (X', runs_o ++ [if return_runs then Some (List.length h) else None],
                    last')
       | Raise e =>
           snd (BaseP300.obj_band_step self r dataset return_epochs return_runs
                                       events event_id picks (X, runs_o, last) band h)
           = Raise e
       end.
Proof.
  intros H. destruct band as [fmin fmax].
  unfold BaseP300.obj_band_step, BaseP300.band_step.
  unfold raw_copy, raw_filter_inplace, obj_bind, deref, obj_lift, write, obj_ret.
  rewrite H, nth_error_fresh. cbn [fst snd].
  destruct (raw_filter raw fmin fmax picks) as [c|e]; cbn [bind].
  - exists c. rewrite update_fresh, nth_error_fresh.
    destruct (make_epochs c events _) as [e1|e]; cbn [bind fst snd];
      [|split; reflexivity].
    destruct (match reject_uv self with
              | Some uv => epochs_drop_bad e1 (uv / 1000000)%Q
              | None => Ok e1
              end) as [e2|e]; cbn [bind fst snd]; [|split; reflexivity].
    destruct (if needs_crop self dataset
              then epochs_crop e2 (shifted_tmin self dataset) (shifted_tmax self dataset)
              else Ok e2) as [e3|e]; cbn [bind fst snd]; [|split; reflexivity].
    destruct (match resample self with
              | Some rate => epochs_resample e3 rate
              | None => Ok e3
              end) as [e4|e]; cbn [bind fst snd]; [|split; reflexivity].
    split; [reflexivity|]. split; [reflexivity|]. split; reflexivity.
  - exists raw. split; reflexivity.
Qed.

(** The loop over the bands: the store grows by one recording per band
    gone through, and when the loop ends these are the filtered copies. *)
Lemma obj_bands_sim {M : Mne} (self : Paradigm) (r : ref) (raw : Raw)
      (dataset : Dataset) (return_epochs return_runs : bool)
      (events : list event) (event_id : event_dict) (picks : list nat)
      (h0 : store) :
  nth_error h0 r = Some raw ->
  forall (bands : list (Q * Q)) (created : store)
         (X : list (band_item return_epochs)) (runs_o : list (option ref))
         (runs_v : list (option Raw)) (last : option (Epochs * epoching_kwargs)),
  exists more,
    fst (obj_foldM (BaseP300.obj_band_step self r dataset return_epochs return_runs
                                           events event_id picks)
                   bands (X, runs_o, last) (h0 ++ created))
    = h0 ++ created ++ more
    /\ match foldM (BaseP300.band_step self raw dataset return_epochs return_runs
                                       events event_id picks)
                   bands (X, runs_v, last) with
       | Ok (X', runs_v', last') =>
           Forall2 (fun b c => raw_filter raw (fst b) (snd b) picks = Ok c) bands more
           /\ runs_v' = runs_v ++ map (fun c => if return_runs then Some c else None) more
           /\ snd (obj_foldM (BaseP300.obj_band_step self r dataset return_epochs
                                                     return_runs events event_id picks)
                             bands (X, runs_o, last) (h0 ++ created))
              = Ok (X',
                    runs_o ++ map (fun i => if return_runs then Some i else None)
                                  (seq (List.length (h0 ++ created)) (List.length more)),
                    last')
       | Raise e =>
           snd (obj_foldM (BaseP300.obj_band_step self r dataset return_epochs
                                                  return_runs events event_id picks)
                          bands (X, runs_o, last) (h0 ++ created))
           = Raise e
       end.
Proof.
  intros H. induction bands as [|band bands IH]; intros created X runs_o runs_v last.
  - exists []. simpl. rewrite !app_nil_r. split; [reflexivity|].
    split; [constructor|]. split; reflexivity.
  - destruct (obj_band_step_sim self r raw dataset return_epochs return_runs
                                events event_id picks X runs_o runs_v last band
                                (h0 ++ created) (nth_error_old _ _ _ _ H))
      as (c & Hstore & Hstep).
    cbn [foldM obj_foldM]. unfold obj_bind. cbv beta.
    destruct (BaseP300.obj_band_step self r dataset return_epochs return_runs
                                     events event_id picks (X, runs_o, last) band
                                     (h0 ++ created)) as [h1 res_o] eqn:Eo.
    cbn [fst snd] in Hstore, Hstep. subst h1.
    destruct (BaseP300.band_step self raw dataset return_epochs return_runs
                                 events event_id picks (X, runs_v, last) band)
      as [[[X1 runs_v1] last1]|e] eqn:Ev; cbn [bind].
    + destruct Hstep as (Hc & Hrv & ->). subst runs_v1.
      rewrite <- (app_assoc h0 created [c]).
      destruct (IH (created ++ [c]) X1
                   (runs_o ++ [if return_runs then Some (List.length (h0 ++ created))
                               else None])
                   (runs_v ++ [if return_runs then Some c else None]) last1)
        as (more & Hst & Hres).
      exists (c :: more). split.
      { rewrite Hst, <- app_assoc. reflexivity. }
      destruct (foldM _ bands _) as [[[X2 runs_v2] last2]|e]; [|exact Hres].
      destruct Hres as (HF & Hrv2 & Ho). split; [constructor; assumption|].
      split; [rewrite Hrv2, <- app_assoc; reflexivity|].
      rewrite Ho, <- app_assoc.
      assert (El : List.length (h0 ++ created ++ [c])
                   = S (List.length (h0 ++ created)))
        by (rewrite !length_app; simpl; lia).
      rewrite El. reflexivity.
    + subst res_o. exists [c]. rewrite <- app_assoc. split; reflexivity.
Qed.

(** [obj_process_raw] on a store where [r] names [raw] does to [raw] and
    returns what [process_raw] says, with the runs as names of the
    recordings it created. *)
Lemma obj_process_raw_refines {M : Mne}
      (used_events : Paradigm -> Dataset -> res event_dict)
      (self : Paradigm) (dataset : Dataset) (return_epochs return_runs : bool)
      (h : store) (r : ref) (raw : Raw) :
  nth_error h r = Some raw ->
  let out_v := BaseP300.process_raw used_events self raw dataset
                                    return_epochs return_runs in
  let out_o := BaseP300.obj_process_raw used_events self r dataset
                                        return_epochs return_runs h in
  exists created,
    fst out_o = update h r (fst out_v) ++ created
    /\ match snd out_v with
       | Raise e => snd out_o = Raise e
       | Ok None => snd out_o = Ok None
       | Ok (Some (X, labels, metadata, (runs, events, kw))) =>
           Forall2 (fun b c => raw_filter (fst out_v) (fst b) (snd b) (ek_picks kw) = Ok c)
                   (filters self) created
           /\ runs = map (fun c => if return_runs then Some c else None) created
           /\ snd out_o
              = Ok (Some (X, labels, metadata,
                          (map (fun i => if return_runs then Some i else None)
                               (fresh_refs h (List.length created)),
                           events, kw)))
       end.
Proof.
  intros H. cbv zeta.
  destruct (BaseP300.obj_process_raw used_events self r dataset
                                     return_epochs return_runs h) as [h' res_o] eqn:Eo.
  cbn [fst snd].
  unfold BaseP300.obj_process_raw in Eo. unfold obj_bind at 1 in Eo.
  rewrite (obj_annotate_blinks_sim self h r raw H) in Eo.
  unfold BaseP300.process_raw.
  destruct (BaseP300.annotate_blinks self raw) as [raw1|e]; cbn [fst snd].
  2:{ injection Eo as <- <-. exists [].
      rewrite app_nil_r, (update_same _ _ _ H). split; reflexivity. }
  pose proof (nth_error_update h r raw1 raw H) as H1.
  assert (Hlen : List.length (update h r raw1) = List.length h).
  { clear. revert r. induction h as [|x h IH]; intros [|r]; simpl; auto. }
  set (h1 := update h r raw1) in *.
  unfold BaseP300.process_annotated.
  unfold obj_bind at 1 in Eo. unfold deref at 1 in Eo. rewrite H1 in Eo.
  unfold obj_bind at 1 in Eo. unfold obj_lift at 1 in Eo.
  destruct (if (0 <? List.length (get_stim_channel raw1))%nat
            then find_events raw1 else events_from_annotations raw1 None)
    as [evs|e]; cbn [bind].
  2:{ injection Eo as <- <-. exists []. rewrite app_nil_r. split; reflexivity. }
  unfold obj_bind at 1 in Eo. unfold obj_lift at 1 in Eo.
  destruct (match channels self with
            | Some channels0 => pick_channels (ch_names raw1) channels0
            | None => Ok (pick_types raw1)
            end) as [picks|e]; cbn [bind].
  2:{ injection Eo as <- <-. exists []. rewrite app_nil_r. split; reflexivity. }
  unfold obj_bind at 1 in Eo. unfold obj_lift at 1 in Eo.
  destruct (used_events self dataset) as [event_id|e]; cbn [bind].
  2:{ injection Eo as <- <-. exists []. rewrite app_nil_r. split; reflexivity. }
  destruct (BaseP300.select_events evs event_id) as [[evs' id']|e].
  2:{ exists []. rewrite app_nil_r.
      destruct e; injection Eo as <- <-; split; reflexivity. }
  unfold obj_bind at 1 in Eo. unfold obj_lift at 1 in Eo.
  destruct (match reject_tmax self with
            | Some reject_tmax0 =>
                if Qleb (snd (ds_interval dataset)) reject_tmax0
                then Raise (ValueError "reject_tmax needs to be shorter than tmax")
                else Ok tt
            | None => Ok tt
            end) as [u|e]; cbn [bind].
  2:{ injection Eo as <- <-. exists []. rewrite app_nil_r. split; reflexivity. }
  destruct (obj_bands_sim self r raw1 dataset return_epochs return_runs
                          evs' id' picks h1 H1 (filters self) [] [] [] [] None)
    as (more & Hst & Hres).
  rewrite app_nil_r in Hst, Hres. cbn [app] in Hst, Hres.
  unfold obj_bind at 1 in Eo.
  destruct (obj_foldM _ (filters self) _ h1) as [h2 res_b].
  cbn [fst snd] in Hst, Hres. subst h2.
  exists more.
  pose proof (BaseP300_bands self raw1 dataset return_epochs return_runs
                             evs' id' picks (filters self) [] [] None) as Hb.
  destruct (foldM _ (filters self) _) as [[[X1 runs_v1] last1]|e]; cbn [bind].
  2:{ subst res_b. injection Eo as <- <-. split; reflexivity. }
  destruct Hres as (HF & Hrv & ->). cbn [app] in Hrv. subst runs_v1.
  destruct last1 as [[epochs kw1]|].
  2:{ injection Eo as <- <-. split; reflexivity. }
  assert (Ekw : ek_picks kw1 = picks).
  { destruct (Hb _ _ _ eq_refl) as (es & copies & _ & _ & _ & _ & Hlast).
    destruct es as [|e0 es]; [discriminate|].
    destruct (after_loop_nonempty
                (fun e => (e, BaseP300.epoching_kwargs_of self dataset id' picks))
                (e0 :: es) None) as (a & _ & E); [discriminate|].
    rewrite E in Hlast. injection Hlast as _ E2. subst kw1. reflexivity. }
  unfold obj_bind at 1 in Eo. unfold obj_lift at 1 in Eo.
  destruct (inv_events id') as [inv|e]; cbn [bind].
  2:{ injection Eo as <- <-. split; reflexivity. }
  unfold obj_bind at 1 in Eo. unfold obj_lift at 1 in Eo.
  destruct (mapM _ (epochs_events epochs)) as [labels|e]; cbn [bind].
  2:{ injection Eo as <- <-. split; reflexivity. }
  unfold obj_bind at 1 in Eo. unfold obj_lift at 1 in Eo.
  destruct (BaseP300.assemble return_epochs _ X1) as [X|e]; cbn [bind].
  2:{ injection Eo as <- <-. split; reflexivity. }
  unfold obj_ret in Eo. injection Eo as <- <-. split; [reflexivity|].
  rewrite Ekw. split; [exact HF|]. split; [reflexivity|].
  unfold fresh_refs. rewrite Hlen. reflexivity.
Qed.

(** When the EOG step raises, the method raises with the store as it
    was. *)
Lemma obj_process_raw_blink_raise {M : Mne}
      (used_events : Paradigm -> Dataset -> res event_dict)
      (self : Paradigm) (dataset : Dataset) (return_epochs return_runs : bool)
      (h : store) (r : ref) (raw : Raw) (e : exn) :
  nth_error h r = Some raw ->
  BaseP300.annotate_blinks self raw = Raise e ->
  BaseP300.obj_process_raw used_events self r dataset return_epochs return_runs h
  = (h, Raise e).
Proof.
  intros H E. unfold BaseP300.obj_process_raw. unfold obj_bind at 1.
  rewrite (obj_annotate_blinks_sim self h r raw H), E. reflexivity.
Qed.

(** The claim C8 fails as stated: with EOG-based rejection switched on, the
    call sets a blink annotation on the recording it was given. *)
Lemma C8_blinks_are_written_to_the_recording :
  let h := [Examples.raw_eog] in
  let h' := fst (Examples.P300_obj_process_raw Examples.with_eog 0%nat
                                               (Examples.dataset "p300" [])
                                               false false h) in
  annotations Examples.raw_eog = []
  /\ (exists raw', nth_error h' 0 = Some raw'
                   /\ List.length (annotations raw') = 1%nat)
  /\ nth_error h' 0 <> nth_error h 0.
Proof.
  cbv zeta. split; [reflexivity|].
  split; [eexists; split; [vm_compute; reflexivity | reflexivity]|].
  intros H.
  apply (f_equal (fun o => match o with
                           | Some r => List.length (annotations r)
                           | None => 0%nat
                           end)) in H.
  vm_compute in H. discriminate.
Qed.

(** C8, amended. [BaseP300.process_raw], run on a store of recordings
    where [input] names the recording [raw], writes no recording of the
    store but [input], and creates the others it needs. Of [input] it
    leaves the signal, the channels and everything else but the annotations
    as they were; what it leaves is the recording that [process_raw] on
    the value of [raw] gives back. The annotations are unchanged when [reject_from_eog] is
    off; when it is on, either a call of the EOG step raises, and then
    the method raises with the store as it was, or the recording holds
    what [raw.set_annotations] stores for [raw.annotations + blink_annot],
    where [blink_annot] has one "bad blink" annotation per detected blink,
    from 0.25 s before it and 0.7 s long. Filtering goes to copies: when
    the method returns windows, the recordings it created are, band by
    band, the filtered copies of the recording, and the runs returned are
    their names. *)
Theorem C8_recording_frame {M : Mne}
      (used_events : Paradigm -> Dataset -> res event_dict)
      (self : Paradigm) (dataset : Dataset) (return_epochs return_runs : bool)
      (h : store) (input : ref) (raw : Raw) :
  nth_error h input = Some raw ->
  let out := BaseP300.obj_process_raw used_events self input dataset
                                      return_epochs return_runs h in
  exists raw' created,
    fst out = update h input raw' ++ created
    /\ raw' = fst (BaseP300.process_raw used_events self raw dataset
                                        return_epochs return_runs)
    /\ raw' = set_annotations raw (annotations raw')
    /\ (eog_truthy (reject_from_eog self) = false -> raw' = raw)
    /\ (eog_truthy (reject_from_eog self) = true ->
        (forall kw blinks summed stored,
            eog_keywords (reject_from_eog self) raw kw ->
            find_eog_events raw kw = Ok blinks ->
            annotations_add (annotations raw) (blink_annotations raw blinks)
            = Ok summed ->
            annotations_set raw summed = Ok stored ->
            annotations raw' = stored)
        /\ (forall e, blink_step_raises (reject_from_eog self) raw e ->
                      out = (h, Raise e)))
    /\ (forall X labels metadata runs events kw,
           snd out = Ok (Some (X, labels, metadata, (runs, events, kw))) ->
           Forall2 (fun b c => raw_filter raw' (fst b) (snd b) (ek_picks kw) = Ok c)
                   (filters self) created
           /\ runs = map (fun r => if return_runs then Some r else None)
                         (fresh_refs h (List.length created))).
Proof.
  intros H. cbv zeta.
  destruct (obj_process_raw_refines used_events self dataset return_epochs
                                    return_runs h input raw H) as (created & Hst & Hres).
  destruct (annotate_blinks_spec self raw) as (Hoff & Hon & Hraise & Hframe).
  exists (fst (BaseP300.process_raw used_events self raw dataset
                                    return_epochs return_runs)), created.
  split; [exact Hst|]. split; [reflexivity|].
  unfold BaseP300.process_raw in *.
  destruct (BaseP300.annotate_blinks self raw) as [raw1|e0] eqn:E; cbn [fst snd] in *.
  - split; [apply Hframe; reflexivity|].
    split; [intros Hs; specialize (Hoff Hs); congruence|].
    split.
    + intros Hs. split.
      * intros kw blinks summed stored Hkw Hf Ha Hset.
        specialize (Hon Hs kw blinks summed stored Hkw Hf Ha Hset).
        injection Hon as ->. reflexivity.
      * intros e He. specialize (Hraise Hs e He). discriminate.
    + intros X labels metadata runs events kw Ho.
      destruct (BaseP300.process_annotated used_events self raw1 dataset
                                           return_epochs return_runs)
        as [[[[[X0 labels0] metadata0] [[runs0 events0] kw0]]|]|e];
        [|rewrite Ho in Hres; discriminate|rewrite Ho in Hres; discriminate].
      destruct Hres as (HF & _ & Ho'). rewrite Ho in Ho'.
      injection Ho' as _ _ _ Hr _ Hk. subst kw0 runs.
      split; [exact HF | reflexivity].
  - split; [symmetry; apply set_annotations_same|].
    split; [reflexivity|].
    split.
    + intros Hs. split.
      * intros kw blinks summed stored Hkw Hf Ha Hset.
        specialize (Hon Hs kw blinks summed stored Hkw Hf Ha Hset). discriminate.
      * intros e He. specialize (Hraise Hs e He). injection Hraise as <-.
        exact (obj_process_raw_blink_raise used_events self dataset return_epochs
                                           return_runs h input raw e0 H E).
    + intros X labels metadata runs events kw Ho. rewrite Ho in Hres. discriminate.
Qed.

(* ------------------------------------------------------------------ *)
(** ** Recordings without usable events (claim C5) *)

Lemma no_event_kept (events : list event) (codes : list Z) :
  (forall e, In e events -> ~ In (ev_code e) codes) ->
  filter (fun e => existsb (Z.eqb (ev_code e)) codes) events = [].
Proof.
  induction events as [|e events IH]; intros H; [reflexivity|].
  simpl. destruct (existsb _ codes) eqn:E.
  - apply existsb_exists in E. destruct E as (c & Hc & E).
    apply Z.eqb_eq in E. subst c. exfalso. apply (H e); [left; reflexivity | exact Hc].
  - apply IH. intros e' He'. apply H. right. exact He'.
Qed.

(** [base.py]: an event stream that cannot be decoded from the annotations
    is logged and skipped. *)
Lemma BaseParadigm_skips_undecodable {M : Mne}
      (used_events : Paradigm -> Dataset -> res event_dict)
      (self : Paradigm) (raw : Raw) (dataset : Dataset)
      (return_epochs return_runs : bool) (event_id : event_dict) (msg : string) :
  used_events self dataset = Ok event_id ->
  get_stim_channel raw = [] ->
  events_from_annotations raw (Some event_id) = Raise (ValueError msg) ->
  BaseParadigm.process_raw used_events self raw dataset return_epochs return_runs
  = ([("No matching annotations in " ++ String.concat ", " (filenames raw))%string],
     Ok None).
Proof.
  intros Hid Hstim Hev. unfold BaseParadigm.process_raw.
  rewrite Hid, Hstim, Hev. reflexivity.
Qed.

(** [p300.py]: the same stream makes [process_raw] raise. *)
Lemma BaseP300_raises_on_undecodable {M : Mne}
      (used_events : Paradigm -> Dataset -> res event_dict)
      (self : Paradigm) (raw : Raw) (dataset : Dataset)
      (return_epochs return_runs : bool) (msg : string) :
  eog_truthy (reject_from_eog self) = false ->
  get_stim_channel raw = [] ->
  events_from_annotations raw None = Raise (ValueError msg) ->
  BaseP300.process_raw used_events self raw dataset return_epochs return_runs
  = (raw, Raise (ValueError msg)).
Proof.
  intros Hoff Hstim Hev.
  unfold BaseP300.process_raw, BaseP300.annotate_blinks. rewrite Hoff.
  unfold BaseP300.process_annotated. rewrite Hstim, Hev. reflexivity.
Qed.

(** Both files: a stream none of whose events carries a code of the
    vocabulary is skipped. *)
Lemma BaseP300_skips_unmatched {M : Mne}
      (used_events : Paradigm -> Dataset -> res event_dict)
      (self : Paradigm) (raw : Raw) (dataset : Dataset)
      (return_epochs return_runs : bool)
      (events : list event) (picks : list nat) (event_id : event_dict)
      (target : Z) (codes : list Z) :
  (if (0 <? List.length (get_stim_channel raw))%nat
   then find_events raw else events_from_annotations raw None) = Ok events ->
  match channels self with
  | None => Ok (pick_types raw)
  | Some channels => pick_channels (ch_names raw) channels
  end = Ok picks ->
  used_events self dataset = Ok event_id ->
  dict_get "Target" event_id = Some (CodeInt target) ->
  dict_values event_id = map CodeInt codes ->
  (forall e, In e events -> ~ In (ev_code e) codes) ->
  BaseP300.process_annotated used_events self raw dataset return_epochs return_runs
  = Ok None.
Proof.
  intros Hev Hpicks Hid Ht Hcodes Hnone.
  unfold BaseP300.process_annotated. rewrite Hev, Hpicks, Hid. simpl.
  unfold BaseP300.select_events, dict_item. rewrite Ht. simpl. rewrite Hcodes.
  pose proof (pick_events_spec events codes) as Hspec.
  replace (filter (fun e => existsb (Z.eqb (ev_code e)) codes) events) with (@nil event)
    in Hspec.
  - destruct Hspec as (msg & ->). reflexivity.
  - symmetry. apply no_event_kept. exact Hnone.
Qed.

Lemma BaseParadigm_skips_unmatched {M : Mne}
      (self : Paradigm) (raw : Raw) (dataset : Dataset)
      (return_epochs return_runs : bool)
      (events : list event) (picks : list nat) (event_id : event_dict)
      (codes : list Z) :
  match channels self with
  | None => Ok (pick_types raw)
  | Some channels => pick_channels (ch_names raw) channels
  end = Ok picks ->
  dict_values event_id = map CodeInt codes ->
  (forall e, In e events -> ~ In (ev_code e) codes) ->
  BaseParadigm.process_events self raw dataset return_epochs return_runs
                              event_id events
  = Ok None.
Proof.
  intros Hpicks Hcodes Hnone.
  unfold BaseParadigm.process_events. rewrite Hpicks. simpl. rewrite Hcodes.
  pose proof (pick_events_spec events codes) as Hspec.
  replace (filter (fun e => existsb (Z.eqb (ev_code e)) codes) events) with (@nil event)
    in Hspec.
  - destruct Hspec as (msg & ->). reflexivity.
  - symmetry. apply no_event_kept. exact Hnone.
Qed.

(* ------------------------------------------------------------------ *)
(** ** One run in the loop of [get_data] (claims C2 and C5) *)

Section RunStep.

Context {M : Mne}.
Variable PR : Type.
Variable process_raw :
  Paradigm -> Raw -> Dataset -> forall return_epochs : bool, bool ->
  Raw * res (option (X_t return_epochs * list string * Pd.DataFrame * PR)).

Let run_step := BaseParadigm.run_step PR process_raw.

(** A run for which [process_raw] returns nothing leaves the
    accumulators as they are, and the loop goes on. *)
Lemma run_step_skip (self : Paradigm) (dataset : Dataset)
      (return_epochs return_runs : bool) (subject : Z) (session run : string)
      (raw : Raw) (st : BaseParadigm.acc_state PR return_epochs) :
  snd (process_raw self raw dataset return_epochs return_runs) = Ok None ->
  run_step self dataset return_epochs return_runs subject session st (run, raw)
  = ([CallProcessRaw subject session run], Ok st).
Proof.
  intros H. unfold run_step, BaseParadigm.run_step.
  destruct st as [[[X labels] metadata] processed]. rewrite H. reflexivity.
Qed.

(** A run for which [process_raw] raises ends the loop. *)
Lemma run_step_raise (self : Paradigm) (dataset : Dataset)
      (return_epochs return_runs : bool) (subject : Z) (session run : string)
      (raw : Raw) (st : BaseParadigm.acc_state PR return_epochs) (e : exn) :
  snd (process_raw self raw dataset return_epochs return_runs) = Raise e ->
  run_step self dataset return_epochs return_runs subject session st (run, raw)
  = ([CallProcessRaw subject session run], Raise e).
Proof.
  intros H. unfold run_step, BaseParadigm.run_step.
  destruct st as [[[X labels] metadata] processed]. rewrite H. reflexivity.
Qed.

(** With [return_epochs], a run whose first band kept no window prints
    the message and leaves the accumulators as they are. *)
Lemma run_step_empty_epochs (self : Paradigm) (dataset : Dataset)
      (return_runs : bool) (subject : Z) (session run : string) (raw : Raw)
      (st : BaseParadigm.acc_state PR true)
      (e : Epochs) (rest : list Epochs) (labels : list string)
      (metadata : Pd.DataFrame) (praw : PR) :
  snd (process_raw self raw dataset true return_runs)
  = Ok (Some (e :: rest, labels, metadata, praw)) ->
  epochs_len e = 0%nat ->
  run_step self dataset true return_runs subject session st (run, raw)
  = ([CallProcessRaw subject session run;
      Print (BaseParadigm.empty_run_message run)], Ok st).
Proof.
  intros H He. unfold run_step, BaseParadigm.run_step.
  destruct st as [[[X lbs] mds] processed]. rewrite H. simpl. rewrite He. reflexivity.
Qed.

(** Without [return_epochs], a run that kept no window raises
    [IndexError] at [len(x[0])]. *)
Lemma run_step_empty_array (self : Paradigm) (dataset : Dataset)
      (return_runs : bool) (subject : Z) (session run : string) (raw : Raw)
      (st : BaseParadigm.acc_state PR false)
      (x : ndarray) (labels : list string) (metadata : Pd.DataFrame) (praw : PR) :
  snd (process_raw self raw dataset false return_runs)
  = Ok (Some (x, labels, metadata, praw)) ->
  ndim x <> 0%nat ->
  axis0 x = 0%nat ->
  run_step self dataset false return_runs subject session st (run, raw)
  = ([CallProcessRaw subject session run],
     Raise (IndexError "index 0 is out of bounds for axis 0 with size 0")).
Proof.
  intros H Hd H0. unfold run_step, BaseParadigm.run_step.
  destruct st as [[[X lbs] mds] processed]. rewrite H. simpl.
  unfold Np.len_item0. unfold ndim in Hd. unfold axis0 in H0.
  destruct (shape x) as [|n sh]; [contradiction|]. simpl in H0. subst n. reflexivity.
Qed.

End RunStep.

(** C5 (the code departs from the claim in [p300.py]). A recording without
    stim channel whose only annotation is marked bad cannot be decoded.
    [BaseParadigm.process_raw] logs a warning and returns nothing;
    [BaseP300.process_raw] raises the [ValueError] of the decoding, and
    [get_data] on a batch that holds this run raises it too, after the
    first call of [process_raw], without reaching the second run. *)
Theorem C5_p300_undecodable_raises :
  let self := Examples.single_band in
  let raw := Examples.raw_undecodable in
  let dataset :=
    Examples.dataset "p300"
      (Examples.one_subject [("run_0", raw); ("run_1", Examples.raw_plain)]) in
  Examples.Base_process_raw self raw dataset false false
  = (["No matching annotations in undecodable.fif"], Ok None)
  /\ Examples.P300_process_raw self raw dataset false false
     = (raw, Raise (ValueError "Could not find any of the events you specified."))
  /\ Examples.P300_get_data Examples.fs_empty self dataset None false false false
     = ([CallIsValid "FakeDataset-p300"; CallDatasetGetData None; CallPrepareProcess;
         CallProcessRaw 1 "session_0" "run_0"],
        Raise (ValueError "Could not find any of the events you specified.")).
Proof.
  cbv zeta. split; [|split]; vm_compute; reflexivity.
Qed.

(** A run whose events carry no code of the vocabulary is skipped, and the
    rows of the next run are returned. *)
Example unmatched_run_is_skipped :
  let dataset :=
    Examples.dataset "p300"
      (Examples.one_subject [("run_0", Examples.raw_other_code);
                             ("run_1", Examples.raw_plain)]) in
  snd (Examples.P300_process_raw Examples.single_band Examples.raw_other_code
                                 dataset false false) = Ok None
  /\ exists X praws,
      Examples.P300_get_data Examples.fs_empty Examples.single_band dataset
                             None false false false
      = ([CallIsValid "FakeDataset-p300"; CallDatasetGetData None; CallPrepareProcess;
          CallProcessRaw 1 "session_0" "run_0"; CallProcessRaw 1 "session_0" "run_1"],
         Ok (X, ["Target"; "NonTarget"],
             [[("subject", Pd.CInt 1); ("session", Pd.CStr "session_0");
               ("run", Pd.CStr "run_1")];
              [("subject", Pd.CInt 1); ("session", Pd.CStr "session_0");
               ("run", Pd.CStr "run_1")]],
             praws))
      /\ n_windows X = 2%nat.
Proof.
  cbv zeta. split; [vm_compute; reflexivity|].
  eexists _, _. split; [vm_compute; reflexivity|]. vm_compute. reflexivity.
Qed.

(** C2 (the code departs from the claim when [return_epochs] is false).
    The events of the first run match the vocabulary and every window of it
    is rejected: [process_raw] returns an array of no window. In the default
    mode [get_data] then raises [IndexError] at [len(x[0])] and returns no
    row of the second run. With [return_epochs=True], the same batch prints
    the message for the first run and returns the two rows of the second. *)
Theorem C2_empty_run_raises_in_array_mode :
  let self := Examples.single_band in
  let dataset :=
    Examples.dataset "p300"
      (Examples.one_subject [("run_0", Examples.raw_late);
                             ("run_1", Examples.raw_plain)]) in
  (exists X praw,
      snd (Examples.P300_process_raw self Examples.raw_late dataset false false)
      = Ok (Some (X, [], [], praw))
      /\ shape X = [0; 1; 6]%nat)
  /\ Examples.P300_get_data Examples.fs_empty self dataset None false false false
     = ([CallIsValid "FakeDataset-p300"; CallDatasetGetData None; CallPrepareProcess;
         CallProcessRaw 1 "session_0" "run_0"],
        Raise (IndexError "index 0 is out of bounds for axis 0 with size 0"))
  /\ (exists X praws,
         Examples.P300_get_data Examples.fs_empty self dataset None true false false
         = ([CallIsValid "FakeDataset-p300"; CallDatasetGetData None; CallPrepareProcess;
             CallProcessRaw 1 "session_0" "run_0";
             Print "All epochs were removed in run run_0. Are you sure this is right?";
             CallProcessRaw 1 "session_0" "run_1"],
            Ok (X, ["Target"; "NonTarget"],
                [[("subject", Pd.CInt 1); ("session", Pd.CStr "session_0");
                  ("run", Pd.CStr "run_1")];
                 [("subject", Pd.CInt 1); ("session", Pd.CStr "session_0");
                  ("run", Pd.CStr "run_1")]],
                praws))
         /\ n_windows X = 2%nat).
Proof.
  cbv zeta. split; [|split].
  - eexists _, _. split; [vm_compute; reflexivity|]. vm_compute. reflexivity.
  - vm_compute. reflexivity.
  - eexists _, _. split; [vm_compute; reflexivity|]. vm_compute. reflexivity.
Qed.

(* ------------------------------------------------------------------ *)
(** ** Traces: inversion and loop invariants *)

Lemma io_bind_Ok_inv {M : Mne} {A B : Type} (m : io A) (k : A -> io B)
      (t : list effect) (b : B) :
  io_bind m k = (t, Ok b) ->
  exists t1 a t2, m = (t1, Ok a) /\ k a = (t2, Ok b) /\ t = t1 ++ t2.
Proof.
  unfold io_bind. destruct m as [t1 [a|e]]; [|discriminate].
  destruct (k a) as [t2 r] eqn:E. intros H. injection H as <- ->.
  exists t1, a, t2. auto.
Qed.

Lemma lift_Ok_inv {M : Mne} {A : Type} (r : res A) (t : list effect) (a : A) :
  lift r = (t, Ok a) -> r = Ok a /\ t = [].
Proof. unfold lift. intros H. injection H as <- ->. auto. Qed.

(** Inversion of a successful [io_bind] in a hypothesis. *)
Ltac io_inv H x Hx :=
  let t1 := fresh "t" in
  let t2 := fresh "t" in
  let Et := fresh "Et" in
  apply io_bind_Ok_inv in H; destruct H as (t1 & x & t2 & Hx & H & Et).

(** An invariant of the loop body, indexed by the items already visited,
    holds after the loop. *)
Lemma io_foldM_inv {M : Mne} {A S : Type} (f : S -> A -> io S)
      (P : list A -> S -> Prop) :
  (forall visited a s t s',
      P visited s -> f s a = (t, Ok s') -> P (visited ++ [a]) s') ->
  forall l visited s t s',
    P visited s -> io_foldM f l s = (t, Ok s') -> P (visited ++ l) s'.
Proof.
  intros Hstep. induction l as [|a l IH]; intros visited s t s' HP H.
  - simpl in H. injection H as _ <-. rewrite app_nil_r. exact HP.
  - simpl in H. io_inv H s1 Hs1.
    replace (visited ++ a :: l) with ((visited ++ [a]) ++ l)
      by (rewrite <- app_assoc; reflexivity).
    eapply IH; [|exact H]. eapply Hstep; eauto.
Qed.

(* ------------------------------------------------------------------ *)
(** ** Labels, windows and metadata rows (claim C3) *)

Lemma append0_axis0 (a x a' : ndarray) :
  Np.append0 a x = Ok a' -> axis0 a' = (axis0 a + axis0 x)%nat.
Proof.
  unfold Np.append0, axis0.
  destruct (shape a) as [|n r1]; [discriminate|].
  destruct (shape x) as [|m r2]; [discriminate|].
  destruct (shape_eqb r1 r2); [|discriminate].
  intros H. injection H as <-. reflexivity.
Qed.

Lemma len_item0_axis0 (x : ndarray) (n : nat) :
  Np.len_item0 x = Ok n -> (0 < axis0 x)%nat.
Proof.
  unfold Np.len_item0, axis0.
  destruct (shape x) as [|[|k] [|c sh]]; try discriminate; intros _; simpl; lia.
Qed.

Lemma set_column_length (col : string) (v : Pd.cell) (df : Pd.DataFrame) :
  List.length (Pd.set_column col v df) = List.length df.
Proof. unfold Pd.set_column. apply length_map. Qed.

Section GetDataLengths.

Context {M : Mne}.
Variable PR : Type.
Variable is_valid : Paradigm -> Dataset -> bool.
Variable process_raw :
  Paradigm -> Raw -> Dataset -> forall return_epochs : bool, bool ->
  Raw * res (option (X_t return_epochs * list string * Pd.DataFrame * PR)).
Variable fs : FileSystem.
Variables (self : Paradigm) (dataset : Dataset) (return_epochs return_runs : bool).

(** What is assumed of [self.process_raw]. *)
Hypothesis process_raw_lengths :
  forall raw raw' X labels metadata praw,
    process_raw self raw dataset return_epochs return_runs
    = (raw', Ok (Some (X, labels, metadata, praw))) ->
    List.length labels = x_windows return_epochs X
    /\ List.length metadata = List.length labels.

Lemma len_x0_windows (x : X_t return_epochs) (n : nat) :
  BaseParadigm.len_x0 return_epochs x = Ok n -> (0 < n)%nat ->
  (0 < x_windows return_epochs x)%nat.
Proof.
  clear process_raw_lengths. revert x.
  destruct return_epochs; simpl; intros x H Hn.
  - destruct x as [|e x]; [discriminate|]. injection H as <-. exact Hn.
  - eapply len_item0_axis0; eauto.
Qed.

Lemma grow_windows (X X' : BaseParadigm.acc_X return_epochs) (x : X_t return_epochs) :
  BaseParadigm.grow return_epochs X x = Ok X' ->
  acc_windows return_epochs X'
  = (acc_windows return_epochs X + x_windows return_epochs x)%nat.
Proof.
  clear process_raw_lengths. revert X X' x.
  destruct return_epochs; simpl; intros X X' x H.
  - injection H as <-. rewrite map_app, list_sum_app. simpl. lia.
  - destruct X as [a|]; [|discriminate]. bind_inv H a' Ha. injection H as <-.
    apply append0_axis0. exact Ha.
Qed.

Lemma grow_len_X (X X' : BaseParadigm.acc_X return_epochs) (x : X_t return_epochs) :
  BaseParadigm.grow return_epochs X x = Ok X' ->
  (0 < x_windows return_epochs x)%nat ->
  (0 < BaseParadigm.len_X return_epochs X')%nat.
Proof.
  clear process_raw_lengths. revert X X' x.
  destruct return_epochs; simpl; intros X X' x H Hx.
  - injection H as <-. rewrite length_app. simpl. lia.
  - destruct X as [a|]; [|discriminate]. bind_inv H a' Ha. injection H as <-.
    apply append0_axis0 in Ha. lia.
Qed.

Lemma start_windows (x : X_t return_epochs) :
  acc_windows return_epochs (BaseParadigm.start return_epochs x)
  = x_windows return_epochs x
  /\ ((0 < x_windows return_epochs x)%nat ->
      (0 < BaseParadigm.len_X return_epochs (BaseParadigm.start return_epochs x))%nat).
Proof.
  clear process_raw_lengths. revert x.
  destruct return_epochs; simpl; intros x; split; try lia; auto.
Qed.

Lemma run_step_consistent (subject : Z) (session : string)
      (st st' : BaseParadigm.acc_state PR return_epochs) (item : string * Raw)
      (t : list effect) :
  consistent PR return_epochs st ->
  BaseParadigm.run_step PR process_raw self dataset return_epochs return_runs
                        subject session st item = (t, Ok st') ->
  consistent PR return_epochs st'.
Proof.
  intros Hc H. destruct item as [run raw].
  destruct st as [[[X labels] metadata] processed].
  unfold BaseParadigm.run_step in H.
  io_inv H u Hu. io_inv H proc Hproc. apply lift_Ok_inv in Hproc.
  destruct Hproc as (Hproc & _).
  destruct proc as [[[[x lbs] met] praw]|];
    [|unfold io_ret in H; injection H as _ <-; exact Hc].
  destruct (process_raw self raw dataset return_epochs return_runs)
    as [raw' r] eqn:Ep. simpl in Hproc. subst r.
  destruct (process_raw_lengths _ _ _ _ _ _ Ep) as (Hl & Hm).
  io_inv H n Hn. apply lift_Ok_inv in Hn. destruct Hn as (Hn & _).
  destruct (0 <? n)%nat eqn:En.
  - apply Nat.ltb_lt in En. pose proof (len_x0_windows _ _ Hn En) as Hw.
    io_inv H p Hp. destruct p as [X1 labels1].
    unfold io_ret in H. injection H as _ <-.
    destruct Hc as (Hc1 & Hc2 & Hc3).
    destruct (0 <? BaseParadigm.len_X return_epochs X)%nat eqn:EX.
    + io_inv Hp X2 HX2. apply lift_Ok_inv in HX2. destruct HX2 as (HX2 & _).
      unfold io_ret in Hp. injection Hp as _ <- <-.
      split; [|split].
      * rewrite (grow_windows _ _ _ HX2), length_app. lia.
      * rewrite concat_app, !length_app. simpl. rewrite app_nil_r.
        rewrite !set_column_length. lia.
      * intros H0. pose proof (grow_len_X _ _ _ HX2 Hw). lia.
    + unfold io_ret in Hp. injection Hp as _ <- <-.
      apply Nat.ltb_ge in EX. assert (E0 : BaseParadigm.len_X return_epochs X = 0%nat) by lia.
      rewrite (Hc3 E0). destruct (start_windows x) as (Hs1 & Hs2).
      split; [|split].
      * rewrite Hs1. lia.
      * simpl. rewrite app_nil_r, !set_column_length. exact Hm.
      * intros H0. specialize (Hs2 Hw). lia.
  - io_inv H u' Hu'. unfold io_ret in H. injection H as _ <-. exact Hc.
Qed.

Lemma subject_step_consistent (st st' : BaseParadigm.acc_state PR return_epochs)
      (item : Z * sessions_t) (t : list effect) :
  consistent PR return_epochs st ->
  BaseParadigm.subject_step PR process_raw self dataset return_epochs return_runs
                            st item = (t, Ok st') ->
  consistent PR return_epochs st'.
Proof.
  intros Hc H. destruct item as [subject sessions].
  unfold BaseParadigm.subject_step in H.
  refine (io_foldM_inv _ (fun _ s => consistent PR return_epochs s) _
                       sessions [] st t st' Hc H).
  intros _ [session runs] s1 t1 s1' Hc1 H1.
  unfold BaseParadigm.session_step in H1.
  refine (io_foldM_inv _ (fun _ s => consistent PR return_epochs s) _
                       runs [] s1 t1 s1' Hc1 H1).
  intros _ item s2 t2 s2' Hc2 H2. eapply run_step_consistent; eauto.
Qed.

Lemma firsts_windows (X : list (list Epochs)) (firsts : list Epochs) :
  mapM (fun x : list Epochs =>
          match x with
          | e :: _ => Ok e
          | [] => Raise (IndexError "list index out of range")
          end) X = Ok firsts ->
  list_sum (map (fun e => List.length (epochs_events e)) firsts)
  = list_sum (map (x_windows true) X).
Proof.
  clear. revert firsts. induction X as [|x X IH]; simpl; intros firsts H.
  - injection H as <-. reflexivity.
  - bind_inv H e He. bind_inv H es Hes. injection H as <-.
    destruct x as [|e' x]; [discriminate|]. injection He as <-.
    simpl. rewrite (IH _ Hes). reflexivity.
Qed.

Lemma finish_X_windows (X : BaseParadigm.acc_X return_epochs) (F : features) :
  BaseParadigm.finish_X return_epochs X = Ok F ->
  n_windows F = acc_windows return_epochs X.
Proof.
  clear process_raw_lengths. revert X.
  destruct return_epochs; simpl; intros X H.
  - destruct X as [|x0 X]; [discriminate|].
    bind_inv H firsts Hf. bind_inv H e He. injection H as <-.
    simpl. unfold epochs_len. rewrite (concatenate_epochs_len _ _ He).
    apply (firsts_windows (x0 :: X)). exact Hf.
  - injection H as <-. destruct X; reflexivity.
Qed.

(** [get_data], when it computes its result, returns as many labels as
    windows and as metadata rows. *)
Lemma compute_lengths (subjects : option (list Z)) (cache : bool)
      (t : list effect) (X : features) (labels : list string)
      (metadata : Pd.DataFrame) (runs : option (list PR)) :
  BaseParadigm.compute PR is_valid process_raw fs self dataset subjects
                       return_epochs return_runs cache
  = (t, Ok (X, labels, metadata, runs)) ->
  List.length labels = n_windows X
  /\ List.length metadata = List.length labels.
Proof.
  unfold BaseParadigm.compute. intros H.
  io_inv H u Hu. destruct (negb (is_valid self dataset)); [discriminate|].
  io_inv H u1 Hu1. io_inv H dat Hdat. io_inv H u2 Hu2. io_inv H st Hst.
  destruct st as [[[X1 labels1] metadata1] processed].
  io_inv H md Hmd. apply lift_Ok_inv in Hmd. destruct Hmd as (Hmd & _).
  io_inv H F HF. apply lift_Ok_inv in HF. destruct HF as (HF & _).
  io_inv H u3 Hu3. unfold io_ret in H. injection H as _ <- <- <- <-.
  assert (Hc : consistent PR return_epochs (X1, labels1, metadata1, processed)).
  { refine (io_foldM_inv _ (fun _ s => consistent PR return_epochs s) _
                         dat [] _ _ _ _ Hst).
    - intros _ item s1 t' s1' Hc1 H1. eapply subject_step_consistent; eauto.
    - unfold BaseParadigm.init_state, consistent.
      clear. destruct return_epochs; simpl; auto. }
  destruct Hc as (Hc1 & Hc2 & _).
  rewrite (finish_X_windows _ _ HF).
  unfold Pd.concat in Hmd. destruct metadata1 as [|m0 ms]; [discriminate|].
  injection Hmd as <-. split; [symmetry; exact Hc1 | exact Hc2].
Qed.

Lemma get_data_lengths (subjects : option (list Z)) (cache : bool)
      (t : list effect) (X : features) (labels : list string)
      (metadata : Pd.DataFrame) (runs : option (list PR)) :
  BaseParadigm.get_data PR is_valid process_raw fs self dataset subjects
                        return_epochs return_runs cache
  = (t, Ok (X, labels, metadata, runs)) ->
  ~ served_from_cache PR fs dataset subjects cache ->
  List.length labels = n_windows X
  /\ List.length metadata = List.length labels.
Proof.
  unfold BaseParadigm.get_data. intros H Hmiss.
  io_inv H hit Hhit. destruct hit as [r|].
  - exfalso. apply Hmiss. eexists _, r. exact Hhit.
  - eapply compute_lengths. exact H.
Qed.

End GetDataLengths.

Lemma make_item_epochs {M : Mne} (unit_factor : Q) (es : list Epochs) :
  map (make_item true unit_factor) es = es.
Proof.
  induction es as [|e es IH]; [reflexivity|].
  change (e :: map (make_item true unit_factor) es = e :: es). f_equal. exact IH.
Qed.

Lemma rank_ok_axis0 (n w : nat) (X : ndarray) :
  (0 < n)%nat -> rank_ok n w X -> axis0 X = w.
Proof.
  intros Hn (H1 & Hm). unfold axis0.
  destruct (Nat.eq_dec n 1) as [E|E].
  - destruct (H1 E) as (c & s & ->). reflexivity.
  - destruct Hm as (c & s & ->); [lia | reflexivity].
Qed.

(** One call of [BaseP300.process_raw]: with [return_epochs=False], or with
    a single filter band, the labels are as many as the windows of [X] and
    as the metadata rows. *)
Lemma BaseP300_process_raw_lengths {M : Mne}
      (used_events : Paradigm -> Dataset -> res event_dict)
      (self : Paradigm) (dataset : Dataset) (return_epochs return_runs : bool) :
  return_epochs = false \/ List.length (filters self) = 1%nat ->
  forall raw raw' X labels metadata praw,
    BaseP300.process_raw used_events self raw dataset return_epochs return_runs
    = (raw', Ok (Some (X, labels, metadata, praw))) ->
    List.length labels = x_windows return_epochs X
    /\ List.length metadata = List.length labels.
Proof.
  intros Hmode raw raw' X labels metadata [[runs evs] kw] H.
  unfold BaseP300.process_raw in H.
  destruct (BaseP300.annotate_blinks self raw) as [raw1|e]; [|discriminate].
  injection H as _ H.
  apply BaseP300_process_annotated_inv in H.
  destruct H as (es & copies & last & _ & _ & Hlen & Hin & Hone & Hl & Hmd & HX).
  split; [|subst metadata; apply repeat_length].
  rewrite Hl. destruct return_epochs.
  - destruct Hmode as [Hf|H1]; [discriminate|].
    rewrite H1 in Hlen. rewrite (Hone Hlen) in HX.
    simpl in HX. injection HX as <-. reflexivity.
  - simpl. symmetry. eapply rank_ok_axis0;
      [|eapply assemble_array_rank; eauto].
    rewrite <- Hlen. destruct es; [contradiction | simpl; lia].
Qed.

(** The claim C3 fails as stated, in two ways. With two filter bands,
    amplitude rejection and [return_epochs=True], the first band loses the
    window with the spike and the second, smoother, band keeps it:
    [get_data] returns the one window of the first band and the two labels
    of the second. And a call served from the cache returns what the file
    holds, here two windows and three labels. *)
Lemma C3_labels_and_windows_can_differ :
  (exists t X labels metadata runs,
      Examples.P300_get_data
        Examples.fs_empty Examples.two_bands_reject
        (Examples.dataset "p300" (Examples.one_subject [("run_0", Examples.raw_spike)]))
        None true false false
      = (t, Ok (X, labels, metadata, runs))
      /\ n_windows X = 1%nat /\ List.length labels = 2%nat
      /\ List.length metadata = 2%nat)
  /\ (exists t X labels metadata runs,
         Examples.P300_get_data
           Examples.fs_stale Examples.single_band
           (Examples.dataset "p300" (Examples.one_subject [("run_0", Examples.raw_plain)]))
           None false false true
         = (t, Ok (X, labels, metadata, runs))
         /\ n_windows X = 2%nat /\ List.length labels = 3%nat).
Proof.
  split.
  - eexists _, _, _, _, _. split; [vm_compute; reflexivity|].
    split; [|split]; vm_compute; reflexivity.
  - eexists _, _, _, _, _. split; [vm_compute; reflexivity|].
    split; vm_compute; reflexivity.
Qed.

(** C3, amended. For every call of [BaseP300.process_raw] that returns
    windows, and every call of [get_data] that returns without being served
    from the cache: when [return_epochs] is false, or the recipe has exactly
    one filter band, the label vector is as long as the feature output along
    the window axis and as the metadata table has rows. *)
Theorem C3_lengths_agree {M : Mne}
      (used_events : Paradigm -> Dataset -> res event_dict)
      (fs : FileSystem) (self : Paradigm) (dataset : Dataset)
      (return_epochs return_runs : bool) :
  return_epochs = false \/ List.length (filters self) = 1%nat ->
  (forall raw raw' X labels metadata praw,
      BaseP300.process_raw used_events self raw dataset return_epochs return_runs
      = (raw', Ok (Some (X, labels, metadata, praw))) ->
      List.length labels = x_windows return_epochs X
      /\ List.length metadata = List.length labels)
  /\ (forall subjects cache t X labels metadata runs,
         BaseP300.get_data used_events fs self dataset subjects
                           return_epochs return_runs cache
         = (t, Ok (X, labels, metadata, runs)) ->
         ~ served_from_cache BaseP300.praw_t fs dataset subjects cache ->
         List.length labels = n_windows X
         /\ List.length metadata = List.length labels).
Proof.
  intros Hmode. split.
  - apply BaseP300_process_raw_lengths. exact Hmode.
  - intros subjects cache t X labels metadata runs H Hmiss.
    unfold BaseP300.get_data in H.
    eapply get_data_lengths; [|exact H|exact Hmiss].
    apply BaseP300_process_raw_lengths. exact Hmode.
Qed.

(* ------------------------------------------------------------------ *)
(** ** The order of the metadata rows (claim C9) *)

Lemma row_get_set_same (col : string) (v : Pd.cell) (r : Pd.row) :
  Pd.row_get col (Pd.row_set col v r) = Some v.
Proof.
  induction r as [|[c w] r IH]; simpl.
  - rewrite String.eqb_refl. reflexivity.
  - destruct (String.eqb c col) eqn:E; simpl; rewrite E; [reflexivity | exact IH].
Qed.

Lemma row_get_set_other (col col' : string) (v : Pd.cell) (r : Pd.row) :
  col <> col' ->
  Pd.row_get col (Pd.row_set col' v r) = Pd.row_get col r.
Proof.
  intros Hne. induction r as [|[c w] r IH]; simpl.
  - destruct (String.eqb_spec col' col); [congruence | reflexivity].
  - destruct (String.eqb_spec c col') as [->|Hc]; simpl.
    + destruct (String.eqb_spec col' col); [congruence | reflexivity].
    + destruct (String.eqb c col); [reflexivity | exact IH].
Qed.

(** The three assignments of lines 285-287 leave every row stamped with
    the subject. *)
Lemma stamped_subject (subject : Z) (session run : string) (met : Pd.DataFrame) :
  Forall (fun r => subject_of r = Some (Pd.CInt subject))
         (Pd.set_column "run" (Pd.CStr run)
            (Pd.set_column "session" (Pd.CStr session)
               (Pd.set_column "subject" (Pd.CInt subject) met))).
Proof.
  unfold Pd.set_column. rewrite !map_map. apply Forall_forall.
  intros r Hr. apply in_map_iff in Hr. destruct Hr as (r0 & <- & _).
  unfold subject_of.
  rewrite row_get_set_other by discriminate.
  rewrite row_get_set_other by discriminate.
  apply row_get_set_same.
Qed.

Section GetDataOrder.

Context {M : Mne}.
Variable PR : Type.
Variable is_valid : Paradigm -> Dataset -> bool.
Variable process_raw :
  Paradigm -> Raw -> Dataset -> forall return_epochs : bool, bool ->
  Raw * res (option (X_t return_epochs * list string * Pd.DataFrame * PR)).
Variable fs : FileSystem.
Variables (self : Paradigm) (dataset : Dataset) (return_epochs return_runs : bool).

Let extends := extends PR return_epochs.

Lemma extends_refl (subject : Z) (st : BaseParadigm.acc_state PR return_epochs) :
  extends subject st st.
Proof. exists []. rewrite app_nil_r. split; [reflexivity | constructor]. Qed.

Lemma extends_trans (subject : Z) (st1 st2 st3 : BaseParadigm.acc_state PR return_epochs) :
  extends subject st1 st2 -> extends subject st2 st3 -> extends subject st1 st3.
Proof.
  intros (r1 & E1 & F1) (r2 & E2 & F2). exists (r1 ++ r2).
  rewrite E2, E1, app_assoc. split; [reflexivity | apply Forall_app; auto].
Qed.

Lemma run_step_extends (subject : Z) (session : string)
      (st st' : BaseParadigm.acc_state PR return_epochs) (item : string * Raw)
      (t : list effect) :
  BaseParadigm.run_step PR process_raw self dataset return_epochs return_runs
                        subject session st item = (t, Ok st') ->
  extends subject st st'.
Proof.
  intros H. destruct item as [run raw].
  destruct st as [[[X labels] metadata] processed].
  unfold BaseParadigm.run_step in H.
  io_inv H u Hu. io_inv H proc Hproc.
  destruct proc as [[[[x lbs] met] praw]|];
    [|unfold io_ret in H; injection H as _ <-; apply extends_refl].
  io_inv H n Hn. destruct (0 <? n)%nat.
  - io_inv H p Hp. destruct p as [X1 labels1].
    unfold io_ret in H. injection H as _ <-.
    eexists. simpl. rewrite concat_app. simpl. rewrite app_nil_r.
    split; [reflexivity | apply stamped_subject].
  - io_inv H u' Hu'. unfold io_ret in H. injection H as _ <-. apply extends_refl.
Qed.

Lemma subject_step_extends (st st' : BaseParadigm.acc_state PR return_epochs)
      (subject : Z) (sessions : sessions_t) (t : list effect) :
  BaseParadigm.subject_step PR process_raw self dataset return_epochs return_runs
                            st (subject, sessions) = (t, Ok st') ->
  extends subject st st'.
Proof.
  intros H. unfold BaseParadigm.subject_step in H.
  refine (io_foldM_inv _ (fun _ s => extends subject st s) _
                       sessions [] st t st' (extends_refl _ _) H).
  intros _ [session runs] s1 t1 s1' Hc1 H1.
  unfold BaseParadigm.session_step in H1.
  refine (io_foldM_inv _ (fun _ s => extends subject st s) _
                       runs [] s1 t1 s1' Hc1 H1).
  intros _ item s2 t2 s2' Hc2 H2.
  eapply extends_trans; [exact Hc2|]. eapply run_step_extends; eauto.
Qed.

(** [get_data], when it computes its result, returns the metadata in
    blocks that follow the subjects of the data. *)
Lemma compute_ordered (subjects : option (list Z)) (cache : bool)
      (t : list effect) (X : features) (labels : list string)
      (metadata : Pd.DataFrame) (runs : option (list PR)) (dat : data_t) :
  BaseParadigm.compute PR is_valid process_raw fs self dataset subjects
                       return_epochs return_runs cache
  = (t, Ok (X, labels, metadata, runs)) ->
  ds_get_data dataset subjects = Ok dat ->
  ordered_by (map fst dat) metadata.
Proof.
  unfold BaseParadigm.compute. intros H Hdat.
  io_inv H u Hu. destruct (negb (is_valid self dataset)); [discriminate|].
  io_inv H u1 Hu1. io_inv H dat' Hdat'. apply lift_Ok_inv in Hdat'.
  destruct Hdat' as (Hdat' & _). rewrite Hdat in Hdat'. injection Hdat' as <-.
  io_inv H u2 Hu2. io_inv H st Hst.
  destruct st as [[[X1 labels1] metadata1] processed].
  io_inv H md Hmd. apply lift_Ok_inv in Hmd. destruct Hmd as (Hmd & _).
  io_inv H F HF. io_inv H u3 Hu3. unfold io_ret in H. injection H as _ <- <- <- <-.
  assert (Hc : ordered_by (map fst dat)
                          (List.concat (acc_metadata PR return_epochs
                                          (X1, labels1, metadata1, processed)))).
  { refine (io_foldM_inv
              _ (fun visited s =>
                   ordered_by (map fst visited)
                              (List.concat (acc_metadata PR return_epochs s)))
              _ dat [] _ _ _ _ Hst).
    - intros visited [subject sessions] s1 t' s1' (blocks & E & HF2) H1.
      apply subject_step_extends in H1. destruct H1 as (rows & E1 & Hrows).
      exists (blocks ++ [rows]). split.
      + rewrite E1, E, concat_app. simpl. rewrite app_nil_r. reflexivity.
      + rewrite map_app. apply Forall2_app; [exact HF2|].
        constructor; [exact Hrows | constructor].
    - exists []. split; [|constructor].
      unfold BaseParadigm.init_state. simpl. reflexivity. }
  simpl in Hc. unfold Pd.concat in Hmd.
  destruct metadata1 as [|m0 ms]; [discriminate|]. injection Hmd as <-. exact Hc.
Qed.

End GetDataOrder.

Lemma in_blocks (subjects : list Z) (blocks : list Pd.DataFrame) (r : Pd.row) :
  Forall2 (fun s blk => Forall (fun r => subject_of r = Some (Pd.CInt s)) blk)
          subjects blocks ->
  In r (List.concat blocks) ->
  exists s, In s subjects /\ subject_of r = Some (Pd.CInt s).
Proof.
  induction 1 as [|s blk ss bs Hblk HF IH]; simpl; intros Hin; [contradiction|].
  apply in_app_or in Hin. destruct Hin as [Hin|Hin].
  - exists s. split; [left; reflexivity|].
    rewrite Forall_forall in Hblk. apply Hblk. exact Hin.
  - destruct (IH Hin) as (s' & Hs' & E). exists s'. split; [right|]; assumption.
Qed.

(** In blocks that follow a duplicate-free list of subjects, the rows of a
    subject come before the rows of every later subject. *)
Lemma ordered_by_positions (subjects : list Z) (rows : Pd.DataFrame) :
  ordered_by subjects rows ->
  NoDup subjects ->
  forall i j r1 r2 s1 s2,
    nth_error rows i = Some r1 ->
    nth_error rows j = Some r2 ->
    subject_of r1 = Some (Pd.CInt s1) ->
    subject_of r2 = Some (Pd.CInt s2) ->
    traversed_before subjects s1 s2 ->
    (i < j)%nat.
Proof.
  intros (blocks & -> & HF). induction HF as [|s blk ss bs Hblk HF IH];
    intros Hnd i j r1 r2 s1 s2 Hi Hj E1 E2 (a & b & Ha & Hb & Hab).
  - destruct i; discriminate.
  - inversion Hnd as [|? ? Hnotin Hnd']; subst. simpl in Hi, Hj.
    destruct b as [|b']; [lia|]. simpl in Hb.
    destruct (Nat.lt_ge_cases j (List.length blk)) as [Hjl|Hjl].
    + exfalso. rewrite nth_error_app1 in Hj by exact Hjl.
      apply nth_error_In in Hj. rewrite Forall_forall in Hblk.
      specialize (Hblk r2 Hj). rewrite E2 in Hblk. injection Hblk as ->.
      apply Hnotin. eapply nth_error_In; eauto.
    + destruct (Nat.lt_ge_cases i (List.length blk)) as [Hil|Hil]; [lia|].
      rewrite nth_error_app2 in Hi, Hj by assumption.
      destruct a as [|a'].
      * exfalso. simpl in Ha. injection Ha as <-.
        destruct (in_blocks ss bs r1 HF (nth_error_In _ _ Hi)) as (s' & Hs' & E').
        rewrite E1 in E'. injection E' as ->. exact (Hnotin Hs').
      * simpl in Ha.
        assert (i - List.length blk < j - List.length blk)%nat; [|lia].
        eapply IH; eauto. exists a', b'. repeat split; auto; lia.
Qed.

(** C9. When [get_data] returns a result it computed, the rows of its
    metadata table follow the traversal of the data: the subjects are the
    keys of a dictionary, hence distinct, and for two subjects S1 and S2
    with S1 traversed before S2, every row stamped with S1 comes before
    every row stamped with S2. *)
Theorem C9_metadata_follows_traversal {M : Mne}
      (used_events : Paradigm -> Dataset -> res event_dict)
      (fs : FileSystem) (self : Paradigm) (dataset : Dataset)
      (subjects : option (list Z)) (return_epochs return_runs cache : bool)
      (t : list effect) (X : features) (labels : list string)
      (metadata : Pd.DataFrame) (runs : option (list BaseP300.praw_t))
      (dat : data_t) :
  BaseP300.get_data used_events fs self dataset subjects
                    return_epochs return_runs cache
  = (t, Ok (X, labels, metadata, runs)) ->
  ~ served_from_cache BaseP300.praw_t fs dataset subjects cache ->
  ds_get_data dataset subjects = Ok dat ->
  NoDup (map fst dat) ->
  forall i j r1 r2 s1 s2,
    nth_error metadata i = Some r1 ->
    nth_error metadata j = Some r2 ->
    subject_of r1 = Some (Pd.CInt s1) ->
    subject_of r2 = Some (Pd.CInt s2) ->
    traversed_before (map fst dat) s1 s2 ->
    (i < j)%nat.
Proof.
  intros H Hmiss Hdat Hnd.
  apply ordered_by_positions; [|exact Hnd].
  unfold BaseP300.get_data, BaseParadigm.get_data in H.
  io_inv H hit Hhit. destruct hit as [r|].
  - exfalso. apply Hmiss. eexists _, r. exact Hhit.
  - eapply compute_ordered; eauto.
Qed.

(* ------------------------------------------------------------------ *)
(** ** The theorems at concrete inputs *)

Lemma not_served_without_cache {M : Mne} (PR : Type) (fs : FileSystem)
      (dataset : Dataset) (subjects : option (list Z)) :
  ~ served_from_cache PR fs dataset subjects false.
Proof. intros (t & r & H). discriminate. Qed.

(** [C3_lengths_agree] on the plain recording, single band, arrays. *)
Lemma C3_lengths_agree_witness :
  let self := Examples.single_band in
  let dataset :=
    Examples.dataset "p300" (Examples.one_subject [("run_0", Examples.raw_plain)]) in
  exists raw' X labels metadata praw t X' labels' metadata' runs',
    (false = false \/ List.length (filters self) = 1%nat)
    /\ Examples.P300_process_raw self Examples.raw_plain dataset false false
       = (raw', Ok (Some (X, labels, metadata, praw)))
    /\ (List.length labels = x_windows false X
        /\ List.length metadata = List.length labels)
    /\ Examples.P300_get_data Examples.fs_empty self dataset None false false false
       = (t, Ok (X', labels', metadata', runs'))
    /\ ~ served_from_cache BaseP300.praw_t Examples.fs_empty dataset None false
    /\ (List.length labels' = n_windows X'
        /\ List.length metadata' = List.length labels').
Proof.
  cbv zeta.
  pose proof (C3_lengths_agree
                BaseP300.P300_used_events Examples.fs_empty Examples.single_band
                (Examples.dataset "p300"
                   (Examples.one_subject [("run_0", Examples.raw_plain)]))
                false false (or_introl eq_refl)) as (Hp & Hg).
  eexists _, _, _, _, _, _, _, _, _, _.
  split; [left; reflexivity|].
  split; [vm_compute; reflexivity|].
  split; [eapply (Hp Examples.raw_plain); vm_compute; reflexivity|].
  split; [vm_compute; reflexivity|].
  split; [apply not_served_without_cache|].
  eapply (Hg None false);
    [vm_compute; reflexivity | apply not_served_without_cache].
Defined.

(** [C4_feature_rank] on the plain recording with two bands. *)
Lemma C4_feature_rank_witness :
  let self := Examples.two_bands in
  let dataset := Examples.dataset "p300" [] in
  exists raw' X labels metadata praw log X' labels' metadata' runs',
    Examples.P300_process_raw self Examples.raw_plain dataset false false
    = (raw', Ok (Some (X, labels, metadata, praw)))
    /\ rank_ok 2 (List.length labels) X
    /\ Examples.Base_process_raw self Examples.raw_plain dataset false false
       = (log, Ok (Some (X', labels', metadata', runs')))
    /\ rank_ok 2 (List.length labels') X'.
Proof.
  cbv zeta.
  pose proof (C4_feature_rank (M := ToyMne.toy)
                              BaseP300.P300_used_events Examples.two_bands
                              Examples.raw_plain (Examples.dataset "p300" []) false)
    as (Hp & Hb).
  eexists _, _, _, _, _, _, _, _, _, _.
  split; [vm_compute; reflexivity|].
  split; [eapply Hp; vm_compute; reflexivity|].
  split; [vm_compute; reflexivity|].
  eapply Hb; vm_compute; reflexivity.
Defined.

Lemma bounds_valid_example : bounds_valid 0 (Some 0.5%Q) (Some 0.1%Q) (Some 0.4%Q).
Proof.
  repeat split; intros; repeat match goal with
                               | H : Some _ = Some _ |- _ => injection H as <-
                               end; reflexivity.
Defined.

Lemma bounds_invalid_example : ~ bounds_valid 0.2 None (Some 0.1%Q) None.
Proof.
  intros (_ & H & _). specialize (H 0.1%Q eq_refl). vm_compute in H. discriminate.
Defined.

(** [C6_construction_validation]: a valid recipe, the recipe
    [reject_tmin=0.1, tmin=0.2], and a processed recording. *)
Lemma C6_construction_validation_witness :
  let dataset := Examples.dataset "p300" [] in
  bounds_valid 0 (Some 0.5%Q) (Some 0.1%Q) (Some 0.4%Q)
  /\ (exists self,
         BaseP300.__init__ [(1, 24)%Q] (Some ["Target"; "NonTarget"]) 0
                           (Some 0.5%Q) (Some 0.1%Q) (Some 0.4%Q)
                           None None None None EogFalse = Ok self)
  /\ ~ bounds_valid 0.2 None (Some 0.1%Q) None
  /\ (exists msg,
         BaseP300.__init__ [(1, 24)%Q] (Some ["Target"; "NonTarget"]) 0.2
                           None (Some 0.1%Q) None
                           None None None None EogFalse = Raise (ValueError msg))
  /\ (exists raw' r,
         Examples.P300_process_raw Examples.with_reject_window Examples.raw_plain
                                   dataset false false = (raw', Ok (Some r)))
  /\ (0.4 <= snd (ds_interval dataset))%Q.
Proof.
  cbv zeta.
  pose proof (C6_construction_validation
                (M := ToyMne.toy) BaseP300.P300_used_events
                [(1, 24)%Q] (Some ["Target"; "NonTarget"]) 0
                (Some 0.5%Q) (Some 0.1%Q) (Some 0.4%Q)
                None None None None EogFalse) as (Hok & _ & Hproc).
  pose proof (C6_construction_validation
                (M := ToyMne.toy) BaseP300.P300_used_events
                [(1, 24)%Q] (Some ["Target"; "NonTarget"]) 0.2
                None (Some 0.1%Q) None
                None None None None EogFalse) as (_ & Hbad & _).
  split; [exact bounds_valid_example|].
  split; [exact (Hok bounds_valid_example)|].
  split; [exact bounds_invalid_example|].
  split; [exact (Hbad bounds_invalid_example)|].
  split; [eexists _, _; vm_compute; reflexivity|].
  eapply (Hproc Examples.with_reject_window Examples.raw_plain _
                (Examples.dataset "p300" []) false false);
    [reflexivity | vm_compute; reflexivity | reflexivity].
Defined.

(** [C7_invalid_dataset_rejected] on a dataset tagged ["imagery"]. *)
Lemma C7_invalid_dataset_rejected_witness :
  let dataset :=
    Examples.dataset "imagery" (Examples.one_subject [("run_0", Examples.raw_plain)]) in
  ds_paradigm dataset <> "p300"
  /\ BaseP300.is_valid Examples.single_band dataset = false
  /\ BaseParadigm.lookup BaseP300.praw_t Examples.fs_empty dataset None false
     = ([], Ok None)
  /\ Examples.P300_get_data Examples.fs_empty Examples.single_band dataset
                            None false false false
     = ([CallIsValid "FakeDataset-p300"],
        Raise (AssertionError "Dataset FakeDataset-p300 is not valid for paradigm"))
  /\ ~ served_from_cache BaseP300.praw_t Examples.fs_empty dataset None true
  /\ forallb (fun e => negb (touches_recording e))
             (fst (Examples.P300_get_data Examples.fs_empty Examples.single_band
                                          dataset None false false true)) = true.
Proof.
  cbv zeta.
  assert (Hp : ds_paradigm
                 (Examples.dataset "imagery"
                    (Examples.one_subject [("run_0", Examples.raw_plain)])) <> "p300")
    by discriminate.
  pose proof (C7_invalid_dataset_rejected
                BaseP300.P300_used_events Examples.fs_empty Examples.single_band
                (Examples.dataset "imagery"
                   (Examples.one_subject [("run_0", Examples.raw_plain)]))
                (or_introl Hp)) as (Hv & Hg).
  destruct Hg as (Hg & Hany).
  assert (Hmiss : ~ served_from_cache
                    BaseP300.praw_t Examples.fs_empty
                    (Examples.dataset "imagery"
                       (Examples.one_subject [("run_0", Examples.raw_plain)]))
                    None true)
    by (intros (t & r & E); vm_compute in E; discriminate).
  split; [exact Hp|]. split; [exact Hv|]. split; [reflexivity|].
  split; [exact (Hg None false false false [] eq_refl)|].
  split; [exact Hmiss|].
  exact (proj2 (Hany None false false true Hmiss)).
Defined.

(** [C8_recording_frame] on a store of two recordings, the second one
    with a blink and given as input. *)
Lemma C8_recording_frame_witness :
  let self := Examples.with_eog in
  let dataset := Examples.dataset "p300" [] in
  let h := [Examples.raw_plain; Examples.raw_eog] in
  let out := Examples.P300_obj_process_raw self 1%nat dataset false true h in
  nth_error h 1%nat = Some Examples.raw_eog
  /\ nth_error (fst out) 0%nat = Some Examples.raw_plain
  /\ List.length (fst out) = 3%nat
  /\ (exists (X : ndarray) labels metadata events kw,
         snd out = Ok (Some (X, labels, metadata, ([Some 2%nat], events, kw))))
  /\ exists raw' created,
      fst out = update h 1%nat raw' ++ created
      /\ raw' = fst (Examples.P300_process_raw self Examples.raw_eog dataset
                                               false true)
      /\ raw' = set_annotations Examples.raw_eog (annotations raw')
      /\ (eog_truthy (reject_from_eog self) = false -> raw' = Examples.raw_eog)
      /\ (eog_truthy (reject_from_eog self) = true ->
          (forall kw blinks summed stored,
              eog_keywords (reject_from_eog self) Examples.raw_eog kw ->
              ToyMne.toy_find_eog_events Examples.raw_eog kw = Ok blinks ->
              ToyMne.toy_annotations_add (annotations Examples.raw_eog)
                                         (blink_annotations Examples.raw_eog blinks)
              = Ok summed ->
              ToyMne.toy_annotations_set Examples.raw_eog summed = Ok stored ->
              annotations raw' = stored)
          /\ (forall e,
                 blink_step_raises (M := ToyMne.toy) (reject_from_eog self)
                                   Examples.raw_eog e ->
                 out = (h, Raise e)))
      /\ (forall (X : ndarray) labels metadata runs events kw,
             snd out = Ok (Some (X, labels, metadata, (runs, events, kw))) ->
             Forall2 (fun b c => ToyMne.toy_raw_filter raw' (fst b) (snd b) (ek_picks kw)
                                 = Ok c)
                     (filters self) created
             /\ runs = map (fun r => if true then Some r else None)
                           (fresh_refs h (List.length created)))
      /\ annotations raw' = blink_annotations Examples.raw_eog [16%Z].
Proof.
  cbv zeta. split; [reflexivity|].
  split; [vm_compute; reflexivity|].
  split; [vm_compute; reflexivity|].
  split; [eexists _, _, _, _, _; vm_compute; reflexivity|].
  destruct (C8_recording_frame (M := ToyMne.toy)
                               BaseP300.P300_used_events Examples.with_eog
                               (Examples.dataset "p300" []) false true
                               [Examples.raw_plain; Examples.raw_eog] 1%nat
                               Examples.raw_eog eq_refl)
    as (raw' & created & Hst & Hval & Hframe & Hoff & Hon & Hcopies).
  exists raw', created.
  split; [exact Hst|]. split; [exact Hval|]. split; [exact Hframe|]. split; [exact Hoff|].
  split; [exact Hon|]. split; [exact Hcopies|].
  exact (proj1 (Hon eq_refl) [("ch_name", None)] [16%Z]
               (blink_annotations Examples.raw_eog [16%Z])
               (blink_annotations Examples.raw_eog [16%Z])
               eq_refl eq_refl eq_refl eq_refl).
Defined.

(** [C9_metadata_follows_traversal] on two subjects, 2 traversed before 1:
    the second row, of subject 2, comes before the third, of subject 1. *)
Lemma C9_metadata_follows_traversal_witness :
  let dataset := Examples.dataset "p300" Examples.two_subjects in
  exists t X labels metadata runs r1 r2,
    Examples.P300_get_data Examples.fs_empty Examples.single_band dataset
                           None false false false
    = (t, Ok (X, labels, metadata, runs))
    /\ ~ served_from_cache BaseP300.praw_t Examples.fs_empty dataset None false
    /\ ds_get_data dataset None = Ok Examples.two_subjects
    /\ NoDup (map fst Examples.two_subjects)
    /\ nth_error metadata 1 = Some r1
    /\ nth_error metadata 2 = Some r2
    /\ subject_of r1 = Some (Pd.CInt 2)
    /\ subject_of r2 = Some (Pd.CInt 1)
    /\ traversed_before (map fst Examples.two_subjects) 2 1
    /\ (1 < 2)%nat.
Proof.
  cbv zeta.
  assert (Hnd : NoDup (map fst Examples.two_subjects)).
  { simpl. constructor; [intros [H|[]]; discriminate|].
    constructor; [intros []|constructor]. }
  assert (Hb : traversed_before (map fst Examples.two_subjects) 2 1).
  { exists 0%nat, 1%nat. repeat split. constructor. }
  eexists _, _, _, _, _, _, _.
  split; [vm_compute; reflexivity|].
  split; [apply not_served_without_cache|].
  split; [reflexivity|].
  split; [exact Hnd|].
  split; [reflexivity|].
  split; [reflexivity|].
  split; [reflexivity|].
  split; [reflexivity|].
  split; [exact Hb|].
  eapply (C9_metadata_follows_traversal
            BaseP300.P300_used_events Examples.fs_empty Examples.single_band
            (Examples.dataset "p300" Examples.two_subjects) None false false false);
    [vm_compute; reflexivity | apply not_served_without_cache | reflexivity
     | exact Hnd | | | | | exact Hb]; reflexivity.
Defined.

(** [C10_cache_hit] on the file system that holds a cache file. *)
Lemma C10_cache_hit_witness :
  let dataset :=
    Examples.dataset "p300" (Examples.one_subject [("run_0", Examples.raw_plain)]) in
  fs_makedirs Examples.fs_stale = Ok tt
  /\ fs_load Examples.fs_stale (BaseParadigm.key_of dataset None) = Ok Examples.stale
  /\ Examples.P300_get_data Examples.fs_stale Examples.single_band dataset
                            None true true true
     = ([Makedirs "/tmp/moabb/cache"; CacheRead ("FakeDataset", None);
         Print "Using cached data: Beware that it might not be the data you want!"],
        Ok (FArray {| shape := [2; 1; 6]%nat; item := fun _ => 0%Q |},
            ["Target"; "NonTarget"; "Target"], Pd.DataFrame_of_range 3, None)).
Proof.
  cbv zeta. split; [reflexivity|]. split; [reflexivity|].
  exact (proj1 (C10_cache_hit
                  BaseP300.P300_used_events Examples.fs_stale Examples.single_band
                  (Examples.dataset "p300"
                     (Examples.one_subject [("run_0", Examples.raw_plain)]))
                  None true true
                  (FArray {| shape := [2; 1; 6]%nat; item := fun _ => 0%Q |})
                  ["Target"; "NonTarget"; "Target"] (Pd.DataFrame_of_range 3)
                  eq_refl eq_refl)).
Defined.

(* ================================================================== *)
(** * Further properties of the two files *)

(* ------------------------------------------------------------------ *)
(** ** Dictionaries *)

Lemma dict_get_set_same {V : Type} (k : string) (v : V) (d : list (string * V)) :
  dict_get k (dict_set k v d) = Some v.
Proof.
  induction d as [|[k' w] d IH]; simpl.
  - rewrite String.eqb_refl. reflexivity.
  - destruct (String.eqb k' k) eqn:E; simpl; rewrite E; [reflexivity | exact IH].
Qed.

Lemma dict_get_set_other {V : Type} (k k' : string) (v : V) (d : list (string * V)) :
  k <> k' -> dict_get k (dict_set k' v d) = dict_get k d.
Proof.
  intros Hne. induction d as [|[c w] d IH]; simpl.
  - destruct (String.eqb_spec k' k); [congruence | reflexivity].
  - destruct (String.eqb_spec c k') as [->|Hc]; simpl.
    + destruct (String.eqb_spec k' k); [congruence | reflexivity].
    + destruct (String.eqb c k); [reflexivity | exact IH].
Qed.

Lemma dict_keys_set {V : Type} (k : string) (v : V) (d : list (string * V)) (x : string) :
  In x (dict_keys (dict_set k v d)) <-> x = k \/ In x (dict_keys d).
Proof.
  unfold dict_keys. induction d as [|[c w] d IH]; simpl.
  - split; [intros [<-|[]]; auto | intros [->|[]]; auto].
  - destruct (String.eqb_spec c k) as [->|Hc]; simpl.
    + split; [intros [<-|H]; auto | intros [->|[<-|H]]; auto].
    + rewrite IH. split; [intros [<-|[->|H]]; auto | intros [->|[<-|H]]; auto].
Qed.

Lemma dict_keys_set_NoDup {V : Type} (k : string) (v : V) (d : list (string * V)) :
  NoDup (dict_keys d) -> NoDup (dict_keys (dict_set k v d)).
Proof.
  unfold dict_keys. induction d as [|[c w] d IH]; simpl; intros Hnd.
  - constructor; [intros [] | constructor].
  - inversion Hnd as [|? ? Hnotin Hnd']; subst.
    destruct (String.eqb_spec c k) as [->|Hc]; simpl.
    + constructor; assumption.
    + constructor; [|apply IH; exact Hnd'].
      intros Hin. apply (dict_keys_set k v d c) in Hin.
      destruct Hin as [->|Hin]; [congruence | exact (Hnotin Hin)].
Qed.

Lemma dict_get_Some_key {V : Type} (k : string) (d : list (string * V)) :
  In k (dict_keys d) <-> exists v, dict_get k d = Some v.
Proof.
  unfold dict_keys. induction d as [|[c w] d IH]; simpl.
  - split; [intros [] | intros (v & H); discriminate].
  - destruct (String.eqb_spec c k) as [->|Hc].
    + split; [intros _; eexists; reflexivity | intros _; left; reflexivity].
    + rewrite <- IH. split; [intros [H|H]; [congruence | exact H] | intros H; right; exact H].
Qed.

(* ------------------------------------------------------------------ *)
(** ** [BaseP300.is_valid] and [P300.used_events] *)

Lemma set_le_true (a b : list string) :
  set_le a b = true <-> forall s, In s a -> In s b.
Proof.
  unfold set_le, mem_string. rewrite forallb_forall. split; intros H s Hs.
  - specialize (H s Hs). apply existsb_exists in H. destruct H as (x & Hx & E).
    apply String.eqb_eq in E. subst x. exact Hx.
  - apply existsb_exists. exists s. split; [apply H, Hs | apply String.eqb_refl].
Qed.

(** X1. [is_valid] accepts a dataset exactly when its paradigm tag is
    ["p300"] and every label of the recipe's event list, if there is one, is
    a key of the dataset's event vocabulary. *)
Theorem is_valid_true_iff (self : Paradigm) (dataset : Dataset) :
  BaseP300.is_valid self dataset = true
  <-> ds_paradigm dataset = "p300"
      /\ forall evs ev, events self = Some evs -> In ev evs ->
                        In ev (dict_keys (ds_event_id dataset)).
Proof.
  unfold BaseP300.is_valid.
  destruct (String.eqb_spec (ds_paradigm dataset) "p300") as [Hp|Hp]; simpl.
  - destruct (events self) as [[|e evs]|].
    + split; [intros _; split; [exact Hp|] | reflexivity].
      intros evs ev E; injection E as <-; intros [].
    + destruct (set_le (e :: evs) (dict_keys (ds_event_id dataset))) eqn:E; simpl.
      * split; [intros _; split; [exact Hp|] | reflexivity].
        intros evs' ev E'; injection E' as <-. apply set_le_true. exact E.
      * split; [discriminate|]. intros (_ & H). exfalso.
        apply not_true_iff_false in E. apply E, set_le_true.
        intros s Hs. exact (H _ s eq_refl Hs).
    + split; [intros _; split; [exact Hp|] | reflexivity].
      intros evs ev E; discriminate.
  - assert (E : (match events self with
                 | Some ((_ :: _) as evs) =>
                     if negb (set_le evs (dict_keys (ds_event_id dataset)))
                     then false else false
                 | _ => false
                 end) = false).
    { destruct (events self) as [[|e evs]|]; try reflexivity.
      destruct (negb _); reflexivity. }
    rewrite E. split; [discriminate | intros (H & _); contradiction].
Qed.

Lemma used_events_fold (dataset : Dataset) (evs : list string) :
  forall d0 d,
    foldM (fun d ev => c <- dict_item ev (ds_event_id dataset) ;; Ok (dict_set ev c d))
          evs d0 = Ok d ->
    (forall ev, In ev evs -> dict_get ev d = dict_get ev (ds_event_id dataset))
    /\ (forall k, In k (dict_keys d) <-> In k evs \/ In k (dict_keys d0))
    /\ (forall k, ~ In k evs -> dict_get k d = dict_get k d0)
    /\ (NoDup (dict_keys d0) -> NoDup (dict_keys d)).
Proof.
  induction evs as [|ev evs IH]; intros d0 d H.
  - simpl in H. injection H as <-.
    split; [intros ev []|]. split; [intros k; simpl; tauto|].
    split; [reflexivity | auto].
  - simpl in H. bind_inv H d1 Hd1. bind_inv Hd1 c Hc. injection Hd1 as <-.
    unfold dict_item in Hc.
    destruct (dict_get ev (ds_event_id dataset)) as [c'|] eqn:Eg; [|discriminate].
    injection Hc as ->.
    destruct (IH _ _ H) as (H1 & H2 & H3 & H4). repeat split.
    + intros ev' [<-|Hin]; [|apply H1; exact Hin].
      destruct (in_dec string_dec ev evs) as [Hin|Hnot]; [apply H1; exact Hin|].
      rewrite (H3 ev Hnot), dict_get_set_same. symmetry. exact Eg.
    + intros Hk. apply H2 in Hk. destruct Hk as [Hk|Hk]; [left; right; exact Hk|].
      apply dict_keys_set in Hk. destruct Hk as [->|Hk]; [left; left; reflexivity | right; exact Hk].
    + intros [[<-|Hk]|Hk]; apply H2.
      * right. apply dict_keys_set. left. reflexivity.
      * left. exact Hk.
      * right. apply dict_keys_set. right. exact Hk.
    + intros k Hk. rewrite (H3 k) by (intros Hin; apply Hk; right; exact Hin).
      apply dict_get_set_other. intros ->. apply Hk. left. reflexivity.
    + intros Hnd. apply H4, dict_keys_set_NoDup, Hnd.
Qed.

Lemma used_events_fold_total (dataset : Dataset) (evs : list string) :
  (forall ev, In ev evs -> In ev (dict_keys (ds_event_id dataset))) ->
  forall d0, exists d,
    foldM (fun d ev => c <- dict_item ev (ds_event_id dataset) ;; Ok (dict_set ev c d))
          evs d0 = Ok d.
Proof.
  induction evs as [|ev evs IH]; intros Hall d0; simpl.
  - eexists; reflexivity.
  - destruct (proj1 (dict_get_Some_key ev (ds_event_id dataset)) (Hall ev (or_introl eq_refl)))
      as (c & Ec).
    unfold dict_item. rewrite Ec. simpl. apply IH.
    intros ev' H. apply Hall. right. exact H.
Qed.

Lemma used_events_fold_missing (dataset : Dataset) (evs : list string) :
  (exists ev, In ev evs /\ ~ In ev (dict_keys (ds_event_id dataset))) ->
  forall d0, exists missing,
    foldM (fun d ev => c <- dict_item ev (ds_event_id dataset) ;; Ok (dict_set ev c d))
          evs d0 = Raise (KeyError missing)
    /\ In missing evs /\ ~ In missing (dict_keys (ds_event_id dataset)).
Proof.
  induction evs as [|ev evs IH]; intros (m & Hm & Hnot) d0; [contradiction|].
  simpl. unfold dict_item.
  destruct (dict_get ev (ds_event_id dataset)) as [c|] eqn:Eg; simpl.
  - destruct Hm as [<-|Hm].
    + exfalso. apply Hnot, dict_get_Some_key. eexists; exact Eg.
    + destruct (IH (ex_intro _ m (conj Hm Hnot)) (dict_set ev c d0))
        as (x & E & Hx & Hnx).
      exists x. split; [exact E|]. split; [right; exact Hx | exact Hnx].
  - exists ev. split; [reflexivity|]. split; [left; reflexivity|].
    intros Hin. apply dict_get_Some_key in Hin. destruct Hin as (v & Ev). congruence.
Qed.

(** X2. [P300.used_events] on a recipe with an event list: when every
    label of the list is a key of the dataset's vocabulary it returns a
    dictionary whose keys are exactly the labels of the list, without
    repetition, each with the dataset's code; when some label is missing it
    raises [KeyError] for a label of the list that the dataset lacks. *)
Theorem used_events_spec (self : Paradigm) (dataset : Dataset) (evs : list string) :
  events self = Some evs ->
  ((forall ev, In ev evs -> In ev (dict_keys (ds_event_id dataset))) ->
   exists d,
     BaseP300.P300_used_events self dataset = Ok d
     /\ (forall k, In k (dict_keys d) <-> In k evs)
     /\ NoDup (dict_keys d)
     /\ (forall ev, In ev evs -> dict_get ev d = dict_get ev (ds_event_id dataset)))
  /\ ((exists ev, In ev evs /\ ~ In ev (dict_keys (ds_event_id dataset))) ->
      exists missing,
        BaseP300.P300_used_events self dataset = Raise (KeyError missing)
        /\ In missing evs /\ ~ In missing (dict_keys (ds_event_id dataset))).
Proof.
  intros He. unfold BaseP300.P300_used_events. rewrite He. split.
  - intros Hall. destruct (used_events_fold_total dataset evs Hall []) as (d & E).
    exists d. split; [exact E|].
    destruct (used_events_fold dataset evs _ _ E) as (H1 & H2 & _ & H4).
    split; [|split; [apply H4; constructor | exact H1]].
    intros k. rewrite H2. simpl. tauto.
  - intros Hm. apply used_events_fold_missing. exact Hm.
Qed.

(** X3. On a dataset that [is_valid] accepts, [P300.used_events] of a
    recipe with an event list does not raise. *)
Theorem valid_dataset_resolves_events (self : Paradigm) (dataset : Dataset)
        (evs : list string) :
  BaseP300.is_valid self dataset = true ->
  events self = Some evs ->
  exists d, BaseP300.P300_used_events self dataset = Ok d
            /\ forall k, In k (dict_keys d) <-> In k evs.
Proof.
  intros Hv He. unfold BaseP300.is_valid in Hv. rewrite He in Hv.
  assert (Hall : forall ev, In ev evs -> In ev (dict_keys (ds_event_id dataset))).
  { destruct evs as [|e evs]; [intros ev []|].
    destruct (set_le (e :: evs) (dict_keys (ds_event_id dataset))) eqn:E;
      [apply set_le_true; exact E | discriminate]. }
  unfold BaseP300.P300_used_events. rewrite He.
  destruct (used_events_fold_total dataset evs Hall []) as (d & E).
  exists d. split; [exact E|].
  destruct (used_events_fold dataset evs _ _ E) as (_ & H2 & _).
  intros k. rewrite H2. simpl. tauto.
Qed.

(* ------------------------------------------------------------------ *)
(** ** Construction of the concrete paradigms *)

Lemma init_Ok_bounds
      (filters : list (Q * Q)) (events : option (list string))
      (tmin : Q) (tmax reject_tmin reject_tmax : option Q)
      (baseline : option (Q * Q)) (channels : option (list string))
      (resample reject_uv : option Q) (reject_from_eog : eog_setting)
      (self : Paradigm) :
  BaseP300.__init__ filters events tmin tmax reject_tmin reject_tmax
                    baseline channels resample reject_uv reject_from_eog
  = Ok self ->
  bounds_valid tmin tmax reject_tmin reject_tmax.
Proof.
  unfold BaseP300.__init__. intros H.
  bind_inv H u1 H1. bind_inv H u2 H2. bind_inv H u3 H3. bind_inv H u4 H4.
  clear H. unfold bounds_valid. repeat split.
  - intros t ->. destruct (Qleb t tmin) eqn:E; [discriminate|].
    apply Qleb_false in E. exact E.
  - intros a ->. destruct (Qleb a tmin) eqn:E; [discriminate|].
    apply Qleb_false in E. exact E.
  - intros b ->. destruct (Qleb b tmin) eqn:E; [discriminate|].
    apply Qleb_false in E. exact E.
  - intros a b -> ->. destruct (Qleb b a) eqn:E; [discriminate|].
    apply Qleb_false in E. exact E.
Qed.

Lemma P300_init_recipe (kw : BaseP300.keywords) (self : Paradigm) :
  BaseP300.P300_init kw = Ok self ->
  filters self = [(BaseP300.default 1%Q (BaseP300.kw_fmin kw),
                   BaseP300.default 24%Q (BaseP300.kw_fmax kw))]
  /\ events self = Some ["Target"; "NonTarget"].
Proof.
  unfold BaseP300.P300_init, BaseP300.SinglePass_init. intros H.
  destruct (BaseP300.kw_events kw); [discriminate|]. simpl in H.
  destruct (BaseP300.kw_filters kw); [discriminate|].
  apply init_returns_recipe in H. subst self. split; reflexivity.
Qed.

(** X4. [P300.__init__] raises [ValueError] when [events] is passed, and
    otherwise when [filters] is passed. A recipe it returns has exactly one
    filter band, [[fmin, fmax]] with the defaults 1 and 24, the event list
    [["Target", "NonTarget"]], and bounds that satisfy the checks of
    [BaseP300.__init__]; and it returns one whenever neither keyword is
    passed and the bounds satisfy the checks. *)
Theorem P300_init_spec (kw : BaseP300.keywords) :
  (BaseP300.kw_events kw <> None ->
   BaseP300.P300_init kw = Raise (ValueError "P300 dont accept events"))
  /\ (BaseP300.kw_events kw = None -> BaseP300.kw_filters kw <> None ->
      BaseP300.P300_init kw = Raise (ValueError "P300 does not take argument filters"))
  /\ (forall self,
         BaseP300.P300_init kw = Ok self ->
         BaseP300.kw_events kw = None
         /\ BaseP300.kw_filters kw = None
         /\ filters self = [(BaseP300.default 1%Q (BaseP300.kw_fmin kw),
                             BaseP300.default 24%Q (BaseP300.kw_fmax kw))]
         /\ events self = Some ["Target"; "NonTarget"]
         /\ bounds_valid (tmin self) (tmax self) (reject_tmin self) (reject_tmax self))
  /\ (BaseP300.kw_events kw = None -> BaseP300.kw_filters kw = None ->
      bounds_valid (BaseP300.default 0%Q (BaseP300.kw_tmin kw)) (BaseP300.kw_tmax kw)
                   (BaseP300.kw_reject_tmin kw) (BaseP300.kw_reject_tmax kw) ->
      exists self, BaseP300.P300_init kw = Ok self).
Proof.
  unfold BaseP300.P300_init, BaseP300.SinglePass_init.
  split; [|split; [|split]].
  - destruct (BaseP300.kw_events kw); [reflexivity | congruence].
  - intros -> Hf. simpl. destruct (BaseP300.kw_filters kw); [reflexivity | congruence].
  - intros self H.
    destruct (BaseP300.kw_events kw); [discriminate|]. simpl in H.
    destruct (BaseP300.kw_filters kw); [discriminate|].
    pose proof (init_Ok_bounds _ _ _ _ _ _ _ _ _ _ _ _ H) as Hb.
    apply init_returns_recipe in H. subst self. simpl.
    repeat split; try reflexivity; apply Hb.
  - intros -> Hf Hb. simpl. rewrite Hf. eexists. apply init_accepts. exact Hb.
Qed.

(** X5. The interval [BaseP300.datasets] asks of [dataset_search] for a
    recipe that [BaseP300.__init__] returned is absent when [tmax] is not
    given, and is [tmax - tmin], a positive number, when it is. *)
Theorem datasets_interval_positive
      (filters : list (Q * Q)) (events : option (list string))
      (tmin : Q) (tmax reject_tmin reject_tmax : option Q)
      (baseline : option (Q * Q)) (channels : option (list string))
      (resample reject_uv : option Q) (reject_from_eog : eog_setting)
      (self : Paradigm) :
  BaseP300.__init__ filters events tmin tmax reject_tmin reject_tmax
                    baseline channels resample reject_uv reject_from_eog
  = Ok self ->
  match tmax with
  | None => BaseP300.datasets_interval self = None
  | Some t => BaseP300.datasets_interval self = Some (t - tmin)%Q /\ (0 < t - tmin)%Q
  end.
Proof.
  intros H. pose proof (init_Ok_bounds _ _ _ _ _ _ _ _ _ _ _ _ H) as (Hb & _).
  apply init_returns_recipe in H. subst self. unfold BaseP300.datasets_interval. simpl.
  destruct tmax as [t|]; [|reflexivity].
  split; [reflexivity|]. specialize (Hb t eq_refl). lra.
Qed.

(* ------------------------------------------------------------------ *)
(** ** Edge cases of [process_raw] *)

Lemma mem_string_false (s : string) (l : list string) :
  ~ In s l -> mem_string s l = false.
Proof.
  intros Hn. unfold mem_string. apply not_true_is_false. intros H.
  apply existsb_exists in H. destruct H as (x & Hx & E).
  apply String.eqb_eq in E. subst x. exact (Hn Hx).
Qed.

(** X6. With [reject_from_eog] set to the name of a channel that the
    recording does not have, [BaseP300.process_raw] raises [ValueError]
    naming the channel, before any event is looked for, and the recording
    is as it was. *)
Theorem missing_eog_channel_raises {M : Mne}
      (used_events : Paradigm -> Dataset -> res event_dict)
      (self : Paradigm) (raw : Raw) (dataset : Dataset)
      (return_epochs return_runs : bool) (name : string) :
  reject_from_eog self = EogChannel name ->
  name <> "" ->
  ~ In name (ch_names raw) ->
  BaseP300.process_raw used_events self raw dataset return_epochs return_runs
  = (raw, Raise (ValueError (name ++ " not in channels ")%string)).
Proof.
  intros He Hne Hnot.
  unfold BaseP300.process_raw, BaseP300.annotate_blinks, BaseP300.eog_kwargs_of.
  rewrite He. simpl. apply String.eqb_neq in Hne. rewrite Hne. simpl.
  rewrite (mem_string_false _ _ Hnot). reflexivity.
Qed.

(** X7. With an empty filter bank neither [process_raw] returns windows:
    each returns nothing or raises. *)
Theorem empty_filter_bank_never_returns {M : Mne}
      (used_events : Paradigm -> Dataset -> res event_dict)
      (self : Paradigm) (raw : Raw) (dataset : Dataset)
      (return_epochs return_runs : bool) :
  filters self = [] ->
  (forall r, snd (BaseP300.process_raw used_events self raw dataset
                                       return_epochs return_runs) <> Ok (Some r))
  /\ (forall r, snd (BaseParadigm.process_raw used_events self raw dataset
                                              return_epochs return_runs) <> Ok (Some r)).
Proof.
  intros Hf. split.
  - intros [[[X labels] metadata] [[runs evs] kw]] H.
    unfold BaseP300.process_raw in H.
    destruct (BaseP300.annotate_blinks self raw) as [raw1|e]; [|discriminate].
    simpl in H. apply BaseP300_process_annotated_inv in H.
    destruct H as (es & copies & last & _ & _ & Hlen & Hin & _).
    rewrite Hf in Hlen. destruct es; [contradiction | discriminate].
  - intros [[[X labels] metadata] runs] H.
    destruct (BaseParadigm.process_raw used_events self raw dataset
                                       return_epochs return_runs) as [log r] eqn:E.
    simpl in H. subst r. apply BaseParadigm_process_raw_inv in E.
    destruct E as (es & last & Hlen & Hin & _).
    rewrite Hf in Hlen. destruct es; [contradiction | discriminate].
Qed.

(* ------------------------------------------------------------------ *)
(** ** The loop of [get_data], step by step *)

(** Inversion of a successful [io_bind], naming the two traces; the trace
    of the whole is rewritten to their concatenation. *)
Ltac io_split H x Hx ta tb :=
  let Et := fresh "Et" in
  apply io_bind_Ok_inv in H; destruct H as (ta & x & tb & Hx & H & Et);
  rewrite Et in *; clear Et.

Lemma io_foldM_app_trace {M : Mne} {A S K : Type} (f : S -> A -> io S)
      (g : list effect -> list K) (c : A -> list K) :
  g [] = [] ->
  (forall t1 t2, g (t1 ++ t2) = g t1 ++ g t2) ->
  (forall s a t s', f s a = (t, Ok s') -> g t = c a) ->
  forall l s t s', io_foldM f l s = (t, Ok s') -> g t = flat_map c l.
Proof.
  intros Hnil Happ Hstep. induction l as [|a l IH]; intros s t s' H.
  - simpl in H. injection H as <- _. exact Hnil.
  - simpl in H. io_inv H s1 Hs1. subst t. rewrite Happ. simpl.
    rewrite (Hstep _ _ _ _ Hs1), (IH _ _ _ H). reflexivity.
Qed.

Lemma io_foldM_forallb {M : Mne} {A S : Type} (f : S -> A -> io S)
      (P : effect -> bool) :
  (forall s a t s', f s a = (t, Ok s') -> forallb P t = true) ->
  forall l s t s', io_foldM f l s = (t, Ok s') -> forallb P t = true.
Proof.
  intros Hstep. induction l as [|a l IH]; intros s t s' H.
  - simpl in H. injection H as <- _. reflexivity.
  - simpl in H. io_inv H s1 Hs1. subst t.
    rewrite forallb_app, (Hstep _ _ _ _ Hs1), (IH _ _ _ H). reflexivity.
Qed.

(** A loop whose body appends blocks of rows, some for each item. *)
Lemma io_foldM_blocks {M : Mne} {A S K : Type} (f : S -> A -> io S)
      (rows : S -> Pd.DataFrame) (expand : A -> list K)
      (R : K -> Pd.DataFrame -> Prop) :
  (forall s a t s',
      f s a = (t, Ok s') ->
      exists blocks, rows s' = rows s ++ List.concat blocks
                     /\ Forall2 R (expand a) blocks) ->
  forall l s t s',
    io_foldM f l s = (t, Ok s') ->
    exists blocks, rows s' = rows s ++ List.concat blocks
                   /\ Forall2 R (flat_map expand l) blocks.
Proof.
  intros Hstep. induction l as [|a l IH]; intros s t s' H.
  - simpl in H. injection H as _ <-. exists []. simpl. rewrite app_nil_r.
    split; [reflexivity | constructor].
  - simpl in H. io_inv H s1 Hs1.
    destruct (Hstep _ _ _ _ Hs1) as (b1 & E1 & F1).
    destruct (IH _ _ _ H) as (b2 & E2 & F2).
    exists (b1 ++ b2). split.
    + rewrite E2, E1, concat_app, app_assoc. reflexivity.
    + simpl. apply Forall2_app; assumption.
Qed.

(** A loop whose body leaves the state as it is. *)
Lemma io_foldM_unchanged {M : Mne} {A S : Type} (f : S -> A -> io S) (s : S) :
  forall l,
    (forall a, In a l -> exists t, f s a = (t, Ok s)) ->
    exists t, io_foldM f l s = (t, Ok s).
Proof.
  induction l as [|a l IH]; intros H.
  - eexists. reflexivity.
  - destruct (H a (or_introl eq_refl)) as (t1 & E1).
    destruct (IH (fun a' Ha => H a' (or_intror Ha))) as (t2 & E2).
    exists (t1 ++ t2). simpl. unfold io_bind. rewrite E1, E2. reflexivity.
Qed.

Lemma in_traversal (dat : data_t) (subject : Z) (session run : string) (raw : Raw) :
  In (subject, session, run, raw) (traversal dat)
  <-> exists sessions runs,
      In (subject, sessions) dat /\ In (session, runs) sessions /\ In (run, raw) runs.
Proof.
  unfold traversal. rewrite in_flat_map. split.
  - intros ([s sessions] & Hs & H). apply in_flat_map in H.
    destruct H as ([se runs] & Hse & H). apply in_map_iff in H.
    destruct H as ([r rw] & E & Hr). simpl in E. injection E as <- <- <- <-.
    exists sessions, runs. auto.
  - intros (sessions & runs & Hs & Hse & Hr).
    exists (subject, sessions). split; [exact Hs|]. apply in_flat_map.
    exists (session, runs). split; [exact Hse|]. apply in_map_iff.
    exists (run, raw). split; [reflexivity | exact Hr].
Qed.

Section GetDataLoop.

Context {M : Mne}.
Variable PR : Type.
Variable is_valid : Paradigm -> Dataset -> bool.
Variable process_raw :
  Paradigm -> Raw -> Dataset -> forall return_epochs : bool, bool ->
  Raw * res (option (X_t return_epochs * list string * Pd.DataFrame * PR)).
Variable fs : FileSystem.
Variables (self : Paradigm) (dataset : Dataset) (return_epochs return_runs : bool).

Let run_step := BaseParadigm.run_step PR process_raw self dataset
                                      return_epochs return_runs.
Let session_step := BaseParadigm.session_step PR process_raw self dataset
                                              return_epochs return_runs.
Let subject_step := BaseParadigm.subject_step PR process_raw self dataset
                                              return_epochs return_runs.

(** What one pass through the body of the loop does: the trace is the
    call, followed by the message when the run is dropped; the metadata
    grow by the stamped rows of the run, or not at all. *)
Lemma run_step_inv (subject : Z) (session run : string) (raw : Raw)
      (st st' : BaseParadigm.acc_state PR return_epochs) (t : list effect) :
  run_step subject session st (run, raw) = (t, Ok st') ->
  (t = [CallProcessRaw subject session run]
   \/ t = [CallProcessRaw subject session run;
           Print (BaseParadigm.empty_run_message run)])
  /\ (acc_metadata PR return_epochs st' = acc_metadata PR return_epochs st
      \/ exists x labels met praw,
          snd (process_raw self raw dataset return_epochs return_runs)
          = Ok (Some (x, labels, met, praw))
          /\ acc_metadata PR return_epochs st'
             = acc_metadata PR return_epochs st
               ++ [Pd.set_column "run" (Pd.CStr run)
                     (Pd.set_column "session" (Pd.CStr session)
                        (Pd.set_column "subject" (Pd.CInt subject) met))]).
Proof.
  intros H. destruct st as [[[X labels] metadata] processed].
  unfold run_step, BaseParadigm.run_step in H.
  io_split H u Hu ta tb. unfold emit in Hu. injection Hu as <- _.
  io_split H proc Hproc tc td. apply lift_Ok_inv in Hproc.
  destruct Hproc as (Hproc & ->).
  destruct proc as [[[[x lbs] met] praw]|].
  - io_split H n Hn te tf. apply lift_Ok_inv in Hn. destruct Hn as (Hn & ->).
    destruct (0 <? n)%nat.
    + io_split H p Hp tg th. destruct p as [X1 labels1].
      unfold io_ret in H. injection H as <- <-.
      assert (Et : tg = []).
      { destruct (0 <? BaseParadigm.len_X return_epochs X)%nat.
        - io_split Hp X2 HX2 ti tj. apply lift_Ok_inv in HX2.
          destruct HX2 as (_ & ->).
          unfold io_ret in Hp. injection Hp as <- _ _. reflexivity.
        - unfold io_ret in Hp. injection Hp as <- _ _. reflexivity. }
      subst. simpl. split; [left; reflexivity|].
      right. exists x, lbs, met, praw. split; [exact Hproc | reflexivity].
    + io_split H u' Hu' tg th. unfold emit in Hu'. injection Hu' as <- _.
      unfold io_ret in H. injection H as <- <-. subst. simpl.
      split; [right; reflexivity | left; reflexivity].
  - unfold io_ret in H. injection H as <- <-. subst. simpl.
    split; [left; reflexivity | left; reflexivity].
Qed.

Lemma stamped_key (subject : Z) (session run : string) (raw : Raw)
      (met : Pd.DataFrame) :
  Forall (fun r => row_key r = key_of_run (subject, session, run, raw))
         (Pd.set_column "run" (Pd.CStr run)
            (Pd.set_column "session" (Pd.CStr session)
               (Pd.set_column "subject" (Pd.CInt subject) met))).
Proof.
  clear. unfold Pd.set_column. rewrite !map_map. apply Forall_forall.
  intros r Hr. apply in_map_iff in Hr. destruct Hr as (r0 & <- & _).
  unfold row_key, key_of_run. f_equal; [f_equal|].
  - rewrite row_get_set_other by discriminate.
    rewrite row_get_set_other by discriminate.
    apply row_get_set_same.
  - rewrite row_get_set_other by discriminate. apply row_get_set_same.
  - apply row_get_set_same.
Qed.

Let rows_of (st : BaseParadigm.acc_state PR return_epochs) : Pd.DataFrame :=
  List.concat (acc_metadata PR return_epochs st).

Let stamped_with (v : Z * string * string * Raw) (blk : Pd.DataFrame) : Prop :=
  Forall (fun r => row_key r = key_of_run v) blk.

Lemma run_step_blocks (subject : Z) (session : string) (item : string * Raw)
      (st st' : BaseParadigm.acc_state PR return_epochs) (t : list effect) :
  run_step subject session st item = (t, Ok st') ->
  exists blocks,
    rows_of st' = rows_of st ++ List.concat blocks
    /\ Forall2 stamped_with [(subject, session, fst item, snd item)] blocks.
Proof.
  destruct item as [run raw]. intros H. apply run_step_inv in H.
  destruct H as (_ & [E|(x & labels & met & praw & _ & E)]); unfold rows_of; rewrite E.
  - exists [[]]. simpl. rewrite app_nil_r.
    split; [reflexivity | repeat constructor].
  - exists [Pd.set_column "run" (Pd.CStr run)
              (Pd.set_column "session" (Pd.CStr session)
                 (Pd.set_column "subject" (Pd.CInt subject) met))].
    rewrite concat_app. simpl. rewrite !app_nil_r.
    split; [reflexivity|]. constructor; [apply stamped_key | constructor].
Qed.

Lemma flat_map_singleton {A B : Type} (f : A -> B) (l : list A) :
  flat_map (fun a => [f a]) l = map f l.
Proof. clear. induction l as [|a l IH]; simpl; [|rewrite IH]; reflexivity. Qed.

Lemma subject_step_blocks (item : Z * sessions_t)
      (st st' : BaseParadigm.acc_state PR return_epochs) (t : list effect) :
  subject_step st item = (t, Ok st') ->
  exists blocks,
    rows_of st' = rows_of st ++ List.concat blocks
    /\ Forall2 stamped_with (traversal [item]) blocks.
Proof.
  destruct item as [subject sessions]. intros H.
  unfold subject_step, BaseParadigm.subject_step in H.
  assert (Et : traversal [(subject, sessions)]
               = flat_map (fun sess : string * runs_t =>
                             map (fun item : string * Raw =>
                                    (subject, fst sess, fst item, snd item))
                                 (snd sess)) sessions)
    by (unfold traversal; simpl; apply app_nil_r).
  rewrite Et.
  refine (io_foldM_blocks
            _ rows_of
            (fun sess : string * runs_t =>
               map (fun item : string * Raw => (subject, fst sess, fst item, snd item))
                   (snd sess))
            stamped_with _ sessions st t st' H).
  intros s1 [session runs] t1 s1' H1. cbn [fst snd].
  unfold BaseParadigm.session_step in H1.
  rewrite <- (flat_map_singleton
                (fun item : string * Raw => (subject, session, fst item, snd item))).
  refine (io_foldM_blocks
            _ rows_of
            (fun item : string * Raw => [(subject, session, fst item, snd item)])
            stamped_with _ runs s1 t1 s1' H1).
  intros s2 item t2 s2' H2. apply (run_step_blocks _ _ _ _ _ _ H2).
Qed.

Lemma traversal_flat_map (dat : data_t) :
  traversal dat = flat_map (fun item => traversal [item]) dat.
Proof.
  clear. unfold traversal. induction dat as [|a dat IH]; simpl; [reflexivity|].
  rewrite app_nil_r. f_equal. exact IH.
Qed.

Lemma process_calls_app (t1 t2 : list effect) :
  process_calls (t1 ++ t2) = process_calls t1 ++ process_calls t2.
Proof. clear. unfold process_calls. apply flat_map_app. Qed.

Lemma subject_step_calls (item : Z * sessions_t)
      (st st' : BaseParadigm.acc_state PR return_epochs) (t : list effect) :
  subject_step st item = (t, Ok st') ->
  process_calls t = map run_id (traversal [item])
  /\ forallb is_loop_effect t = true.
Proof.
  destruct item as [subject sessions]. intros H.
  unfold subject_step, BaseParadigm.subject_step in H. split.
  - assert (Et : map run_id (traversal [(subject, sessions)])
                 = flat_map (fun sess : string * runs_t =>
                               map (fun item : string * Raw =>
                                      (subject, fst sess, fst item))
                                   (snd sess)) sessions).
    { unfold traversal. simpl. rewrite app_nil_r. clear.
      induction sessions as [|[session runs] sessions IH]; simpl; [reflexivity|].
      rewrite map_app, map_map, IH. reflexivity. }
    rewrite Et.
    refine (io_foldM_app_trace
              _ process_calls
              (fun sess : string * runs_t =>
                 map (fun item : string * Raw => (subject, fst sess, fst item))
                     (snd sess))
              eq_refl process_calls_app _ sessions st t st' H).
    intros s1 [session runs] t1 s1' H1. cbn [fst snd].
    unfold BaseParadigm.session_step in H1.
    rewrite <- (flat_map_singleton
                  (fun item : string * Raw => (subject, session, fst item))).
    refine (io_foldM_app_trace
              _ process_calls
              (fun item : string * Raw => [(subject, session, fst item)])
              eq_refl process_calls_app _ runs s1 t1 s1' H1).
    intros s2 [run raw] t2 s2' H2. apply run_step_inv in H2.
    destruct H2 as ([-> | ->] & _); reflexivity.
  - refine (io_foldM_forallb _ is_loop_effect _ sessions st t st' H).
    intros s1 [session runs] t1 s1' H1. unfold BaseParadigm.session_step in H1.
    refine (io_foldM_forallb _ is_loop_effect _ runs s1 t1 s1' H1).
    intros s2 [run raw] t2 s2' H2. apply run_step_inv in H2.
    destruct H2 as ([-> | ->] & _); reflexivity.
Qed.

Lemma map_run_id_traversal (dat : data_t) :
  flat_map (fun item => map run_id (traversal [item])) dat
  = map run_id (traversal dat).
Proof.
  clear. induction dat as [|a dat IH]; [reflexivity|].
  cbn [flat_map]. rewrite IH, <- map_app. f_equal.
  unfold traversal. simpl. rewrite app_nil_r. reflexivity.
Qed.

Lemma write_cache_trace (subjects : option (list Z)) (X : features)
      (labels : list string) (metadata : Pd.DataFrame) (t : list effect) (u : unit) :
  BaseParadigm.write_cache fs dataset subjects X labels metadata = (t, Ok u) ->
  forallb (fun e => negb (is_call e)) t = true
  /\ (fs_dump fs (BaseParadigm.key_of dataset subjects)
              {| pk_labels := Some labels; pk_metadata := Some metadata;
                 pk_X := Some X |} = Ok tt ->
      t = [Makedirs "/tmp/moabb/cache";
           CacheWrite (BaseParadigm.key_of dataset subjects)
                      {| pk_labels := Some labels; pk_metadata := Some metadata;
                         pk_X := Some X |}]).
Proof.
  clear. unfold BaseParadigm.write_cache. intros H.
  destruct (fs_makedirs fs) as [u0|e]; [|discriminate]. simpl in H.
  destruct (fs_dump fs _ _) as [[]|e]; simpl in H; injection H as <- _.
  - split; [reflexivity | intros _; reflexivity].
  - split; [reflexivity | intros E; discriminate].
Qed.

(** A call of [get_data] that computes its result: the validity check
    passed, the data were fetched, the loop ran to its end over them, and
    the cache was written when asked. *)
Lemma compute_inv (subjects : option (list Z)) (cache : bool)
      (t : list effect) (X : features) (labels : list string)
      (metadata : Pd.DataFrame) (runs : option (list PR)) :
  BaseParadigm.compute PR is_valid process_raw fs self dataset subjects
                       return_epochs return_runs cache
  = (t, Ok (X, labels, metadata, runs)) ->
  is_valid self dataset = true
  /\ exists dat t_loop t_write Xacc frames processed,
      ds_get_data dataset subjects = Ok dat
      /\ io_foldM subject_step dat (BaseParadigm.init_state PR return_epochs)
         = (t_loop, Ok (Xacc, labels, frames, processed))
      /\ Pd.concat frames = Ok metadata
      /\ BaseParadigm.finish_X return_epochs Xacc = Ok X
      /\ runs = Some processed
      /\ (if cache
          then BaseParadigm.write_cache fs dataset subjects X labels metadata
          else io_ret tt) = (t_write, Ok tt)
      /\ t = [CallIsValid (ds_code dataset); CallDatasetGetData subjects;
              CallPrepareProcess] ++ t_loop ++ t_write.
Proof.
  unfold BaseParadigm.compute. intros H.
  io_split H u Hu ta tb. unfold emit in Hu. injection Hu as <- _.
  destruct (is_valid self dataset); [|discriminate]. split; [reflexivity|].
  simpl negb in H. cbv iota in H.
  io_split H u1 Hu1 tc td. unfold emit in Hu1. injection Hu1 as <- _.
  io_split H dat Hdat te tf. apply lift_Ok_inv in Hdat. destruct Hdat as (Hdat & ->).
  io_split H u2 Hu2 tg th. unfold emit in Hu2. injection Hu2 as <- _.
  io_split H st Hst ti tj. destruct st as [[[Xacc labels1] frames] processed].
  io_split H md Hmd tk tz. apply lift_Ok_inv in Hmd. destruct Hmd as (Hmd & ->).
  io_split H F HF tm tn. apply lift_Ok_inv in HF. destruct HF as (HF & ->).
  io_split H u3 Hu3 tp tq. unfold io_ret in H. injection H as <- <- <- <- <-.
  destruct u3.
  exists dat, ti, tp, Xacc, frames, processed.
  repeat split; auto. simpl. rewrite !app_nil_r. reflexivity.
Qed.

Lemma get_data_miss_inv (subjects : option (list Z)) (cache : bool)
      (t : list effect) (r : BaseParadigm.returned PR) :
  BaseParadigm.get_data PR is_valid process_raw fs self dataset subjects
                        return_epochs return_runs cache = (t, Ok r) ->
  ~ served_from_cache PR fs dataset subjects cache ->
  exists t0 t',
    BaseParadigm.lookup PR fs dataset subjects cache = (t0, Ok None)
    /\ BaseParadigm.compute PR is_valid process_raw fs self dataset subjects
                            return_epochs return_runs cache = (t', Ok r)
    /\ t = t0 ++ t'.
Proof.
  unfold BaseParadigm.get_data. intros H Hmiss.
  io_split H hit Hhit ta tb. destruct hit as [r0|].
  - exfalso. apply Hmiss. exists ta, r0. exact Hhit.
  - exists ta, tb. auto.
Qed.

(** X8. A call of [get_data] that computes its result checks the validity,
    fetches the data and calls [prepare_process], once each and in this
    order, before the loop; in the loop it calls [process_raw] once for
    every run of the data, in the order subject, session, run, and does
    nothing else than these calls and the messages for dropped runs; after
    the loop it calls nothing on the recipe or the dataset. *)
Theorem get_data_visits_every_run (subjects : option (list Z)) (cache : bool)
        (t : list effect) (r : BaseParadigm.returned PR) (dat : data_t) :
  BaseParadigm.get_data PR is_valid process_raw fs self dataset subjects
                        return_epochs return_runs cache = (t, Ok r) ->
  ~ served_from_cache PR fs dataset subjects cache ->
  ds_get_data dataset subjects = Ok dat ->
  exists t_cache t_loop t_write,
    t = t_cache
        ++ [CallIsValid (ds_code dataset); CallDatasetGetData subjects;
            CallPrepareProcess]
        ++ t_loop ++ t_write
    /\ forallb (fun e => negb (is_call e)) t_cache = true
    /\ forallb is_loop_effect t_loop = true
    /\ process_calls t_loop = map run_id (traversal dat)
    /\ forallb (fun e => negb (is_call e)) t_write = true.
Proof.
  intros H Hmiss Hdat.
  destruct (get_data_miss_inv _ _ _ _ H Hmiss) as (t0 & t' & Hl & Hc & ->).
  destruct r as [[[X labels] metadata] runs].
  destruct (compute_inv _ _ _ _ _ _ _ Hc)
    as (_ & dat' & t_loop & t_write & Xacc & frames & processed
        & Hdat' & Hloop & _ & _ & _ & Hw & ->).
  rewrite Hdat in Hdat'. injection Hdat' as <-.
  exists t0, t_loop, t_write. split; [reflexivity|]. split; [|split; [|split]].
  - unfold BaseParadigm.lookup in Hl. destruct cache.
    + pose proof (read_cache_trace PR fs dataset subjects) as Ht.
      rewrite Hl in Ht. exact Ht.
    + injection Hl as <-. reflexivity.
  - refine (io_foldM_forallb _ is_loop_effect _ dat _ _ _ Hloop).
    intros s a t1 s' H1. apply (subject_step_calls _ _ _ _ H1).
  - rewrite <- map_run_id_traversal.
    refine (io_foldM_app_trace _ process_calls _ eq_refl process_calls_app _
                               dat _ _ _ Hloop).
    intros s a t1 s' H1. apply (subject_step_calls _ _ _ _ H1).
  - destruct cache.
    + apply (write_cache_trace _ _ _ _ _ _ Hw).
    + injection Hw as <-. reflexivity.
Qed.

(** X9. In the metadata of a result that [get_data] computed, the rows
    come in one block per run of the data, in the order subject, session,
    run, and every row of a block carries the subject, the session and the
    run of its block; a run that was skipped or dropped has an empty block.
    So every row names a run of the data. *)
Theorem metadata_rows_follow_runs (subjects : option (list Z)) (cache : bool)
        (t : list effect) (X : features) (labels : list string)
        (metadata : Pd.DataFrame) (runs : option (list PR)) (dat : data_t) :
  BaseParadigm.get_data PR is_valid process_raw fs self dataset subjects
                        return_epochs return_runs cache
  = (t, Ok (X, labels, metadata, runs)) ->
  ~ served_from_cache PR fs dataset subjects cache ->
  ds_get_data dataset subjects = Ok dat ->
  blocks_by (traversal dat) metadata
  /\ forall r, In r metadata ->
               exists v, In v (traversal dat) /\ row_key r = key_of_run v.
Proof.
  intros H Hmiss Hdat.
  destruct (get_data_miss_inv _ _ _ _ H Hmiss) as (t0 & t' & _ & Hc & _).
  destruct (compute_inv _ _ _ _ _ _ _ Hc)
    as (_ & dat' & t_loop & t_write & Xacc & frames & processed
        & Hdat' & Hloop & Hmd & _).
  rewrite Hdat in Hdat'. injection Hdat' as <-.
  assert (Hb : blocks_by (traversal dat) metadata).
  { destruct (io_foldM_blocks _ rows_of (fun item => traversal [item]) stamped_with
                              (fun s a t1 s' H1 => subject_step_blocks a s s' t1 H1)
                              dat _ _ _ Hloop) as (blocks & E & HF).
    rewrite <- traversal_flat_map in HF. unfold stamped_with in HF.
    exists blocks. split; [|exact HF].
    unfold Pd.concat in Hmd. destruct frames as [|f0 fr]; [discriminate|].
    injection Hmd as <-. exact E. }
  split; [exact Hb|].
  destruct Hb as (blocks & -> & HF). clear - HF.
  induction HF as [|v blk vs bs Hblk HF IH]; intros r Hr; [contradiction|].
  simpl in Hr. apply in_app_or in Hr. destruct Hr as [Hr|Hr].
  - exists v. split; [left; reflexivity|].
    rewrite Forall_forall in Hblk. apply Hblk, Hr.
  - destruct (IH r Hr) as (v' & Hv' & E). exists v'. split; [right|]; assumption.
Qed.

(** X10. A call of [get_data] with [cache=True] that computes its result
    and whose write succeeds ends by writing, under the key of the dataset
    class and the subjects, exactly the [X], labels and metadata it
    returns; and any later call with [cache=True] that loads this file, for
    whatever recipe and flags, returns the same [X], labels and metadata,
    with [None] for the processed runs. *)
Theorem cache_round_trip (subjects : option (list Z))
        (t : list effect) (X : features) (labels : list string)
        (metadata : Pd.DataFrame) (runs : option (list PR)) :
  let key := BaseParadigm.key_of dataset subjects in
  let payload := {| pk_labels := Some labels; pk_metadata := Some metadata;
                    pk_X := Some X |} in
  BaseParadigm.get_data PR is_valid process_raw fs self dataset subjects
                        return_epochs return_runs true
  = (t, Ok (X, labels, metadata, runs)) ->
  ~ served_from_cache PR fs dataset subjects true ->
  fs_dump fs key payload = Ok tt ->
  (exists t0, t = t0 ++ [Makedirs "/tmp/moabb/cache"; CacheWrite key payload])
  /\ forall (fs' : FileSystem) self' return_epochs' return_runs',
      fs_makedirs fs' = Ok tt ->
      fs_load fs' key = Ok payload ->
      snd (BaseParadigm.get_data PR is_valid process_raw fs' self' dataset subjects
                                 return_epochs' return_runs' true)
      = Ok (X, labels, metadata, None).
Proof.
  cbv zeta. intros H Hmiss Hdump. split.
  - destruct (get_data_miss_inv _ _ _ _ H Hmiss) as (t0 & t' & _ & Hc & ->).
    destruct (compute_inv _ _ _ _ _ _ _ Hc)
      as (_ & dat & t_loop & t_write & Xacc & frames & processed
          & _ & _ & _ & _ & _ & Hw & ->).
    destruct (write_cache_trace _ _ _ _ _ _ Hw) as (_ & Et).
    rewrite (Et Hdump). eexists. rewrite !app_assoc. reflexivity.
  - intros fs' self' re' rr' Hmk Hload.
    unfold BaseParadigm.get_data, BaseParadigm.lookup, BaseParadigm.read_cache.
    rewrite Hmk, Hload. reflexivity.
Qed.

(** X11. When [process_raw] returns nothing for every run of the data,
    and in particular when the data hold no run, a call of [get_data] on a
    valid dataset that is not served from the cache raises the
    [ValueError] of [pd.concat] on an empty list. *)
Theorem no_usable_run_raises (subjects : option (list Z)) (cache : bool)
        (t0 : list effect) (dat : data_t) :
  is_valid self dataset = true ->
  ds_get_data dataset subjects = Ok dat ->
  (forall subject session run raw,
      In (subject, session, run, raw) (traversal dat) ->
      snd (process_raw self raw dataset return_epochs return_runs) = Ok None) ->
  BaseParadigm.lookup PR fs dataset subjects cache = (t0, Ok None) ->
  snd (BaseParadigm.get_data PR is_valid process_raw fs self dataset subjects
                             return_epochs return_runs cache)
  = Raise (ValueError "No objects to concatenate").
Proof.
  intros Hv Hdat Hnone Hl.
  assert (Hloop : exists t,
             io_foldM subject_step dat (BaseParadigm.init_state PR return_epochs)
             = (t, Ok (BaseParadigm.init_state PR return_epochs))).
  { apply io_foldM_unchanged. intros [subject sessions] Hs.
    unfold subject_step, BaseParadigm.subject_step.
    apply io_foldM_unchanged. intros [session runs] Hse.
    unfold BaseParadigm.session_step.
    apply io_foldM_unchanged. intros [run raw] Hr.
    eexists. apply run_step_skip. apply (Hnone subject session run raw).
    apply in_traversal. exists sessions, runs. auto. }
  destruct Hloop as (t_loop & Hloop).
  unfold BaseParadigm.get_data. rewrite Hl. unfold io_bind at 1.
  unfold BaseParadigm.compute. rewrite Hv, Hdat.
  unfold subject_step in Hloop. simpl. rewrite Hloop.
  unfold BaseParadigm.init_state. simpl. reflexivity.
Qed.

(** X12. The cache is advisory: when the cache file cannot be read,
    [get_data] with [cache=True] returns or raises exactly what it does
    with [cache=False], whether the write at the end succeeds or not. *)
Theorem unreadable_cache_is_harmless (subjects : option (list Z)) (t0 : list effect) :
  BaseParadigm.lookup PR fs dataset subjects true = (t0, Ok None) ->
  snd (BaseParadigm.get_data PR is_valid process_raw fs self dataset subjects
                             return_epochs return_runs true)
  = snd (BaseParadigm.get_data PR is_valid process_raw fs self dataset subjects
                               return_epochs return_runs false).
Proof.
  intros Hl.
  assert (Hmk : fs_makedirs fs = Ok tt).
  { unfold BaseParadigm.lookup, BaseParadigm.read_cache in Hl.
    destruct (fs_makedirs fs) as [[]|e]; [reflexivity | discriminate]. }
  unfold BaseParadigm.get_data. rewrite Hl.
  unfold BaseParadigm.lookup, io_ret, io_bind.
  assert (Hc : snd (BaseParadigm.compute PR is_valid process_raw fs self dataset
                                         subjects return_epochs return_runs true)
               = snd (BaseParadigm.compute PR is_valid process_raw fs self dataset
                                           subjects return_epochs return_runs false)).
  { unfold BaseParadigm.compute.
    destruct (negb (is_valid self dataset)); [reflexivity|].
    destruct (ds_get_data dataset subjects) as [dat|e]; [|reflexivity].
    simpl.
    destruct (io_foldM _ dat _) as [t_loop [[[[Xacc labels] frames] processed]|e]];
      [|reflexivity].
    simpl. destruct (Pd.concat frames) as [metadata|e]; [|reflexivity].
    simpl. destruct (BaseParadigm.finish_X return_epochs Xacc) as [X|e];
      [|reflexivity].
    simpl. unfold BaseParadigm.write_cache. rewrite Hmk. simpl.
    destruct (fs_dump fs _ _); reflexivity. }
  destruct (BaseParadigm.compute PR is_valid process_raw fs self dataset
                                 subjects return_epochs return_runs true).
  destruct (BaseParadigm.compute PR is_valid process_raw fs self dataset
                                 subjects return_epochs return_runs false).
  exact Hc.
Qed.

End GetDataLoop.

(* ------------------------------------------------------------------ *)
(** ** Labels and the vocabulary *)

Lemma inv_get_In (e : Z) (d : event_dict) (l : string) :
  inv_get e d = Some l -> In (l, CodeInt e) d.
Proof.
  induction d as [|[label c] d IH]; simpl; [discriminate|].
  destruct (inv_get e d) as [l'|].
  - intros H. injection H as ->. right. apply IH. reflexivity.
  - destruct c as [z|cs]; [|discriminate].
    destruct (Z.eqb_spec z e) as [->|]; [|discriminate].
    intros H. injection H as ->. left. reflexivity.
Qed.

Lemma mapM_Forall2 {A B : Type} (f : A -> res B) (l : list A) (bs : list B) :
  mapM f l = Ok bs -> Forall2 (fun a b => f a = Ok b) l bs.
Proof.
  revert bs. induction l as [|a l IH]; simpl; intros bs H.
  - injection H as <-. constructor.
  - bind_inv H b Hb. bind_inv H bs' Hbs. injection H as <-.
    constructor; [exact Hb | apply IH; exact Hbs].
Qed.

Lemma select_events_merged {M : Mne} (events events' : list event)
      (event_id event_id' : event_dict) :
  BaseP300.select_events events event_id = Ok (events', event_id') ->
  (event_id' = event_id
   /\ pick_events events (dict_values event_id) = Ok events')
  \/ (event_id' = [("Target", CodeInt 1); ("NonTarget", CodeInt 0)]
      /\ exists targets nontargets,
          dict_get "Target" event_id = Some (CodeList targets)
          /\ dict_get "NonTarget" event_id = Some (CodeList nontargets)).
Proof.
  unfold BaseP300.select_events, dict_item. intros H.
  destruct (dict_get "Target" event_id) as [[c|cs]|] eqn:Et; simpl in H;
    [| |discriminate].
  - bind_inv H evs2 He. injection H as <- <-. left. split; [reflexivity | exact He].
  - destruct (dict_get "NonTarget" event_id) as [[c|cs']|] eqn:En; simpl in H;
      [| |discriminate].
    + bind_inv H evs2 He. injection H as <- <-. left. split; [reflexivity | exact He].
    + bind_inv H merged Hm. destruct merged as [evs1 id1].
      bind_inv Hm e1 H1. bind_inv Hm e2 H2. injection Hm as _ <-.
      bind_inv H evs2 He. injection H as _ <-.
      right. split; [reflexivity|]. exists cs, cs'. split; reflexivity.
Qed.

(** Where the labels of a returned result come from: the events found
    are selected against the vocabulary of [used_events], and the codes of
    the windows of the last band are looked up in the selected vocabulary,
    which is the one returned with the epoching parameters. *)
Lemma BaseP300_labels_inv {M : Mne}
      (used_events : Paradigm -> Dataset -> res event_dict)
      (self : Paradigm) (raw raw' : Raw) (dataset : Dataset)
      (return_epochs return_runs : bool)
      (X : X_t return_epochs) (labels : list string) (metadata : Pd.DataFrame)
      (runs : list (option Raw)) (events : list event) (kw : epoching_kwargs) :
  BaseP300.process_raw used_events self raw dataset return_epochs return_runs
  = (raw', Ok (Some (X, labels, metadata, (runs, events, kw)))) ->
  exists found event_id inv epochs,
    used_events self dataset = Ok event_id
    /\ BaseP300.select_events found event_id = Ok (events, ek_event_id kw)
    /\ inv_events (ek_event_id kw) = Ok inv
    /\ mapM (fun e => inv (ev_code e)) (epochs_events epochs) = Ok labels.
Proof.
  unfold BaseP300.process_raw. intros H.
  destruct (BaseP300.annotate_blinks self raw) as [raw1|e]; [|discriminate].
  injection H as _ H. unfold BaseP300.process_annotated in H.
  bind_inv H evs Hevs. bind_inv H picks Hpicks. bind_inv H event_id Hid.
  destruct (BaseP300.select_events evs event_id) as [[evs' id']|e] eqn:Esel;
    [|destruct e; discriminate].
  bind_inv H u Hu. bind_inv H st Hst. destruct st as [[X1 runs1] last1].
  destruct (BaseP300_bands _ _ _ _ _ _ _ _ _ _ _ _ _ _ _ Hst)
    as (es & copies & _ & _ & _ & _ & Hlast).
  destruct last1 as [[epochs kw1]|]; [|discriminate].
  bind_inv H inv Hinv. bind_inv H lbs Hlbs. bind_inv H X' HX'.
  injection H as _ E1 _ _ E2 E3. subst lbs evs' kw1.
  assert (Ekw : ek_event_id kw = id').
  { destruct es as [|e0 es]; [discriminate|].
    destruct (after_loop_nonempty
                (fun e => (e, BaseP300.epoching_kwargs_of self dataset id' picks))
                (e0 :: es) None) as (a & _ & E); [discriminate|].
    rewrite E in Hlast. injection Hlast as _ E2. subst kw. reflexivity. }
  rewrite Ekw. exists evs, event_id, inv, epochs. auto.
Qed.

(** X13. Every label that [BaseP300.process_raw] returns is a key of the
    event dictionary it returns with the epoching parameters, entered there
    with the code of the window's event; and this dictionary is the one of
    [used_events], or [{Target: 1, NonTarget: 0}] when both of its codes
    were lists and have been merged. *)
Theorem labels_are_in_the_vocabulary {M : Mne}
      (used_events : Paradigm -> Dataset -> res event_dict)
      (self : Paradigm) (raw raw' : Raw) (dataset : Dataset)
      (return_epochs return_runs : bool)
      (X : X_t return_epochs) (labels : list string) (metadata : Pd.DataFrame)
      (runs : list (option Raw)) (events : list event) (kw : epoching_kwargs) :
  BaseP300.process_raw used_events self raw dataset return_epochs return_runs
  = (raw', Ok (Some (X, labels, metadata, (runs, events, kw)))) ->
  Forall (fun l => exists c, In (l, CodeInt c) (ek_event_id kw)) labels
  /\ exists event_id,
      used_events self dataset = Ok event_id
      /\ (ek_event_id kw = event_id
          \/ ek_event_id kw = [("Target", CodeInt 1); ("NonTarget", CodeInt 0)]).
Proof.
  intros H.
  destruct (BaseP300_labels_inv _ _ _ _ _ _ _ _ _ _ _ _ _ H)
    as (found & event_id & inv & epochs & Hid & Hsel & Hinv & Hlbs).
  split.
  - unfold inv_events in Hinv. destruct (forallb _ _); [|discriminate].
    injection Hinv as <-. apply mapM_Forall2 in Hlbs.
    clear - Hlbs. induction Hlbs as [|ev l evs ls Hl _ IH]; constructor; [|exact IH].
    destruct (inv_get (ev_code ev) (ek_event_id kw)) as [l'|] eqn:E; [|discriminate].
    injection Hl as <-. exists (ev_code ev). apply inv_get_In. exact E.
  - exists event_id. split; [exact Hid|].
    apply select_events_merged in Hsel.
    destruct Hsel as [(E & _)|(E & _)]; [left | right]; exact E.
Qed.

(** X14. For every recipe that [P300.__init__] returns: the labels that
    [process_raw] returns are "Target" or "NonTarget", as many as the
    windows of [X] and as the metadata rows, in both output modes; without
    [return_epochs] the array has three axes, windows x channels x samples;
    and what [get_data] computes has as many labels as windows and as
    metadata rows. *)
Theorem P300_paradigm_output {M : Mne} (kw : BaseP300.keywords) (self : Paradigm) :
  BaseP300.P300_init kw = Ok self ->
  (forall raw raw' dataset return_epochs return_runs X labels metadata praw,
      BaseP300.process_raw BaseP300.P300_used_events self raw dataset
                           return_epochs return_runs
      = (raw', Ok (Some (X, labels, metadata, praw))) ->
      Forall (fun l => l = "Target" \/ l = "NonTarget") labels
      /\ List.length labels = x_windows return_epochs X
      /\ List.length metadata = List.length labels)
  /\ (forall raw raw' dataset return_runs (X : ndarray) labels metadata praw,
         BaseP300.process_raw BaseP300.P300_used_events self raw dataset
                              false return_runs
         = (raw', Ok (Some (X, labels, metadata, praw))) ->
         exists c s, shape X = [List.length labels; c; s])
  /\ (forall fs dataset subjects return_epochs return_runs cache
             t X labels metadata runs,
         BaseP300.get_data BaseP300.P300_used_events fs self dataset subjects
                           return_epochs return_runs cache
         = (t, Ok (X, labels, metadata, runs)) ->
         ~ served_from_cache BaseP300.praw_t fs dataset subjects cache ->
         List.length labels = n_windows X
         /\ List.length metadata = List.length labels).
Proof.
  intros Hinit.
  destruct (P300_init_recipe kw self Hinit) as (Hf & He).
  assert (H1 : List.length (filters self) = 1%nat) by (rewrite Hf; reflexivity).
  split; [|split].
  - intros raw raw' dataset re rr X labels metadata [[runs evs] kwargs] H.
    split; [|eapply BaseP300_process_raw_lengths; eauto].
    destruct (BaseP300_labels_inv _ _ _ _ _ _ _ _ _ _ _ _ _ H)
      as (found & event_id & inv & epochs & Hid & Hsel & Hinv & Hlbs).
    assert (Hkeys : forall l c, In (l, c) (ek_event_id kwargs) ->
                                l = "Target" \/ l = "NonTarget").
    { intros l c Hin. apply select_events_merged in Hsel.
      destruct Hsel as [(E & _)|(E & _)]; rewrite E in Hin.
      - unfold BaseP300.P300_used_events in Hid. rewrite He in Hid.
        destruct (used_events_fold _ _ _ _ Hid) as (_ & Hk & _).
        assert (Hin' : In l (dict_keys event_id))
          by (apply in_map_iff; exists (l, c); auto).
        apply Hk in Hin'. destruct Hin' as [[<-|[<-|[]]]|[]]; auto.
      - destruct Hin as [E'|[E'|[]]]; injection E' as <- _; auto. }
    unfold inv_events in Hinv. destruct (forallb _ _); [|discriminate].
    injection Hinv as <-. apply mapM_Forall2 in Hlbs.
    clear - Hlbs Hkeys. induction Hlbs as [|ev l evs' ls Hl _ IH]; constructor; [|exact IH].
    destruct (inv_get (ev_code ev) (ek_event_id kwargs)) as [l'|] eqn:E; [|discriminate].
    injection Hl as <-. apply inv_get_In in E. eapply Hkeys; exact E.
  - intros raw raw' dataset rr X labels metadata [[runs evs] kwargs] H.
    unfold BaseP300.process_raw in H.
    destruct (BaseP300.annotate_blinks self raw) as [raw1|e]; [|discriminate].
    injection H as _ H. apply BaseP300_process_annotated_inv in H.
    destruct H as (es & copies & last & _ & _ & Hlen & Hin & Hone & Hl & _ & HX).
    rewrite Hl, H1 in *.
    destruct (assemble_array_rank _ _ _ _ _ Hlen Hin Hone HX) as (Hr & _).
    apply Hr. reflexivity.
  - intros fs dataset subjects re rr cache t X labels metadata runs H Hmiss.
    unfold BaseP300.get_data in H.
    eapply get_data_lengths; [|exact H|exact Hmiss].
    apply BaseP300_process_raw_lengths. right. exact H1.
Qed.

(** X15. Grouped event codes work only in pairs: when [used_events] gives
    a list of codes for some label and [BaseP300.process_raw] returns
    windows, then both "Target" and "NonTarget" had a list, the groups were
    merged, and the dictionary returned with the epoching parameters is
    [{Target: 1, NonTarget: 0}]. With a list for one label only, or for
    another label, the call returns nothing or raises. *)
Theorem grouped_codes_need_both_labels {M : Mne}
      (used_events : Paradigm -> Dataset -> res event_dict)
      (self : Paradigm) (raw raw' : Raw) (dataset : Dataset)
      (return_epochs return_runs : bool)
      (X : X_t return_epochs) (labels : list string) (metadata : Pd.DataFrame)
      (runs : list (option Raw)) (events : list event) (kw : epoching_kwargs)
      (event_id : event_dict) (label : string) (codes : list Z) :
  BaseP300.process_raw used_events self raw dataset return_epochs return_runs
  = (raw', Ok (Some (X, labels, metadata, (runs, events, kw)))) ->
  used_events self dataset = Ok event_id ->
  In (label, CodeList codes) event_id ->
  ek_event_id kw = [("Target", CodeInt 1); ("NonTarget", CodeInt 0)]
  /\ exists targets nontargets,
      dict_get "Target" event_id = Some (CodeList targets)
      /\ dict_get "NonTarget" event_id = Some (CodeList nontargets).
Proof.
  intros H Hid Hin.
  destruct (BaseP300_labels_inv _ _ _ _ _ _ _ _ _ _ _ _ _ H)
    as (found & event_id0 & inv & epochs & Hid0 & Hsel & Hinv & _).
  rewrite Hid in Hid0. injection Hid0 as <-.
  apply select_events_merged in Hsel.
  destruct Hsel as [(E & _)|(E & Hboth)]; [|split; [exact E | exact Hboth]].
  exfalso. rewrite E in Hinv. unfold inv_events in Hinv.
  destruct (forallb _ (dict_values event_id)) eqn:Ef; [|discriminate].
  rewrite forallb_forall in Ef.
  specialize (Ef (CodeList codes)). simpl in Ef.
  assert (Hv : In (CodeList codes) (dict_values event_id))
    by (apply in_map_iff; exists (label, CodeList codes); auto).
  specialize (Ef Hv). discriminate.
Qed.

(** X16. [BaseParadigm.process_raw] has no merging of grouped codes: when
    [used_events] gives a list of codes for some label, it never returns
    windows; it returns nothing or raises. *)
Theorem base_never_returns_grouped_codes {M : Mne}
      (used_events : Paradigm -> Dataset -> res event_dict)
      (self : Paradigm) (raw : Raw) (dataset : Dataset)
      (return_epochs return_runs : bool)
      (event_id : event_dict) (label : string) (codes : list Z) :
  used_events self dataset = Ok event_id ->
  In (label, CodeList codes) event_id ->
  forall r, snd (BaseParadigm.process_raw used_events self raw dataset
                                          return_epochs return_runs) <> Ok (Some r).
Proof.
  intros Hid Hin [[[X labels] metadata] runs] H.
  unfold BaseParadigm.process_raw in H. rewrite Hid in H.
  assert (Hev : exists evs,
             BaseParadigm.process_events self raw dataset return_epochs return_runs
                                         event_id evs
             = Ok (Some (X, labels, metadata, runs))).
  { destruct (0 <? _)%nat.
    - simpl in H. bind_inv H evs Hevs. exists evs. exact H.
    - destruct (events_from_annotations raw (Some event_id)) as [evs|e].
      + simpl in H. exists evs. exact H.
      + destruct e; discriminate. }
  clear H. destruct Hev as (evs & H). unfold BaseParadigm.process_events in H.
  bind_inv H picks Hpicks.
  destruct (pick_events evs (dict_values event_id)) as [evs'|e];
    [|destruct e; discriminate].
  bind_inv H st Hst. destruct st as [[X1 runs1] last1].
  destruct last1 as [epochs|]; [|discriminate].
  bind_inv H inv Hinv. unfold inv_events in Hinv.
  destruct (forallb _ (dict_values event_id)) eqn:Ef; [|discriminate].
  rewrite forallb_forall in Ef.
  specialize (Ef (CodeList codes)). simpl in Ef.
  assert (Hv : In (CodeList codes) (dict_values event_id))
    by (apply in_map_iff; exists (label, CodeList codes); auto).
  specialize (Ef Hv). discriminate.
Qed.

(* ------------------------------------------------------------------ *)
(** ** The processed runs that [get_data] returns *)

Lemma io_foldM_preserves {M : Mne} {A S : Type} (f : S -> A -> io S)
      (P : S -> Prop) (l : list A) :
  (forall a s t s', In a l -> P s -> f s a = (t, Ok s') -> P s') ->
  forall s t s', P s -> io_foldM f l s = (t, Ok s') -> P s'.
Proof.
  induction l as [|a l IH]; intros Hstep s t s' HP H.
  - simpl in H. injection H as _ <-. exact HP.
  - simpl in H. io_inv H s1 Hs1.
    eapply (IH (fun a' s0 t0 s0' Ha => Hstep a' s0 t0 s0' (or_intror Ha)));
      [|exact H].
    exact (Hstep a s _ s1 (or_introl eq_refl) HP Hs1).
Qed.

Section GetDataRuns.

Context {M : Mne}.
Variable PR : Type.
Variable is_valid : Paradigm -> Dataset -> bool.
Variable process_raw :
  Paradigm -> Raw -> Dataset -> forall return_epochs : bool, bool ->
  Raw * res (option (X_t return_epochs * list string * Pd.DataFrame * PR)).
Variable fs : FileSystem.
Variables (self : Paradigm) (dataset : Dataset) (return_epochs return_runs : bool).

(** One pass through the body of the loop appends to [processed_runs] at
    most what [process_raw] returned for the run, and only with
    [return_runs]. *)
Lemma run_step_processed (subject : Z) (session run : string) (raw : Raw)
      (st st' : BaseParadigm.acc_state PR return_epochs) (t : list effect) :
  BaseParadigm.run_step PR process_raw self dataset return_epochs return_runs
                        subject session st (run, raw) = (t, Ok st') ->
  snd st' = snd st
  \/ (return_runs = true
      /\ exists x labels met praw,
          snd (process_raw self raw dataset return_epochs return_runs)
          = Ok (Some (x, labels, met, praw))
          /\ snd st' = snd st ++ [praw]).
Proof.
  intros H. destruct st as [[[X labels] metadata] processed].
  unfold BaseParadigm.run_step in H.
  io_inv H u Hu. io_inv H proc Hproc. apply lift_Ok_inv in Hproc.
  destruct Hproc as (Hproc & _).
  destruct proc as [[[[x lbs] met] praw]|].
  - io_inv H n Hn.
    destruct (0 <? n)%nat.
    + io_inv H p Hp. destruct p as [X1 labels1].
      unfold io_ret in H. injection H as _ <-. simpl.
      destruct return_runs; [right | left; reflexivity].
      split; [reflexivity|]. exists x, lbs, met, praw.
      split; [exact Hproc | reflexivity].
    + io_inv H u' Hu'. unfold io_ret in H. injection H as _ <-.
      left. reflexivity.
  - unfold io_ret in H. injection H as _ <-. left. reflexivity.
Qed.

(** X17. The processed runs of a result that [get_data] computed: without
    [return_runs] the list is empty, whatever [process_raw] returned; with
    it, every entry is what [process_raw] returned, as fourth component,
    for a run of the data. *)
Theorem processed_runs_come_from_runs (subjects : option (list Z)) (cache : bool)
        (t : list effect) (X : features) (labels : list string)
        (metadata : Pd.DataFrame) (runs : option (list PR)) (dat : data_t) :
  BaseParadigm.get_data PR is_valid process_raw fs self dataset subjects
                        return_epochs return_runs cache
  = (t, Ok (X, labels, metadata, runs)) ->
  ~ served_from_cache PR fs dataset subjects cache ->
  ds_get_data dataset subjects = Ok dat ->
  exists processed,
    runs = Some processed
    /\ (return_runs = false -> processed = [])
    /\ Forall (fun praw =>
                 exists subject session run raw x lbs met,
                   In (subject, session, run, raw) (traversal dat)
                   /\ snd (process_raw self raw dataset return_epochs return_runs)
                      = Ok (Some (x, lbs, met, praw)))
              processed.
Proof.
  intros H Hmiss Hdat.
  destruct (get_data_miss_inv _ _ _ _ _ _ _ _ _ _ _ _ H Hmiss)
    as (t0 & t' & _ & Hc & _).
  destruct (compute_inv _ _ _ _ _ _ _ _ _ _ _ _ _ _ _ Hc)
    as (_ & dat' & t_loop & t_write & Xacc & frames & processed
        & Hdat' & Hloop & _ & _ & -> & _).
  rewrite Hdat in Hdat'. injection Hdat' as <-.
  exists processed. split; [reflexivity|].
  pose (P := fun st : BaseParadigm.acc_state PR return_epochs =>
               (return_runs = false -> snd st = [])
               /\ Forall (fun praw =>
                            exists subject session run raw x lbs met,
                              In (subject, session, run, raw) (traversal dat)
                              /\ snd (process_raw self raw dataset
                                                  return_epochs return_runs)
                                 = Ok (Some (x, lbs, met, praw)))
                         (snd st)).
  assert (HP : P (Xacc, labels, frames, processed)).
  { refine (io_foldM_preserves _ P dat _ _ _ _ _ Hloop).
    - intros [subject sessions] s1 t1 s1' Hs HP1 H1.
      unfold BaseParadigm.subject_step in H1.
      refine (io_foldM_preserves _ P sessions _ _ _ _ HP1 H1).
      intros [session rs] s2 t2 s2' Hse HP2 H2.
      unfold BaseParadigm.session_step in H2.
      refine (io_foldM_preserves _ P rs _ _ _ _ HP2 H2).
      intros [run raw] s3 t3 s3' Hr (Hoff & Hall) H3.
      apply run_step_processed in H3.
      destruct H3 as [E|(Hon & x & lbs & met & praw & Hproc & E)];
        unfold P; rewrite E.
      + split; assumption.
      + split; [intros Hoff'; congruence|].
        apply Forall_app. split; [exact Hall|]. constructor; [|constructor].
        exists subject, session, run, raw, x, lbs, met.
        split; [|exact Hproc].
        apply in_traversal. exists sessions, rs. auto.
    - split; [reflexivity | constructor]. }
  exact HP.
Qed.

End GetDataRuns.

(* ------------------------------------------------------------------ *)
(** ** The further properties on the example recordings *)

(** [used_events_spec] on the single-band recipe and the example dataset. *)
Lemma used_events_spec_witness :
  let dataset := Examples.dataset "p300" [] in
  events Examples.single_band = Some ["Target"; "NonTarget"]
  /\ (forall ev, In ev ["Target"; "NonTarget"] ->
                 In ev (dict_keys (ds_event_id dataset)))
  /\ BaseP300.P300_used_events Examples.single_band dataset
     = Ok [("Target", CodeInt 1); ("NonTarget", CodeInt 2)]
  /\ exists d,
      BaseP300.P300_used_events Examples.single_band dataset = Ok d
      /\ (forall k, In k (dict_keys d) <-> In k ["Target"; "NonTarget"])
      /\ NoDup (dict_keys d)
      /\ (forall ev, In ev ["Target"; "NonTarget"] ->
                     dict_get ev d = dict_get ev (ds_event_id dataset)).
Proof.
  cbv zeta.
  assert (Hall : forall ev, In ev ["Target"; "NonTarget"] ->
                            In ev (dict_keys (ds_event_id (Examples.dataset "p300" [])))).
  { intros ev [<-|[<-|[]]]; simpl; auto. }
  split; [reflexivity|]. split; [exact Hall|]. split; [reflexivity|].
  exact (proj1 (used_events_spec Examples.single_band (Examples.dataset "p300" [])
                                 ["Target"; "NonTarget"] eq_refl) Hall).
Defined.

(** [valid_dataset_resolves_events] on the same pair. *)
Lemma valid_dataset_resolves_events_witness :
  let dataset := Examples.dataset "p300" [] in
  BaseP300.is_valid Examples.single_band dataset = true
  /\ events Examples.single_band = Some ["Target"; "NonTarget"]
  /\ exists d,
      BaseP300.P300_used_events Examples.single_band dataset = Ok d
      /\ forall k, In k (dict_keys d) <-> In k ["Target"; "NonTarget"].
Proof.
  cbv zeta. split; [reflexivity|]. split; [reflexivity|].
  exact (valid_dataset_resolves_events
           Examples.single_band (Examples.dataset "p300" [])
           ["Target"; "NonTarget"] eq_refl eq_refl).
Defined.

Lemma bounds_valid_tmax_only : bounds_valid 0 (Some 0.5%Q) None None.
Proof.
  repeat split; intros;
    repeat match goal with
           | H : Some _ = Some _ |- _ => injection H as <-
           | H : None = Some _ |- _ => discriminate H
           end; reflexivity.
Defined.

(** [P300_init_spec] on [P300(tmax=0.5)]. *)
Lemma P300_init_spec_witness :
  BaseP300.kw_events Examples.keywords_tmax = None
  /\ BaseP300.kw_filters Examples.keywords_tmax = None
  /\ bounds_valid 0 (Some 0.5%Q) None None
  /\ (exists self, BaseP300.P300_init Examples.keywords_tmax = Ok self)
  /\ BaseP300.P300_init Examples.keywords_tmax = Ok Examples.single_band
  /\ filters Examples.single_band = [(1, 24)%Q]
  /\ events Examples.single_band = Some ["Target"; "NonTarget"].
Proof.
  destruct (P300_init_spec Examples.keywords_tmax) as (_ & _ & Hret & Hok).
  destruct (Hret Examples.single_band eq_refl) as (_ & _ & Hf & He & _).
  split; [reflexivity|]. split; [reflexivity|].
  split; [exact bounds_valid_tmax_only|].
  split; [exact (Hok eq_refl eq_refl bounds_valid_tmax_only)|].
  split; [reflexivity|]. split; [exact Hf | exact He].
Defined.

(** [datasets_interval_positive] on the single-band recipe. *)
Lemma datasets_interval_positive_witness :
  BaseP300.__init__ [(1, 24)%Q] (Some ["Target"; "NonTarget"]) 0
                    (Some 0.5%Q) None None None None None None EogFalse
  = Ok Examples.single_band
  /\ BaseP300.datasets_interval Examples.single_band = Some (0.5 - 0)%Q
  /\ (0 < 0.5 - 0)%Q.
Proof.
  split; [reflexivity|].
  exact (datasets_interval_positive
           [(1, 24)%Q] (Some ["Target"; "NonTarget"]) 0
           (Some 0.5%Q) None None None None None None EogFalse
           Examples.single_band eq_refl).
Defined.

(** [missing_eog_channel_raises] on the plain recording, which has no
    channel "EOGx". *)
Lemma missing_eog_channel_raises_witness :
  reject_from_eog Examples.with_missing_eog = EogChannel "EOGx"
  /\ "EOGx"%string <> ""%string
  /\ ~ In "EOGx"%string (ch_names Examples.raw_plain)
  /\ Examples.P300_process_raw Examples.with_missing_eog Examples.raw_plain
                               (Examples.dataset "p300" []) false false
     = (Examples.raw_plain, Raise (ValueError "EOGx not in channels ")).
Proof.
  assert (Hne : "EOGx"%string <> ""%string) by discriminate.
  assert (Hnot : ~ In "EOGx"%string (ch_names Examples.raw_plain))
    by (simpl; intros [H|[H|[]]]; discriminate).
  split; [reflexivity|]. split; [exact Hne|]. split; [exact Hnot|].
  exact (missing_eog_channel_raises
           (M := ToyMne.toy) BaseP300.P300_used_events
           Examples.with_missing_eog Examples.raw_plain
           (Examples.dataset "p300" []) false false "EOGx" eq_refl Hne Hnot).
Defined.

(** [empty_filter_bank_never_returns] on the recipe without band. *)
Lemma empty_filter_bank_never_returns_witness :
  let dataset := Examples.dataset "p300" [] in
  filters Examples.no_band = []
  /\ (forall r, snd (Examples.P300_process_raw Examples.no_band Examples.raw_plain
                                               dataset false false) <> Ok (Some r))
  /\ (forall r, snd (Examples.Base_process_raw Examples.no_band Examples.raw_plain
                                               dataset false false) <> Ok (Some r)).
Proof.
  cbv zeta. split; [reflexivity|].
  exact (empty_filter_bank_never_returns
           (M := ToyMne.toy) BaseP300.P300_used_events Examples.no_band
           Examples.raw_plain (Examples.dataset "p300" []) false false eq_refl).
Defined.

(** [get_data_visits_every_run] on two subjects with three runs. *)
Lemma get_data_visits_every_run_witness :
  let dataset := Examples.dataset "p300" Examples.two_subjects in
  exists t r,
    Examples.P300_get_data Examples.fs_empty Examples.single_band dataset
                           None false false false = (t, Ok r)
    /\ ~ served_from_cache BaseP300.praw_t Examples.fs_empty dataset None false
    /\ ds_get_data dataset None = Ok Examples.two_subjects
    /\ exists t_cache t_loop t_write,
        t = t_cache
            ++ [CallIsValid (ds_code dataset); CallDatasetGetData None;
                CallPrepareProcess]
            ++ t_loop ++ t_write
        /\ forallb (fun e => negb (is_call e)) t_cache = true
        /\ forallb is_loop_effect t_loop = true
        /\ process_calls t_loop = map run_id (traversal Examples.two_subjects)
        /\ forallb (fun e => negb (is_call e)) t_write = true.
Proof.
  cbv zeta. eexists _, _.
  split; [vm_compute; reflexivity|].
  split; [apply not_served_without_cache|].
  split; [reflexivity|].
  eapply (get_data_visits_every_run
            (M := ToyMne.toy) BaseP300.praw_t BaseP300.is_valid
            (BaseP300.process_raw BaseP300.P300_used_events)
            Examples.fs_empty Examples.single_band
            (Examples.dataset "p300" Examples.two_subjects) false false None false);
    [vm_compute; reflexivity | apply not_served_without_cache | reflexivity].
Defined.

(** [metadata_rows_follow_runs] on the same batch. *)
Lemma metadata_rows_follow_runs_witness :
  let dataset := Examples.dataset "p300" Examples.two_subjects in
  exists t X labels metadata runs,
    Examples.P300_get_data Examples.fs_empty Examples.single_band dataset
                           None false false false
    = (t, Ok (X, labels, metadata, runs))
    /\ ~ served_from_cache BaseP300.praw_t Examples.fs_empty dataset None false
    /\ ds_get_data dataset None = Ok Examples.two_subjects
    /\ List.length metadata = 6%nat
    /\ blocks_by (traversal Examples.two_subjects) metadata
    /\ forall r, In r metadata ->
                 exists v, In v (traversal Examples.two_subjects)
                           /\ row_key r = key_of_run v.
Proof.
  cbv zeta. eexists _, _, _, _, _.
  split; [vm_compute; reflexivity|].
  split; [apply not_served_without_cache|].
  split; [reflexivity|].
  split; [reflexivity|].
  eapply (metadata_rows_follow_runs
            (M := ToyMne.toy) BaseP300.praw_t BaseP300.is_valid
            (BaseP300.process_raw BaseP300.P300_used_events)
            Examples.fs_empty Examples.single_band
            (Examples.dataset "p300" Examples.two_subjects) false false None false);
    [vm_compute; reflexivity | apply not_served_without_cache | reflexivity].
Defined.

(** [cache_round_trip] on one run, with a file system that accepts the
    write. *)
Lemma cache_round_trip_witness :
  let dataset :=
    Examples.dataset "p300" (Examples.one_subject [("run_0", Examples.raw_plain)]) in
  let key := BaseParadigm.key_of dataset None in
  exists t X labels metadata runs,
    let payload := {| pk_labels := Some labels; pk_metadata := Some metadata;
                      pk_X := Some X |} in
    Examples.P300_get_data Examples.fs_empty Examples.single_band dataset
                           None false false true
    = (t, Ok (X, labels, metadata, runs))
    /\ ~ served_from_cache BaseP300.praw_t Examples.fs_empty dataset None true
    /\ fs_dump Examples.fs_empty key payload = Ok tt
    /\ (exists t0, t = t0 ++ [Makedirs "/tmp/moabb/cache"; CacheWrite key payload])
    /\ forall (fs' : FileSystem) self' return_epochs' return_runs',
        fs_makedirs fs' = Ok tt ->
        fs_load fs' key = Ok payload ->
        snd (Examples.P300_get_data fs' self' dataset None
                                    return_epochs' return_runs' true)
        = Ok (X, labels, metadata, None).
Proof.
  cbv zeta.
  assert (Hmiss : ~ served_from_cache
                    BaseP300.praw_t Examples.fs_empty
                    (Examples.dataset "p300"
                       (Examples.one_subject [("run_0", Examples.raw_plain)]))
                    None true)
    by (intros (t & r & E); vm_compute in E; discriminate).
  eexists _, _, _, _, _.
  split; [vm_compute; reflexivity|].
  split; [exact Hmiss|].
  split; [reflexivity|].
  eapply (cache_round_trip
            (M := ToyMne.toy) BaseP300.praw_t BaseP300.is_valid
            (BaseP300.process_raw BaseP300.P300_used_events)
            Examples.fs_empty Examples.single_band
            (Examples.dataset "p300"
               (Examples.one_subject [("run_0", Examples.raw_plain)]))
            false false None);
    [vm_compute; reflexivity | exact Hmiss | reflexivity].
Defined.

(** [no_usable_run_raises] on a run whose only code is not in the
    vocabulary. *)
Lemma no_usable_run_raises_witness :
  let dat := Examples.one_subject [("run_0", Examples.raw_other_code)] in
  let dataset := Examples.dataset "p300" dat in
  BaseP300.is_valid Examples.single_band dataset = true
  /\ ds_get_data dataset None = Ok dat
  /\ (forall subject session run raw,
         In (subject, session, run, raw) (traversal dat) ->
         snd (Examples.P300_process_raw Examples.single_band raw dataset false false)
         = Ok None)
  /\ BaseParadigm.lookup BaseP300.praw_t Examples.fs_empty dataset None false
     = ([], Ok None)
  /\ snd (Examples.P300_get_data Examples.fs_empty Examples.single_band dataset
                                 None false false false)
     = Raise (ValueError "No objects to concatenate").
Proof.
  cbv zeta.
  assert (Hnone : forall subject session run raw,
             In (subject, session, run, raw)
                (traversal (Examples.one_subject [("run_0", Examples.raw_other_code)])) ->
             snd (Examples.P300_process_raw
                    Examples.single_band raw
                    (Examples.dataset "p300"
                       (Examples.one_subject [("run_0", Examples.raw_other_code)]))
                    false false)
             = Ok None).
  { intros subject session run raw H. simpl in H. destruct H as [H|[]].
    injection H as <- <- <- <-. vm_compute. reflexivity. }
  split; [reflexivity|]. split; [reflexivity|]. split; [exact Hnone|].
  split; [reflexivity|].
  exact (no_usable_run_raises
           (M := ToyMne.toy) BaseP300.praw_t BaseP300.is_valid
           (BaseP300.process_raw BaseP300.P300_used_events)
           Examples.fs_empty Examples.single_band
           (Examples.dataset "p300"
              (Examples.one_subject [("run_0", Examples.raw_other_code)]))
           false false None false [] _ eq_refl eq_refl Hnone eq_refl).
Defined.

(** [unreadable_cache_is_harmless] on the file system without cache file. *)
Lemma unreadable_cache_is_harmless_witness :
  let dataset :=
    Examples.dataset "p300" (Examples.one_subject [("run_0", Examples.raw_plain)]) in
  exists t0,
    BaseParadigm.lookup BaseP300.praw_t Examples.fs_empty dataset None true
    = (t0, Ok None)
    /\ snd (Examples.P300_get_data Examples.fs_empty Examples.single_band dataset
                                   None false false true)
       = snd (Examples.P300_get_data Examples.fs_empty Examples.single_band dataset
                                     None false false false).
Proof.
  cbv zeta. eexists. split; [vm_compute; reflexivity|].
  eapply (unreadable_cache_is_harmless
            (M := ToyMne.toy) BaseP300.praw_t BaseP300.is_valid
            (BaseP300.process_raw BaseP300.P300_used_events)
            Examples.fs_empty Examples.single_band
            (Examples.dataset "p300"
               (Examples.one_subject [("run_0", Examples.raw_plain)]))
            false false None).
  vm_compute. reflexivity.
Defined.

(** [labels_are_in_the_vocabulary] on the plain recording. *)
Lemma labels_are_in_the_vocabulary_witness :
  let dataset := Examples.dataset "p300" [] in
  exists raw' (X : ndarray) labels metadata runs events kw,
    Examples.P300_process_raw Examples.single_band Examples.raw_plain dataset
                              false false
    = (raw', Ok (Some (X, labels, metadata, (runs, events, kw))))
    /\ labels = ["Target"; "NonTarget"]
    /\ Forall (fun l => exists c, In (l, CodeInt c) (ek_event_id kw)) labels
    /\ exists event_id,
        BaseP300.P300_used_events Examples.single_band dataset = Ok event_id
        /\ (ek_event_id kw = event_id
            \/ ek_event_id kw = [("Target", CodeInt 1); ("NonTarget", CodeInt 0)]).
Proof.
  cbv zeta. eexists _, _, _, _, _, _, _.
  split; [vm_compute; reflexivity|].
  split; [reflexivity|].
  eapply (labels_are_in_the_vocabulary
            (M := ToyMne.toy) BaseP300.P300_used_events Examples.single_band
            Examples.raw_plain _ (Examples.dataset "p300" []) false false).
  vm_compute. reflexivity.
Defined.

(** [P300_paradigm_output] on [P300(tmax=0.5)] and the plain recording. *)
Lemma P300_paradigm_output_witness :
  let dataset := Examples.dataset "p300" [] in
  BaseP300.P300_init Examples.keywords_tmax = Ok Examples.single_band
  /\ exists raw' (X : ndarray) labels metadata praw,
      Examples.P300_process_raw Examples.single_band Examples.raw_plain dataset
                                false false
      = (raw', Ok (Some (X, labels, metadata, praw)))
      /\ (Forall (fun l => l = "Target"%string \/ l = "NonTarget"%string) labels
          /\ List.length labels = x_windows (M := ToyMne.toy) false X
          /\ List.length metadata = List.length labels)
      /\ exists c s, shape X = [List.length labels; c; s].
Proof.
  cbv zeta.
  destruct (P300_paradigm_output (M := ToyMne.toy) Examples.keywords_tmax
                                 Examples.single_band eq_refl) as (H1 & H2 & _).
  split; [reflexivity|].
  eexists _, _, _, _, _.
  split; [vm_compute; reflexivity|].
  split; [eapply (H1 Examples.raw_plain _ (Examples.dataset "p300" []) false false);
          vm_compute; reflexivity|].
  eapply (H2 Examples.raw_plain _ (Examples.dataset "p300" []) false);
    vm_compute; reflexivity.
Defined.

(** [grouped_codes_need_both_labels] on the dataset with grouped codes. *)
Lemma grouped_codes_need_both_labels_witness :
  exists raw' X labels metadata runs events kw,
    Examples.P300_process_raw Examples.single_band Examples.raw_plain
                              Examples.grouped_dataset true false
    = (raw', Ok (Some (X, labels, metadata, (runs, events, kw))))
    /\ BaseP300.P300_used_events Examples.single_band Examples.grouped_dataset
       = Ok (ds_event_id Examples.grouped_dataset)
    /\ In ("Target"%string, CodeList [1%Z]) (ds_event_id Examples.grouped_dataset)
    /\ ek_event_id kw = [("Target", CodeInt 1); ("NonTarget", CodeInt 0)]
    /\ exists targets nontargets,
        dict_get "Target" (ds_event_id Examples.grouped_dataset)
        = Some (CodeList targets)
        /\ dict_get "NonTarget" (ds_event_id Examples.grouped_dataset)
           = Some (CodeList nontargets).
Proof.
  eexists _, _, _, _, _, _, _.
  split; [vm_compute; reflexivity|].
  split; [reflexivity|].
  split; [left; reflexivity|].
  eapply (grouped_codes_need_both_labels
            (M := ToyMne.toy) BaseP300.P300_used_events Examples.single_band
            Examples.raw_plain _ Examples.grouped_dataset true false);
    [vm_compute; reflexivity | reflexivity | left; reflexivity].
Defined.

(** [base_never_returns_grouped_codes] on the same dataset. *)
Lemma base_never_returns_grouped_codes_witness :
  BaseP300.P300_used_events Examples.single_band Examples.grouped_dataset
  = Ok (ds_event_id Examples.grouped_dataset)
  /\ In ("Target"%string, CodeList [1%Z]) (ds_event_id Examples.grouped_dataset)
  /\ forall r, snd (Examples.Base_process_raw Examples.single_band Examples.raw_plain
                                              Examples.grouped_dataset false false)
               <> Ok (Some r).
Proof.
  split; [reflexivity|]. split; [left; reflexivity|].
  exact (base_never_returns_grouped_codes
           (M := ToyMne.toy) BaseP300.P300_used_events Examples.single_band
           Examples.raw_plain Examples.grouped_dataset false false
           (ds_event_id Examples.grouped_dataset) "Target" [1%Z]
           eq_refl (or_introl eq_refl)).
Defined.

(** [processed_runs_come_from_runs] on one run, with [return_runs]. *)
Lemma processed_runs_come_from_runs_witness :
  let dat := Examples.one_subject [("run_0", Examples.raw_plain)] in
  let dataset := Examples.dataset "p300" dat in
  exists t X labels metadata runs,
    Examples.P300_get_data Examples.fs_empty Examples.single_band dataset
                           None false true false
    = (t, Ok (X, labels, metadata, runs))
    /\ ~ served_from_cache BaseP300.praw_t Examples.fs_empty dataset None false
    /\ ds_get_data dataset None = Ok dat
    /\ exists processed,
        runs = Some processed
        /\ (true = false -> processed = [])
        /\ Forall (fun praw =>
                     exists subject session run raw x lbs met,
                       In (subject, session, run, raw) (traversal dat)
                       /\ snd (Examples.P300_process_raw Examples.single_band raw
                                                         dataset false true)
                          = Ok (Some (x, lbs, met, praw)))
                  processed.
Proof.
  cbv zeta. eexists _, _, _, _, _.
  split; [vm_compute; reflexivity|].
  split; [apply not_served_without_cache|].
  split; [reflexivity|].
  eapply (processed_runs_come_from_runs
            (M := ToyMne.toy) BaseP300.praw_t BaseP300.is_valid
            (BaseP300.process_raw BaseP300.P300_used_events)
            Examples.fs_empty Examples.single_band
            (Examples.dataset "p300"
               (Examples.one_subject [("run_0", Examples.raw_plain)]))
            false true None false);
    [vm_compute; reflexivity | apply not_served_without_cache | reflexivity].
Defined.
